(** * School portal and hospital portal: request handlers and template helpers

    A shallow embedding of the handlers of [SchoolWebsite_Python.py] (Flask) and
    [hospital_single_LOCAL_31222.py] (Django), with the properties their
    specification states about them.

    Python text is a list of Unicode code points, Python exceptions are the
    [Raise] side of [result], database tables are lists of rows in rowid order,
    and what the frameworks provide (the template engine, password hashing,
    date parsing) enters as section variables. *)

From Stdlib Require Import ZArith List Lia Bool.
From stdpp Require Import base option list gmap strings sorting pretty.

Open Scope Z_scope.

(** ** Python values shared by both applications *)

Module Py.

(** A Python [str]: its code points. *)
Abbreviation pystr := (list N).

(** An ASCII literal as a Python string. *)
Definition u (s : string) : pystr :=
  map Ascii.N_of_ascii (String.list_ascii_of_string s).
#[global] Arguments u : simpl never.

(** Exceptions the handlers can raise; [HTTPException] carries its status. *)
Inductive exn :=
| RuntimeError (msg : pystr)
| TypeError
| ValueError
| KeyError
| AttributeError
| ZeroDivisionError
| IntegrityError
| DoesNotExist
| OverflowError
| IndexError
| PageNotAnInteger
| EmptyPage
| HTTPException (status : Z).

Inductive result (A : Type) :=
| Ok (a : A)
| Raise (e : exn).
Arguments Ok {A} a.
Arguments Raise {A} e.

#[global] Instance result_ret : MRet result := λ A a, Ok a.
#[global] Instance result_bind : MBind result :=
  λ A B f m, match m with Ok a => f a | Raise e => Raise e end.

(** [str.isspace], which is also the class [\s] of [re] on [str] patterns. *)
Definition is_space (c : N) : bool :=
  ((9 <=? c) && (c <=? 13) || (28 <=? c) && (c <=? 32)
   || (c =? 133) || (c =? 160) || (c =? 5760)
   || (8192 <=? c) && (c <=? 8202)
   || (c =? 8232) || (c =? 8233) || (c =? 8239) || (c =? 8287) || (c =? 12288))%N.

(** [s.lstrip()], [s.rstrip()] and [s.strip()]. *)
Fixpoint lstrip (s : pystr) : pystr :=
  match s with
  | c :: s' => if is_space c then lstrip s' else s
  | [] => []
  end.

Definition rstrip (s : pystr) : pystr := rev (lstrip (rev s)).

Definition strip (s : pystr) : pystr := rstrip (lstrip s).

(** Lower-casing of the ASCII letters, as SQLite's [lower()] and [LIKE] do it. *)
Definition ascii_lower (c : N) : N :=
  if ((65 <=? c) && (c <=? 90))%N then (c + 32)%N else c.

Definition lower (s : pystr) : pystr := map ascii_lower s.

(** [s.startswith(p)], returning the rest. *)
Fixpoint strip_prefix (p s : pystr) : option pystr :=
  match p, s with
  | [], _ => Some s
  | a :: p', b :: s' => if (a =? b)%N then strip_prefix p' s' else None
  | _ :: _, [] => None
  end.

(** [needle in hay]. *)
Fixpoint contains (needle hay : pystr) : bool :=
  match strip_prefix needle hay with
  | Some _ => true
  | None => match hay with
            | [] => false
            | _ :: hay' => contains needle hay'
            end
  end.

(** Python truthiness of a string, and of [form.get(k)] returning [None]. *)
Definition truthy (s : pystr) : bool := negb (bool_decide (s = [])).

End Py.
Import Py.

(** ** [int / int] and [math.ceil]

    True division of two [int]s gives the float nearest to the quotient
    (binary64: 53 bits, ties to even, subnormal below [2 ^ -1022], zero below
    half of [2 ^ -1074]), whatever the size of the operands. *)

Module PyFloat.

(** A finite float: [mantissa * 2 ^ exponent]. *)
Record t := Build { mantissa : Z; exponent : Z }.

(** [2 ^ k] for [0 <= k], and 1 below: [x * 2 ^ k] is the fraction
    [x * pow2 k / pow2 (- k)]. *)
Definition pow2 (k : Z) : Z := 2 ^ Z.max 0 k.

(** [n / d] to the nearest integer, a tie to the even one ([0 <= n], [0 < d]). *)
Definition round_half_even (n d : Z) : Z :=
  let q := n `div` d in
  let r := n `mod` d in
  if 2 * r <? d then q
  else if d <? 2 * r then q + 1
  else if Z.even q then q else q + 1.

(** The exponent [e] of [a / b]: [2 ^ e <= a / b < 2 ^ (e + 1)] ([0 < a], [0 < b]). *)
Definition ilog2_ratio (a b : Z) : Z :=
  let e := Z.log2 a - Z.log2 b in
  if b * pow2 e <=? a * pow2 (- e) then e else e - 1.

(** [a / b] *)
Definition truediv (a b : Z) : result t :=
  if b =? 0 then Raise ZeroDivisionError
  else if a =? 0 then Ok (Build 0 0)
  else
    let e := Z.max (ilog2_ratio (Z.abs a) (Z.abs b)) (-1022) in
    let s := e - 52 in   (* the last place *)
    let m := round_half_even (Z.abs a * pow2 (- s)) (Z.abs b * pow2 s) in
    if 2 ^ 1024 * pow2 (- s) <=? m * pow2 s then Raise OverflowError
    else Ok (Build (Z.sgn a * Z.sgn b * m) s).

(** [math.ceil(x)] *)
Definition ceil (x : t) : Z :=
  - ((- (mantissa x * pow2 (exponent x))) `div` pow2 (- exponent x)).

End PyFloat.

(** ** The fragment of [re] used by [render]

    Patterns are sequences of literals, character classes and greedy or lazy
    repetitions of a class; one capture group; [^] under [re.MULTILINE].
    Matching is by backtracking in the order of Python's engine: a greedy
    repetition tries the longest run first, a lazy one the shortest, and
    [search] takes the leftmost position at which the pattern matches. *)

Module Re.

Inductive item :=
| Lit (s : pystr)                    (* literal text *)
| Cls (p : N → bool)                 (* one character of a class *)
| Star (greedy : bool) (p : N → bool)(* class* and class*? *)
| Plus (p : N → bool)                (* class+ *)
| Bol                                (* ^ with re.MULTILINE *)
| GOpen                              (* ( *)
| GClose.                            (* ) *)

(** Cursor of a match: the character before it, the text ahead, where the
    group opened and what it captured. *)
Record cursor := Cursor {
  prev : option N;
  ahead : pystr;
  g_open : option pystr;
  g_text : option pystr }.

Definition move (st : cursor) (p : option N) (s : pystr) : cursor :=
  Cursor p s (g_open st) (g_text st).

Fixpoint star_greedy {R} (p : N → bool) (k : option N → pystr → option R)
    (pv : option N) (s : pystr) : option R :=
  match s with
  | c :: s' =>
      if p c then
        match star_greedy p k (Some c) s' with
        | Some r => Some r
        | None => k pv s
        end
      else k pv s
  | [] => k pv []
  end.

Fixpoint star_lazy {R} (p : N → bool) (k : option N → pystr → option R)
    (pv : option N) (s : pystr) : option R :=
  match k pv s with
  | Some r => Some r
  | None =>
      match s with
      | c :: s' => if p c then star_lazy p k (Some c) s' else None
      | [] => None
      end
  end.

Definition last_of (l : pystr) (pv : option N) : option N :=
  match last l with Some c => Some c | None => pv end.

Fixpoint exec (pat : list item) (st : cursor) : option cursor :=
  match pat with
  | [] => Some st
  | Lit l :: pat' =>
      match strip_prefix l (ahead st) with
      | Some s' => exec pat' (move st (last_of l (prev st)) s')
      | None => None
      end
  | Cls p :: pat' =>
      match ahead st with
      | c :: s' => if p c then exec pat' (move st (Some c) s') else None
      | [] => None
      end
  | Star true p :: pat' =>
      star_greedy p (λ pv s, exec pat' (move st pv s)) (prev st) (ahead st)
  | Star false p :: pat' =>
      star_lazy p (λ pv s, exec pat' (move st pv s)) (prev st) (ahead st)
  | Plus p :: pat' =>
      match ahead st with
      | c :: s' =>
          if p c then star_greedy p (λ pv s, exec pat' (move st pv s)) (Some c) s'
          else None
      | [] => None
      end
  | Bol :: pat' =>
      match prev st with
      | None => exec pat' st
      | Some c => if (c =? 10)%N then exec pat' st else None
      end
  | GOpen :: pat' =>
      exec pat' (Cursor (prev st) (ahead st) (Some (ahead st)) (g_text st))
  | GClose :: pat' =>
      let txt := match g_open st with
                 | Some o => Some (take (length o - length (ahead st))%nat o)
                 | None => None
                 end in
      exec pat' (Cursor (prev st) (ahead st) (g_open st) txt)
  end.

(** Leftmost match: its offset and the cursor at its end. *)
Fixpoint scan (pat : list item) (pv : option N) (s : pystr) : option (nat * cursor) :=
  match exec pat (Cursor pv s None None) with
  | Some st => Some (O, st)
  | None =>
      match s with
      | c :: s' =>
          match scan pat (Some c) s' with
          | Some (n, st) => Some (S n, st)
          | None => None
          end
      | [] => None
      end
  end.

(** [re.search(pat, s)]; the match object reduced to [m.group(1)]. *)
Definition search_group1 (pat : list item) (s : pystr) : option pystr :=
  match scan pat None s with
  | Some (_, st) => Some (default [] (g_text st))
  | None => None
  end.

(** [re.sub(pat, '', s, count=1)] for a pattern that matches no empty text. *)
Definition sub1_empty (pat : list item) (s : pystr) : pystr :=
  match scan pat None s with
  | Some (n, st) => take n s ++ ahead st
  | None => s
  end.

Definition quote (c : N) : bool := ((c =? 34) || (c =? 39))%N.
Definition any (c : N) : bool := is_space c || negb (is_space c).

(** [r'^\s*\{%\s*extends\s+["\']base["\']\s*%}\s*'] *)
Definition extends_re : list item :=
  [Bol; Star true is_space; Lit (u "{%"); Star true is_space; Lit (u "extends");
   Plus is_space; Cls quote; Lit (u "base"); Cls quote; Star true is_space;
   Lit (u "%}"); Star true is_space].

(** [r'\{%\s*block\s+content\s*%}([\s\S]*?)\{%\s*endblock\s*%}'] *)
Definition block_re : list item :=
  [Lit (u "{%"); Star true is_space; Lit (u "block"); Plus is_space;
   Lit (u "content"); Star true is_space; Lit (u "%}");
   GOpen; Star false any; GClose;
   Lit (u "{%"); Star true is_space; Lit (u "endblock"); Star true is_space;
   Lit (u "%}")].

End Re.

(** ** JSON values as [json.loads] and [request.json] produce them *)

Module Json.

(** A Python [float]: the rational a finite double denotes, or a special. *)
Inductive pyfloat :=
| Finite (num : Z) (den : positive)
| Inf (negative : bool)
| NaN.

#[warnings="-register-all"]
Inductive json :=
| JNull
| JBool (b : bool)
| JInt (z : Z)
| JFloat (f : pyfloat)
| JStr (s : pystr)
| JArr (l : list json)
| JObj (m : list (pystr * json)).

(** [bool(v)]. *)
Definition truthy (v : json) : bool :=
  match v with
  | JNull => false
  | JBool b => b
  | JInt z => negb (z =? 0)
  | JFloat (Finite n _) => negb (n =? 0)
  | JFloat _ => true
  | JStr s => Py.truthy s
  | JArr l => negb (bool_decide (l = []))
  | JObj m => negb (bool_decide (m = []))
  end.

(** [d.get(k)] on a [dict] with string keys, insertion-ordered. *)
Fixpoint dict_get {V} (k : pystr) (m : list (pystr * V)) : option V :=
  match m with
  | [] => None
  | (k', v) :: m' => if bool_decide (k' = k) then Some v else dict_get k m'
  end.

(** [v.get(k)]: only a [dict] has the method; a missing key gives [None]. *)
Definition get (v : json) (k : pystr) : result json :=
  match v with
  | JObj m => Ok (default JNull (dict_get k m))
  | _ => Raise AttributeError
  end.

(** [int(v)], with [int] of a string left to [py_int]. *)
Definition to_int (py_int : pystr → option Z) (v : json) : result Z :=
  match v with
  | JInt z => Ok z
  | JBool b => Ok (if b then 1 else 0)
  | JFloat (Finite n d) => Ok (Z.quot n (Z.pos d))
  | JFloat (Inf _) => Raise OverflowError
  | JFloat NaN => Raise ValueError
  | JStr s => match py_int s with Some z => Ok z | None => Raise ValueError end
  | JNull | JArr _ | JObj _ => Raise TypeError
  end.

End Json.
Import Json.

(** ** The school portal ([SchoolWebsite_Python.py]) *)

Module School.

(** [datetime.date], by its ordinal. *)
Abbreviation date := Z.

Module User.
Record t := Build {
  id : Z;
  username : pystr;
  password_hash : pystr;
  role : pystr }.
End User.

Module Student.
Record t := Build {
  id : Z;
  roll_no : pystr;
  name : pystr;
  email : option pystr;
  class_name : option pystr;
  extra : option pystr }.
End Student.

Module Attendance.
Record t := Build {
  id : Z;
  date : School.date;
  status : pystr;
  student_id : Z }.
End Attendance.

(** [marks] and [max_marks] are [Float] columns that only ever receive the
    integers of [GradeForm] (or the default 100). *)
Module Grade.
Record t := Build {
  id : Z;
  subject : pystr;
  marks : Z;
  max_marks : Z;
  term : option pystr;
  remarks : option pystr;
  student_id : Z }.
End Grade.

Record DB := MkDB {
  users : list User.t;
  students_tbl : list Student.t;
  attendance_tbl : list Attendance.t;
  grades_tbl : list Grade.t }.

(** The fields of a submitted [EnrollForm] / [GradeForm] as the template sees
    them, with the validation errors. *)
Record FormState := MkForm {
  form_data : gmap pystr pystr;
  form_errors : list pystr }.

(** Objects a handler hands to a template. *)
Inductive value :=
| VStr (s : pystr)
| VInt (z : Z)
| VDate (d : date)
| VStudent (s : Student.t)
| VStudents (l : list Student.t)
| VAttendances (l : list Attendance.t)
| VGrades (l : list (Grade.t * option Student.t))
| VExisting (m : gmap Z Attendance.t)
| VSummary (l : list (date * Z * Z))
| VForm (f : FormState).

(** A flashed message: [(category, message)]. *)
Abbreviation flashes := (list (pystr * pystr)).

Inductive http_method := GET | HEAD | POST | PUT | PATCH | DELETE | OPTIONS.

#[global] Instance http_method_eq_dec : EqDecision http_method.
Proof. solve_decision. Defined.

Record Request := MkRequest {
  method : http_method;
  endpoint : pystr;                  (* the endpoint the URL rule selects *)
  view_arg : Z;                      (* the <int:student_id> part of the URL *)
  url : pystr;                       (* request.url *)
  args : gmap pystr pystr;           (* request.args *)
  form : gmap pystr pystr;           (* request.form *)
  json : result Json.json;           (* what evaluating request.json gives *)
  session_user : option Z;           (* the user id stored in the session *)
  csrf_ok : bool;                    (* the form carries a valid CSRF token *)
  today : date;                      (* date.today() *)
  salt : pystr }.                    (* the salt generate_password_hash draws *)

(** What the application holds between requests. *)
Record World := MkWorld {
  db : DB;
  flashed : flashes;                 (* session['_flashes'] *)
  debug : bool }.                    (* app.debug *)

Definition set_db (d : DB) (w : World) : World := MkWorld d (flashed w) (debug w).
Definition set_flashed (f : flashes) (w : World) : World := MkWorld (db w) f (debug w).

(** Handlers run on the world and may raise. *)
Definition M (A : Type) : Type := World → result (A * World).

#[global] Instance M_ret : MRet M := λ A a w, Ok (a, w).
#[global] Instance M_bind : MBind M :=
  λ A B f m w, match m w with Ok (a, w') => f a w' | Raise e => Raise e end.

Definition raise {A} (e : exn) : M A := λ _, Raise e.
Definition lift {A} (r : result A) : M A :=
  λ w, match r with Ok a => Ok (a, w) | Raise e => Raise e end.
Definition get_db : M DB := λ w, Ok (db w, w).
Definition commit (d : DB) : M unit := λ w, Ok (tt, set_db d w).

(** [flash(message, category)]. *)
Definition flash (message category : pystr) : M unit :=
  λ w, Ok (tt, set_flashed (flashed w ++ [(category, message)]) w).

Inductive response :=
| Html (status : Z) (body : pystr)
| Redirect (endpoint : pystr) (params : list (pystr * pystr))
| SendFile (mimetype download_name : pystr) (rows : list (list pystr)).

(** What Flask and the libraries provide. [render_template_string] reads the
    context, whether [current_user] is authenticated and the flashed messages
    (which [get_flashed_messages] consumes), and gives the HTML and the
    messages left. *)
Class Flask := {
  render_template_string :
    pystr → gmap pystr value → bool → flashes → result (pystr * flashes);
  generate_password_hash : pystr → pystr → pystr;   (* salt, password *)
  fromisoformat : pystr → option date;              (* date.fromisoformat *)
  isoformat : date → pystr;                         (* d.isoformat() *)
  py_int : pystr → option Z;                        (* int(s) *)
  email_ok : pystr → bool }.                        (* wtforms' Email() *)

Section Handlers.
Context `{Flask}.

(** The templates' texts; [template_env] registers them under these names. *)
Record Templates := MkTemplates {
  base_tpl : pystr; login_tpl : pystr; index_tpl : pystr; students_tpl : pystr;
  enroll_tpl : pystr; attendance_tpl : pystr; grades_tpl : pystr;
  view_student_tpl : pystr; report_tpl : pystr }.

Context (T : Templates).

Definition template_env : gmap pystr pystr :=
  list_to_map
    [(u "base", base_tpl T); (u "login.html", login_tpl T);
     (u "index.html", index_tpl T); (u "students.html", students_tpl T);
     (u "enroll.html", enroll_tpl T); (u "attendance.html", attendance_tpl T);
     (u "grades.html", grades_tpl T); (u "view_student.html", view_student_tpl T);
     (u "report.html", report_tpl T)].

(** [load_user] and [current_user.is_authenticated]. *)
Definition load_user (d : DB) (user_id : Z) : option User.t :=
  find (λ usr, bool_decide (User.id usr = user_id)) (users d).

Definition is_authenticated (req : Request) (w : World) : bool :=
  bool_decide (is_Some (session_user req ≫= load_user (db w))).

(** [render_template_string(source, **context)] in the request at hand; a
    context that binds [source] collides with the first parameter. *)
Definition render_string (req : Request) (tpl : pystr)
    (context : gmap pystr value) : M pystr :=
  λ w, match context !! u "source" with
       | Some _ => Raise TypeError
       | None =>
           match render_template_string tpl context (is_authenticated req w) (flashed w) with
           | Ok (html, rest) => Ok (html, set_flashed rest w)
           | Raise e => Raise e
           end
       end.

(** Binding of [f(k=v, **kw)]: a keyword given twice is a [TypeError]. *)
Definition kwargs (k : pystr) (v : value) (kw : gmap pystr value)
    : result (gmap pystr value) :=
  match kw !! k with
  | Some _ => Raise TypeError
  | None => Ok (<[k := v]> kw)
  end.

(** [render(name, **context)]. *)
Definition render (req : Request) (name : pystr) (context : gmap pystr value)
    : M pystr :=
  match context !! u "name" with
  | Some _ => raise TypeError      (* render() got multiple values for 'name' *)
  | None =>
    match template_env !! name with
    | None => raise (RuntimeError (u "Template not found: " ++ name))
    | Some child =>
        let child := Re.sub1_empty Re.extends_re child in
        let inner := match Re.search_group1 Re.block_re child with
                     | Some g => g
                     | None => child
                     end in
        child_html ← render_string req inner context;
        match template_env !! u "base" with
        | None => raise KeyError
        | Some full =>
            kw ← lift (kwargs (u "child_content") (VStr child_html) context);
            render_string req full kw
        end
    end
  end.

(** *** Queries *)

(** Bytewise order of SQLite's BINARY collation, which on UTF-8 text is the
    order of the code points. *)
Fixpoint str_leb (a b : pystr) : bool :=
  match a, b with
  | [], _ => true
  | _ :: _, [] => false
  | x :: a', y :: b' =>
      if (x <? y)%N then true
      else if (x =? y)%N then str_leb a' b' else false
  end.

Definition by_roll_no (s t : Student.t) : Prop :=
  str_leb (Student.roll_no s) (Student.roll_no t) = true.

#[global] Instance by_roll_no_dec s t : Decision (by_roll_no s t).
Proof. unfold by_roll_no. apply _. Defined.

(** [Student.query.order_by(Student.roll_no).all()] *)
Definition order_by_roll_no (l : list Student.t) : list Student.t :=
  merge_sort by_roll_no l.

(** SQLite's [LIKE]: [%] stands for any text, [_] for any one character, and
    letters of ASCII compare without case. There is no escape character. *)
Fixpoint like (pat : pystr) : pystr → bool :=
  match pat with
  | [] => λ s, bool_decide (s = [])
  | c :: pat' =>
      if (c =? 37)%N then
        fix any_run (s : pystr) : bool :=
          like pat' s || match s with [] => false | _ :: s' => any_run s' end
      else if (c =? 95)%N then
        λ s, match s with [] => false | _ :: s' => like pat' s' end
      else
        λ s, match s with
             | [] => false
             | d :: s' => (ascii_lower c =? ascii_lower d)%N && like pat' s'
             end
  end.

(** [column.ilike(pat)], which SQLAlchemy renders for SQLite as
    [lower(column) LIKE lower(pat)]. *)
Definition ilike (column pat : pystr) : bool := like (lower pat) (lower column).

(** The next rowid of a table with [INTEGER PRIMARY KEY]. *)
Definition next_id (ids : list Z) : Z := 1 + foldr Z.max 0 ids.

Definition present_on (d : date) (a : Attendance.t) : bool :=
  bool_decide (Attendance.date a = d)
  && bool_decide (Attendance.status a = u "Present").

(** *** flask_login *)

(** [LoginManager.unauthorized()] with [login_view = "login"]. *)
Definition unauthorized (req : Request) : M response :=
  _ ← flash (u "Please log in to access this page.") (u "message");
  mret (Redirect (u "login") [(u "next", url req)]).

(** [@login_required]; [OPTIONS] is in [EXEMPT_METHODS]. *)
Definition login_required (view : Request → M response) (req : Request)
    : M response :=
  λ w, if bool_decide (method req = OPTIONS) then view req w
       else if is_authenticated req w then view req w
       else unauthorized req w.

(** *** Views *)

Definition page (req : Request) (name : pystr) (context : list (pystr * value))
    : M response :=
  html ← render req name (list_to_map context);
  mret (Html 200 html).

Definition dq : pystr := [34%N].

Definition init_form_html : pystr :=
  u "<h3>Init / Reset admin</h3><form method='post'>Password: <input name='password'/>"
  ++ u "<button type='submit'>Set admin password</button></form><p>Or POST JSON {"
  ++ dq ++ u "password" ++ dq ++ u ":" ++ dq ++ u "..." ++ dq ++ u "}</p>".

(** [request.form.get('password') or (request.json or {}).get('password')] *)
Definition submitted_password (req : Request) : result Json.json :=
  match form req !! u "password" with
  | Some s => if Py.truthy s then Ok (JStr s) else
                j ← json req;
                Json.get (if Json.truthy j then j else JObj []) (u "password")
  | None => j ← json req;
            Json.get (if Json.truthy j then j else JObj []) (u "password")
  end.

(** [u.set_password(newpw); db.session.commit()] on the user named admin,
    created when missing. *)
Definition set_admin_password (hash : pystr) (d : DB) : DB :=
  match find (λ usr, bool_decide (User.username usr = u "admin")) (users d) with
  | Some adm =>
      MkDB (map (λ usr, if bool_decide (User.id usr = User.id adm)
                        then User.Build (User.id usr) (User.username usr) hash (User.role usr)
                        else usr) (users d))
           (students_tbl d) (attendance_tbl d) (grades_tbl d)
  | None =>
      MkDB (users d ++ [User.Build (next_id (User.id <$> users d)) (u "admin") hash (u "admin")])
           (students_tbl d) (attendance_tbl d) (grades_tbl d)
  end.

Definition init_admin (req : Request) : M response :=
  λ w,
  if negb (debug w) then Ok (Html 403 (u "Not allowed"), w)
  else if bool_decide (method req = GET) then Ok (Html 200 init_form_html, w)
  else
    match submitted_password req with
    | Raise e => Raise e
    | Ok newpw =>
        if negb (Json.truthy newpw) then Ok (Html 400 (u "Provide password"), w)
        else
          match newpw with
          | JStr pw =>
              Ok (Html 200 (u "Admin password set to: <strong>" ++ pw
                            ++ u "</strong> (use admin / " ++ pw ++ u ")"),
                  set_db (set_admin_password (generate_password_hash (salt req) pw) (db w)) w)
          | _ => Raise AttributeError   (* generate_password_hash needs a str *)
          end
    end.

Definition index (req : Request) : M response :=
  d ← get_db;
  let total_students := Z.of_nat (length (students_tbl d)) in
  let present_count :=
    Z.of_nat (length (filter (λ a, present_on (today req) a = true) (attendance_tbl d))) in
  page req (u "index.html")
    [(u "total_students", VInt total_students);
     (u "present_count", VInt present_count);
     (u "today", VDate (today req))].

(** The list [students] hands to its template. *)
Definition students_query (q : pystr) (d : DB) : list Student.t :=
  if Py.truthy q then
    filter (λ s, ilike (Student.name s) (u "%" ++ q ++ u "%")
                 || ilike (Student.roll_no s) (u "%" ++ q ++ u "%") = true)
           (students_tbl d)
  else order_by_roll_no (students_tbl d).

Definition students (req : Request) : M response :=
  d ← get_db;
  let q := default [] (args req !! u "q") in
  let students := students_query q d in
  page req (u "students.html") [(u "students", VStudents students); (u "q", VStr q)].

(** wtforms validators on one submitted field. *)
Definition data_required (v : option pystr) : bool :=
  match v with
  | Some s => Py.truthy s && Py.truthy (strip s)
  | None => false
  end.

Definition length_between (lo hi : nat) (v : option pystr) : bool :=
  let n := match v with Some s => length s | None => O end in
  bool_decide (lo ≤ n)%nat && bool_decide (n ≤ hi)%nat.

Definition blank (v : option pystr) : bool :=
  match v with
  | Some s => negb (Py.truthy (strip s))
  | None => true
  end.

(** [form.is_submitted()] *)
Definition is_submitted (req : Request) : bool :=
  bool_decide (method req ∈ [POST; PUT; PATCH; DELETE]).

(** [EnrollForm().validate_on_submit()] *)
Definition enroll_validate_on_submit (req : Request) : bool :=
  let f := form req in
  is_submitted req && csrf_ok req
  && data_required (f !! u "roll_no") && length_between 1 20 (f !! u "roll_no")
  && data_required (f !! u "name") && length_between 1 120 (f !! u "name")
  && (blank (f !! u "email") || email_ok (default [] (f !! u "email")))
  && (blank (f !! u "class_name") || length_between 1 50 (f !! u "class_name")).

(** [db.session.add(s); db.session.commit()]: [roll_no] is [unique]. *)
Definition insert_student (roll name : pystr) (email cls extra : option pystr)
    (d : DB) : result DB :=
  if bool_decide (roll ∈ Student.roll_no <$> students_tbl d) then Raise IntegrityError
  else Ok (MkDB (users d)
                (students_tbl d ++
                   [Student.Build (next_id (Student.id <$> students_tbl d))
                                  roll name email cls extra])
                (attendance_tbl d) (grades_tbl d)).

Definition enroll (req : Request) : M response :=
  let f := form req in
  let form := VForm (MkForm f []) in
  if enroll_validate_on_submit req then
    d ← get_db;
    let roll := default [] (f !! u "roll_no") in
    let name := default [] (f !! u "name") in
    match find (λ s, bool_decide (Student.roll_no s = roll)) (students_tbl d) with
    | Some _ =>
        _ ← flash (u "Roll Number already exists.") (u "warning");
        page req (u "enroll.html") [(u "form", form)]
    | None =>
        d' ← lift (insert_student (strip roll) (strip name) (f !! u "email")
                                  (f !! u "class_name") (f !! u "extra") d);
        _ ← commit d';
        _ ← flash (u "Student enrolled.") (u "success");
        mret (Redirect (u "students") [])
    end
  else page req (u "enroll.html") [(u "form", form)].

Definition newest_date_first (a b : Attendance.t) : Prop :=
  Attendance.date b ≤ Attendance.date a.
Definition newest_grade_first (a b : Grade.t) : Prop := Grade.id b ≤ Grade.id a.

#[global] Instance newest_date_first_dec a b : Decision (newest_date_first a b).
Proof. unfold newest_date_first. apply _. Defined.
#[global] Instance newest_grade_first_dec a b : Decision (newest_grade_first a b).
Proof. unfold newest_grade_first. apply _. Defined.

Definition with_student (d : DB) (g : Grade.t) : Grade.t * option Student.t :=
  (g, find (λ s, bool_decide (Student.id s = Grade.student_id g)) (students_tbl d)).

Definition view_student (req : Request) : M response :=
  d ← get_db;
  match find (λ s, bool_decide (Student.id s = view_arg req)) (students_tbl d) with
  | None => raise (HTTPException 404)
  | Some s =>
      let attendances :=
        take 30 (merge_sort newest_date_first
                   (filter (λ a, Attendance.student_id a = Student.id s) (attendance_tbl d))) in
      let grades :=
        take 30 (merge_sort newest_grade_first
                   (filter (λ g, Grade.student_id g = Student.id s) (grades_tbl d))) in
      page req (u "view_student.html")
        [(u "s", VStudent s); (u "attendances", VAttendances attendances);
         (u "grades", VGrades (with_student d <$> grades))]
  end.

(** [str(n)] of an [int]. *)
Definition str_of_int (n : Z) : pystr := u (pretty n).

(** The loop of [attendance] that adds one record per student. *)
Definition mark (f : gmap pystr pystr) (d : date) (tbl : list Attendance.t)
    (s : Student.t) : list Attendance.t :=
  let status := default (u "Absent") (f !! (u "status_" ++ str_of_int (Student.id s))) in
  tbl ++ [Attendance.Build (next_id (Attendance.id <$> tbl)) d status (Student.id s)].

Definition parse_date (v : option pystr) : result date :=
  match v with
  | None => Raise TypeError
  | Some s => match fromisoformat s with Some d => Ok d | None => Raise ValueError end
  end.

Definition attendance (req : Request) : M response :=
  selected_date ← lift (match args req !! u "date" with
                        | Some s => if Py.truthy s then parse_date (Some s) else Ok (today req)
                        | None => Ok (today req)
                        end);
  d0 ← get_db;
  let students := order_by_roll_no (students_tbl d0) in
  if bool_decide (method req = POST) then
    d ← lift (parse_date (form req !! u "date"));
    let kept := filter (λ a, Attendance.date a ≠ d) (attendance_tbl d0) in
    let tbl := foldl (mark (form req) d) kept students in
    _ ← commit (MkDB (users d0) (students_tbl d0) tbl (grades_tbl d0));
    _ ← flash (u "Attendance saved.") (u "success");
    mret (Redirect (u "attendance") [(u "date", isoformat d)])
  else
    let existing_q := filter (λ a, Attendance.date a = selected_date) (attendance_tbl d0) in
    let existing : gmap Z Attendance.t :=
      foldl (λ m a, <[Attendance.student_id a := a]> m) ∅ existing_q in
    page req (u "attendance.html")
      [(u "students", VStudents students); (u "existing", VExisting existing);
       (u "selected_date", VDate selected_date)].

(** An [IntegerField]: absent, or the text and what [int] makes of it. *)
Definition int_field (v : option pystr) : option Z := v ≫= py_int.

(** [GradeForm().validate_on_submit()] *)
Definition grade_validate_on_submit (req : Request) (d : DB) : bool :=
  let f := form req in
  is_submitted req && csrf_ok req
  && match int_field (f !! u "student_id") with
     | Some sid => bool_decide (sid ∈ Student.id <$> students_tbl d) && negb (sid =? 0)
     | None => false
     end
  && data_required (f !! u "subject") && length_between 1 80 (f !! u "subject")
  && match int_field (f !! u "marks") with
     | Some m => negb (m =? 0) && (0 <=? m)
     | None => false
     end
  && (blank (f !! u "max_marks") || bool_decide (is_Some (int_field (f !! u "max_marks")))).

Definition grades (req : Request) : M response :=
  d ← get_db;
  let f := form req in
  if grade_validate_on_submit req d then
    let max_marks := match int_field (f !! u "max_marks") with
                     | Some m => if m =? 0 then 100 else m
                     | None => 100
                     end in
    let g := Grade.Build (next_id (Grade.id <$> grades_tbl d))
               (strip (default [] (f !! u "subject")))
               (default 0 (int_field (f !! u "marks"))) max_marks
               (Some (default (u "Term 1") (f !! u "term"))) (f !! u "remarks")
               (default 0 (int_field (f !! u "student_id"))) in
    _ ← commit (MkDB (users d) (students_tbl d) (attendance_tbl d) (grades_tbl d ++ [g]));
    _ ← flash (u "Grade saved.") (u "success");
    mret (Redirect (u "grades") [])
  else
    let grades := take 100 (merge_sort newest_grade_first (grades_tbl d)) in
    page req (u "grades.html")
      [(u "form", VForm (MkForm f [])); (u "grades", VGrades (with_student d <$> grades))].

Definition export_students (req : Request) : M response :=
  d ← get_db;
  let students := order_by_roll_no (students_tbl d) in
  let row (s : Student.t) :=
    [Student.roll_no s; Student.name s; default [] (Student.email s);
     default [] (Student.class_name s); default [] (Student.extra s)] in
  mret (SendFile (u "text/csv") (u "students.csv")
          ([u "roll_no"; u "name"; u "email"; u "class_name"; u "extra"]
           :: (row <$> students))).

Definition report (req : Request) : M response :=
  d ← get_db;
  let dates := (λ i, today req - Z.of_nat i) <$> seq 0 7 in
  let summary :=
    (λ day, (day,
             Z.of_nat (length (filter (λ a, present_on day a = true) (attendance_tbl d))),
             Z.of_nat (length (students_tbl d)))) <$> dates in
  page req (u "report.html") [(u "summary", VSummary summary)].

(** *** The URL map *)

Record Route := MkRoute {
  rule : pystr;
  methods : list http_method;
  route_endpoint : pystr;
  view : Request → M response }.

(** The [@app.route] registrations of the views above ([login] and [logout],
    which the properties below only name as redirect targets, are left out). *)
Definition url_map : list Route :=
  [MkRoute (u "/init-admin") [GET; POST] (u "init_admin") init_admin;
   MkRoute (u "/") [GET] (u "index") (login_required index);
   MkRoute (u "/students") [GET] (u "students") (login_required students);
   MkRoute (u "/enroll") [GET; POST] (u "enroll") (login_required enroll);
   MkRoute (u "/student/<int:student_id>") [GET] (u "view_student")
           (login_required view_student);
   MkRoute (u "/attendance") [GET; POST] (u "attendance") (login_required attendance);
   MkRoute (u "/grades") [GET; POST] (u "grades") (login_required grades);
   MkRoute (u "/export/students.csv") [GET] (u "export_students")
           (login_required export_students);
   MkRoute (u "/report") [GET] (u "report") (login_required report)].

(** The routes that show or change student data. *)
Definition data_endpoints : list pystr :=
  [u "index"; u "students"; u "enroll"; u "view_student"; u "attendance";
   u "grades"; u "export_students"; u "report"].

(** Methods a rule accepts: Flask adds [HEAD] to a rule that takes [GET]. *)
Definition accepts (r : Route) (m : http_method) : bool :=
  bool_decide (m ∈ methods r)
  || (bool_decide (m = HEAD) && bool_decide (GET ∈ methods r)).

(** [Flask.dispatch_request]: [OPTIONS] is answered automatically, a method
    the rule does not list is a 405, anything else reaches the view. *)
Definition dispatch_request (req : Request) : M response :=
  match find (λ r, bool_decide (route_endpoint r = endpoint req)) url_map with
  | None => raise (HTTPException 404)
  | Some r =>
      if bool_decide (method req = OPTIONS) then mret (Html 200 [])
      else if accepts r (method req) then view r req
      else raise (HTTPException 405)
  end.

(** [Flask.full_dispatch_request]: an exception becomes an error response and
    the database session is rolled back. *)
Definition full_dispatch_request (req : Request) (w : World) : response * World :=
  match dispatch_request req w with
  | Ok rw => rw
  | Raise (HTTPException st) => (Html st [], w)
  | Raise _ => (Html 500 [], w)
  end.

End Handlers.
End School.

(** ** The hospital portal ([hospital_single_LOCAL_31222.py]) *)

Module Hospital.

Module AuthUser.
Record t := Build {
  id : Z;
  username : pystr;
  first_name : pystr;
  last_name : pystr }.
End AuthUser.

Module Doctor.
Record t := Build {
  id : Z;
  user_id : Z;
  specialty : pystr }.
End Doctor.

Module Patient.
Record t := Build {
  id : Z;
  first_name : pystr;
  last_name : pystr;
  age : Z;
  condition : pystr }.
End Patient.

(** [date] by its ordinal, [time] by its second of the day. *)
Module Appointment.
Record t := Build {
  id : Z;
  doctor_id : Z;
  patient_id : Z;
  date : Z;
  time : Z }.
End Appointment.

Record DB := MkDB {
  auth_users : list AuthUser.t;
  doctors : list Doctor.t;
  patients : list Patient.t;
  appointments : list Appointment.t }.

Definition set_patients (ps : list Patient.t) (d : DB) : DB :=
  MkDB (auth_users d) (doctors d) ps (appointments d).

Inductive http_method := GET | HEAD | POST | PUT | PATCH | DELETE | OPTIONS.

#[global] Instance hospital_method_eq_dec : EqDecision http_method.
Proof. solve_decision. Defined.

Record Request := MkRequest {
  method : http_method;
  query : gmap pystr pystr;          (* request.GET *)
  body : result Json.json;           (* json.loads(request.body.decode("utf-8")) *)
  now : pystr }.                     (* datetime.now().strftime("%Y%m%d_%H%M%S") *)

(** A patient as the list template receives it. *)
Record Listed := MkListed {
  patient : Patient.t;
  appt_objs : list Appointment.t;
  doctor_names : pystr }.

(** The context [patients_list] renders [PATIENT_LIST_TPL] with. *)
Record ListContext := MkListContext {
  ctx_patients : list Listed;        (* page_obj.object_list *)
  ctx_number : Z;                    (* page_obj.number *)
  ctx_num_pages : Z;                 (* paginator.num_pages *)
  ctx_page_range : list Z;
  ctx_doctors : list Doctor.t }.

(** Why a JSON error response says what it says. *)
Inductive error_text :=
| Message (s : pystr)
| StrOf (e : exn).                   (* str(e) *)

Inductive response :=
| HttpResponse (status : Z) (content : pystr)
| Download (content_type filename : pystr) (rows : list (list pystr))
| JsonSaved (doctors appointments appt_links_html : pystr)
| JsonError (status : Z) (error : error_text).

Definition status_of (r : response) : Z :=
  match r with
  | HttpResponse st _ => st
  | JsonError st _ => st
  | Download _ _ _ | JsonSaved _ _ _ => 200
  end.

(** What Django, Python and openpyxl provide. *)
Class Django := {
  render_list : ListContext → pystr;       (* PATIENT_LIST_TPL rendered *)
  py_int : pystr → option Z;               (* int(s) *)
  py_str : Json.json → pystr;              (* str(v) *)
  date_iso : Z → pystr;                    (* date.isoformat(), also str(date) *)
  time_hm : Z → pystr;                     (* time.strftime('%H:%M') *)
  time_str : Z → pystr;                    (* str(time) *)
  openpyxl : bool }.                       (* the workbook can be built *)

(** *** django.core.paginator *)

Module Paginator.
Section Paginator.
Context {A : Type}.

Record t := Build {
  object_list : list A;
  per_page : Z }.

Definition count (p : t) : Z := Z.of_nat (length (object_list p)).

(** [ceil(hits / per_page)] with [orphans = 0], [allow_empty_first_page]: the
    quotient is a float. *)
Definition num_pages (p : t) : result Z :=
  let hits := Z.max 1 (count p) in
  x ← PyFloat.truediv hits (per_page p);
  Ok (PyFloat.ceil x).

(** The page number asked for: text from the query string, or an [int]. *)
Definition validate_number (py_int : pystr → option Z) (p : t) (number : pystr + Z)
    : result Z :=
  match (match number with inl s => py_int s | inr n => Some n end) with
  | None => Raise PageNotAnInteger
  | Some n =>
      if n <? 1 then Raise EmptyPage
      else
        total ← num_pages p;
        if total <? n then Raise EmptyPage else Ok n
  end.

(** [paginator.page(number)]: the page's number and its objects. *)
Definition page (py_int : pystr → option Z) (p : t) (number : pystr + Z)
    : result (Z * list A) :=
  n ← validate_number py_int p number;
  let bottom := (n - 1) * per_page p in
  let top := bottom + per_page p in
  let top := if count p <=? top then count p else top in
  Ok (n, take (Z.to_nat (top - bottom)) (drop (Z.to_nat bottom) (object_list p))).

End Paginator.
Arguments t : clear implicits.
End Paginator.

Section Views.
Context `{Django}.

(** [field__icontains=q] on SQLite: [q] occurs in the field, the letters of
    ASCII compared without case. *)
Definition icontains (field q : pystr) : bool := contains (lower q) (lower field).

Definition by_id (p1 p2 : Patient.t) : Prop := Patient.id p1 ≤ Patient.id p2.

#[global] Instance by_id_dec p1 p2 : Decision (by_id p1 p2).
Proof. unfold by_id. apply _. Defined.

Definition str_le (a b : pystr) : Prop := School.str_leb a b = true.

#[global] Instance str_le_dec a b : Decision (str_le a b).
Proof. unfold str_le. apply _. Defined.

Fixpoint join (sep : pystr) (l : list pystr) : pystr :=
  match l with
  | [] => []
  | [x] => x
  | x :: l' => x ++ sep ++ join sep l'
  end.

(** [a.doctor.user.get_full_name() or a.doctor.user.username] *)
Definition doctor_name (d : DB) (a : Appointment.t) : option pystr :=
  doc ← find (λ doc, bool_decide (Doctor.id doc = Appointment.doctor_id a)) (doctors d);
  usr ← find (λ usr, bool_decide (AuthUser.id usr = Doctor.user_id doc)) (auth_users d);
  let full := strip (AuthUser.first_name usr ++ u " " ++ AuthUser.last_name usr) in
  Some (if Py.truthy full then full else AuthUser.username usr).

(** [", ".join(sorted({...}))] over the appointments' doctors. *)
Definition doctor_names_of (d : DB) (appts : list Appointment.t) : pystr :=
  join (u ", ") (merge_sort str_le (remove_dups (omap (doctor_name d) appts))).

Definition appointments_of (d : DB) (p : Patient.t) : list Appointment.t :=
  filter (λ a, Appointment.patient_id a = Patient.id p) (appointments d).

Definition listed (d : DB) (p : Patient.t) : Listed :=
  let appts := appointments_of d p in
  MkListed p appts (doctor_names_of d appts).

(** [(request.GET.get("q") or "").strip()] *)
Definition search_text (req : Request) : pystr :=
  strip (default [] (query req !! u "q")).

Definition str_of_int (n : Z) : pystr := u (pretty n).

(** The list [patients] that [patients_list] builds and then paginates. *)
Definition list_queryset (req : Request) (d : DB) : list Listed :=
  let q := search_text req in
  let qs := merge_sort by_id (patients d) in
  let qs := if Py.truthy q then
              filter (λ p, icontains (Patient.first_name p) q
                           || icontains (Patient.last_name p) q
                           || icontains (Patient.condition p) q = true) qs
            else qs in
  listed d <$> qs.

(** [patients_list] up to the template: the context it renders. *)
Definition patients_list_context (req : Request) (d : DB) : result ListContext :=
  per_page ← match query req !! u "page_size" with
             | Some s => if Py.truthy s
                         then match py_int s with
                              | Some n => Ok n
                              | None => Raise ValueError
                              end
                         else Ok 10
             | None => Ok 10
             end;
  let page_num : pystr + Z :=
    match query req !! u "page" with
    | Some s => if Py.truthy s then inl s else inr 1
    | None => inr 1
    end in
  let patients := list_queryset req d in
  let paginator := Paginator.Build patients per_page in
  page_obj ← match Paginator.page py_int paginator page_num with
             | Raise PageNotAnInteger => Paginator.page py_int paginator (inr 1)
             | Raise EmptyPage =>
                 total ← Paginator.num_pages paginator;
                 Paginator.page py_int paginator (inr total)
             | r => r
             end;
  total ← Paginator.num_pages paginator;
  let current := page_obj.1 in
  let start := Z.max 1 (current - 3) in
  let end_ := Z.min total (current + 3) in
  let page_range := seqZ start (end_ + 1 - start) in   (* range(start, end+1) *)
  Ok (MkListContext page_obj.2 current total page_range (doctors d)).

Definition patients_list (req : Request) (d : DB) : result response :=
  ctx ← patients_list_context req d;
  Ok (HttpResponse 200 (render_list ctx)).

(** One row of the export. *)
Definition export_row (d : DB) (p : Patient.t) : list pystr :=
  let appts := appointments_of d p in
  let appt_texts :=
    (λ a, date_iso (Appointment.date a) ++ u " " ++ time_hm (Appointment.time a)) <$> appts in
  [str_of_int (Patient.id p); Patient.first_name p; Patient.last_name p;
   str_of_int (Patient.age p); Patient.condition p; doctor_names_of d appts;
   join (u "; ") appt_texts].

(** The patients [export_patients] writes, in order. *)
Definition export_queryset (req : Request) (d : DB) : list Patient.t :=
  let q := search_text req in
  let qs := merge_sort by_id (patients d) in
  if Py.truthy q then
    filter (λ p, icontains (Patient.first_name p) q
                 || icontains (Patient.last_name p) q
                 || icontains (Patient.condition p) q = true) qs
  else qs.

Definition export_patients (req : Request) (d : DB) : result response :=
  let fmt := lower (match query req !! u "format" with
                    | Some s => if Py.truthy s then s else u "csv"
                    | None => u "csv"
                    end) in
  let rows :=
    [u "ID"; u "First"; u "Last"; u "Age"; u "Condition"; u "Doctors"; u "Appointments"]
    :: (export_row d <$> export_queryset req d) in
  if bool_decide (fmt = u "xlsx") && openpyxl then
    Ok (Download (u "application/vnd.openxmlformats-officedocument.spreadsheetml.sheet")
                 (u "patients_" ++ now req ++ u ".xlsx") rows)
  else
    Ok (Download (u "text/csv; charset=utf-8")
                 (u "patients_" ++ now req ++ u ".csv") rows).

(** *** [patients_ajax_update] *)

(** The model instance [p] while the loop assigns to it: text fields hold
    whatever the payload gave, [age] holds an [int]. *)
Record Instance_ := MkInstance {
  i_id : Z;
  i_first_name : Json.json;
  i_last_name : Json.json;
  i_age : Z;
  i_condition : Json.json }.

Definition fetched (p : Patient.t) : Instance_ :=
  MkInstance (Patient.id p) (JStr (Patient.first_name p)) (JStr (Patient.last_name p))
             (Patient.age p) (JStr (Patient.condition p)).

(** One turn of [for k, v in data.items()]; [None] is the early
    [return JsonResponse(..., status=400)]. *)
Definition assign (k : pystr) (v : Json.json) (st : Instance_ * bool)
    : option (Instance_ * bool) :=
  let '(p, changed) := st in
  if bool_decide (k = u "age") then
    match (match v with JStr [] => Ok 0 | _ => Json.to_int py_int v end) with
    | Ok n => Some (MkInstance (i_id p) (i_first_name p) (i_last_name p) n (i_condition p), true)
    | Raise _ => None
    end
  else if bool_decide (k = u "first_name") then
    Some (MkInstance (i_id p) v (i_last_name p) (i_age p) (i_condition p), true)
  else if bool_decide (k = u "last_name") then
    Some (MkInstance (i_id p) (i_first_name p) v (i_age p) (i_condition p), true)
  else if bool_decide (k = u "condition") then
    Some (MkInstance (i_id p) (i_first_name p) (i_last_name p) (i_age p) v, true)
  else Some (p, changed).

Fixpoint assign_all (items : list (pystr * Json.json)) (st : Instance_ * bool)
    : option (Instance_ * bool) :=
  match items with
  | [] => Some st
  | (k, v) :: items' =>
      match assign k v st with
      | Some st' => assign_all items' st'
      | None => None
      end
  end.

(** What a [CharField] stores: [None] violates NOT NULL, anything that is not
    a [str] goes through [str()]. *)
Definition char_value (v : Json.json) : result pystr :=
  match v with
  | JStr s => Ok s
  | JNull => Raise IntegrityError
  | _ => Ok (py_str v)
  end.

(** An [IntegerField] on SQLite holds 64 bits. *)
Definition int_value (n : Z) : result Z :=
  if (- 2 ^ 63 <=? n) && (n <? 2 ^ 63) then Ok n else Raise OverflowError.

(** [p.save()]: an UPDATE of the row with [p]'s primary key. *)
Definition save (p : Instance_) (d : DB) : result DB :=
  first ← char_value (i_first_name p);
  last ← char_value (i_last_name p);
  age ← int_value (i_age p);
  cond ← char_value (i_condition p);
  Ok (set_patients
        (map (λ row, if bool_decide (Patient.id row = i_id p)
                     then Patient.Build (i_id p) first last age cond
                     else row) (patients d)) d).

Definition appt_link (a : Appointment.t) : pystr :=
  u "<a href=" ++ School.dq ++ u "#" ++ School.dq ++ u " class=" ++ School.dq
  ++ u "appt-link" ++ School.dq ++ u " data-appt-id=" ++ School.dq
  ++ str_of_int (Appointment.id a) ++ School.dq ++ u ">"
  ++ date_iso (Appointment.date a) ++ u " " ++ time_str (Appointment.time a) ++ u "</a>".

(** The body of the [try] block. *)
Definition update_body (req : Request) (d : DB) : result (response * DB) :=
  payload ← body req;
  id_value ← Json.get payload (u "id");
  pid ← Json.to_int py_int id_value;
  data ← match payload with
         | JObj m => Ok (default (JObj []) (Json.dict_get (u "data") m))
         | _ => Raise AttributeError
         end;
  p ← match find (λ row, bool_decide (Patient.id row = pid)) (patients d) with
      | Some row => Ok row
      | None => Raise DoesNotExist
      end;
  items ← match data with
          | JObj m => Ok m
          | _ => Raise AttributeError
          end;
  match assign_all items (fetched p, false) with
  | None => Ok (JsonError 400 (Message (u "age must be integer")), d)
  | Some (p', changed) =>
      d' ← (if changed then save p' d else Ok d);
      let appts := appointments_of d' p in
      Ok (JsonSaved (doctor_names_of d' appts)
                    (join (u "; ")
                       ((λ a, date_iso (Appointment.date a) ++ u " "
                              ++ time_str (Appointment.time a)) <$> appts))
                    (join (u "; ") (appt_link <$> appts)),
          d')
  end.

Definition patients_ajax_update (req : Request) (d : DB) : response * DB :=
  if negb (bool_decide (method req = POST)) then
    (JsonError 405 (Message (u "POST required")), d)
  else
    match update_body req d with
    | Ok rd => rd
    | Raise e => (JsonError 500 (StrOf e), d)
    end.

End Views.
End Hospital.

(** ** The patched [Context.__copy__] of the hospital portal

    A template context is the object Django builds: a class, a stack [dicts]
    of dictionaries searched from the top, and for a [RequestContext] the
    request and [_processors_index]. The methods of [django.template.context]
    that [_context_copy] calls are modelled next to it: the constructors,
    [BaseContext.__iter__] (the stack, top first), [BaseContext.__setitem__]
    (assignment into the top dictionary), [Context.update] (a push) and
    [BaseContext.__getitem__]. *)

Module TemplateContext.

Inductive cls := ContextCls | RequestContextCls.

(** An attribute that may be absent or [None]. *)
Inductive attr (A : Type) :=
| Missing
| IsNone
| Is (a : A).
Arguments Missing {A}.
Arguments IsNone {A}.
Arguments Is {A} a.

Section Copy.

(** Values of template variables; [of_key] is a key seen as a value, and the
    three constants are Python's [True], [False] and [None]. *)
Context {value request : Type}.
Context (of_key : pystr → value) (vTrue vFalse vNone : value).

(** A [dict] with string keys, in insertion order. *)
Abbreviation pydict := (list (pystr * value)).

(** [d[k] = v] *)
Fixpoint dict_set (k : pystr) (v : value) (d : pydict) : pydict :=
  match d with
  | [] => [(k, v)]
  | (k', v') :: d' =>
      if bool_decide (k' = k) then (k, v) :: d' else (k', v') :: dict_set k v d'
  end.

Inductive render_ctx :=
| RenderContext (stack : list pydict)
| PlainDict (d : pydict).

Record context := MkContext {
  klass : cls;
  ctx_request : option request;
  dicts : attr (list pydict);
  processors_index : attr Z;         (* _processors_index holding an int *)
  render_context : option render_ctx }.

Definition builtins : pydict :=
  [(u "True", vTrue); (u "False", vFalse); (u "None", vNone)].

(** [self.__class__(getattr(self, 'request', None))] and [self.__class__()]. *)
Definition construct (self : context) : context :=
  match klass self with
  | RequestContextCls =>
      MkContext RequestContextCls (ctx_request self) (Is [builtins; []; []]) (Is 1)
                (Some (RenderContext [builtins]))
  | ContextCls =>
      MkContext ContextCls None (Is [builtins]) Missing (Some (RenderContext [builtins]))
  end.

(** [int(getattr(self, "_processors_index", 0))], clamped at 0. *)
Definition index_of (a : attr Z) : Z :=
  match a with
  | Is z => if z <? 0 then 0 else z
  | Missing | IsNone => 0
  end.

(** [while len(dicts) <= idx: dicts.append({})] *)
Definition pad (idx : Z) (l : list pydict) : list pydict :=
  l ++ replicate (Z.to_nat (idx + 1 - Z.of_nat (length l))) [].

(** [dict(self)]: the context iterates as its dictionaries, top first, and
    [dict()] wants every item to be a pair: a dictionary of exactly two keys
    counts as the pair of its keys, any other length is a [ValueError]. *)
Fixpoint dict_of_items (items : list pydict) (acc : pydict) : result pydict :=
  match items with
  | [] => Ok acc
  | [(k1, _); (k2, _)] :: items' => dict_of_items items' (dict_set k1 (of_key k2) acc)
  | _ :: _ => Raise ValueError
  end.

Definition dict_of_context (self : context) : result pydict :=
  match dicts self with
  | Missing => Raise AttributeError
  | IsNone => Raise TypeError
  | Is l => dict_of_items (reverse l) []
  end.

(** [duplicate[k] = v]: [self.dicts[-1][key] = value]. *)
Definition setitem (k : pystr) (v : value) (l : list pydict) : result (list pydict) :=
  match reverse l with
  | [] => Raise IndexError
  | top :: below => Ok (reverse below ++ [dict_set k v top])
  end.

(** [for k, v in d.items(): duplicate[k] = v] inside [try ... except: pass]. *)
Fixpoint assign_items (d : pydict) (l : list pydict) : list pydict :=
  match d with
  | [] => l
  | (k, v) :: d' =>
      match setitem k v l with
      | Ok l' => assign_items d' l'
      | Raise _ => l
      end
  end.

(** [Context.__copy__] as patched. *)
Definition _context_copy (self : context) : result context :=
  let duplicate := construct self in
  (* Copy dicts stack *)
  let dup_dicts := match dicts self with
                   | Is l => l
                   | Missing | IsNone => []
                   end in
  (* Ensure _processors_index exists and indexes into duplicate.dicts *)
  let idx := index_of (processors_index self) in
  let dup_dicts := pad idx dup_dicts in
  (* Copy render_context if possible *)
  let dup_render := match render_context self with
                    | None => render_context duplicate
                    | Some (PlainDict d) => Some (PlainDict d)
                    | Some (RenderContext _) => Some (RenderContext [builtins])
                    end in
  (* Copy visible mapping contents *)
  dup_dicts ← match dict_of_context self with
              | Ok d => Ok (dup_dicts ++ [d])          (* duplicate.update(d) *)
              | Raise _ =>
                  match dicts self with
                  | Is l => Ok (foldl (λ acc d, assign_items d acc) dup_dicts l)
                  | Missing => Ok dup_dicts
                  | IsNone => Raise TypeError          (* for d in None *)
                  end
              end;
  Ok (MkContext (klass duplicate) (ctx_request duplicate) (Is dup_dicts) (Is idx) dup_render).

(** [context[key]]: the topmost dictionary that has the key. *)
Definition lookup_stack (k : pystr) (l : list pydict) : option value :=
  list_find (λ d, is_Some (Json.dict_get k d)) (reverse l) ≫= λ '(_, d), Json.dict_get k d.

Definition getitem (c : context) (k : pystr) : option value :=
  match dicts c with
  | Is l => lookup_stack k l
  | Missing | IsNone => None
  end.

(** A context Django built: the stack stands on the builtins, and each
    dictionary has each of its keys once. *)
Definition built_by_django (c : context) : Prop :=
  ∃ pushed, dicts c = Is (builtins :: pushed) ∧ Forall (λ d, NoDup d.*1) pushed.

(** What the claimed copy would hold: the original's dictionaries, padded. *)
Definition copied_stack (self : context) : list pydict :=
  pad (index_of (processors_index self))
      (match dicts self with Is l => l | Missing | IsNone => [] end).

End Copy.
Arguments context : clear implicits.
End TemplateContext.

(** ** What the specification says [render] takes from a child template

    The same extraction written the way the specification words it: a tag is
    recognised at the head of a text, the first tag of a kind is looked for
    from the left, and the content block is what stands between the first
    opening tag and the closing tag that follows it. *)

Module RenderSpec.

(** One or more white-space characters. *)
Definition spaces1 (s : pystr) : option pystr :=
  match s with
  | c :: s' => if is_space c then Some (lstrip s') else None
  | [] => None
  end.

Definition one_quote (s : pystr) : option pystr :=
  match s with
  | c :: s' => if Re.quote c then Some s' else None
  | [] => None
  end.

(** [{% block content %}] at the head of [s]: the text after it. *)
Definition open_tag (s : pystr) : option pystr :=
  s ← strip_prefix (u "{%") s;
  s ← strip_prefix (u "block") (lstrip s);
  s ← spaces1 s;
  s ← strip_prefix (u "content") s;
  strip_prefix (u "%}") (lstrip s).

(** [{% endblock %}] at the head of [s]: the text after it. *)
Definition end_tag (s : pystr) : option pystr :=
  s ← strip_prefix (u "{%") s;
  s ← strip_prefix (u "endblock") (lstrip s);
  strip_prefix (u "%}") (lstrip s).

(** [{% extends "base" %}] with the white space around it, at the head of [s]. *)
Definition extends_tag (s : pystr) : option pystr :=
  s ← strip_prefix (u "{%") (lstrip s);
  s ← strip_prefix (u "extends") (lstrip s);
  s ← spaces1 s;
  s ← one_quote s;
  s ← strip_prefix (u "base") s;
  s ← one_quote s;
  s ← strip_prefix (u "%}") (lstrip s);
  Some (lstrip s).

(** The first place where [tag] stands: the text before it and after it. *)
Fixpoint first_tag (tag : pystr → option pystr) (s : pystr) : option (pystr * pystr) :=
  match tag s with
  | Some after => Some ([], after)
  | None =>
      match s with
      | [] => None
      | c :: s' =>
          match first_tag tag s' with
          | Some (before, after) => Some (c :: before, after)
          | None => None
          end
      end
  end.

(** The text between the first opening tag and the closing tag after it. *)
Definition block_content (child : pystr) : option pystr :=
  '(_, after_open) ← first_tag open_tag child;
  '(body, _) ← first_tag end_tag after_open;
  Some body.

(** [child] without the first extends tag that leads a line. *)
Fixpoint strip_extends_from (line_start : bool) (child : pystr) : pystr :=
  match (if line_start then extends_tag child else None) with
  | Some after => after
  | None =>
      match child with
      | [] => []
      | c :: child' => c :: strip_extends_from (c =? 10)%N child'
      end
  end.

Definition strip_extends (child : pystr) : pystr := strip_extends_from true child.

(** The child's part that [render] renders. *)
Definition inner_text (child : pystr) : pystr :=
  let child := strip_extends child in
  default child (block_content child).

End RenderSpec.

(** ** Auxiliary definitions of the proofs about [Re] *)

Module ReAux.

(** The character before the cursor once a run of white space is skipped. *)
Fixpoint prev_after (pv : option N) (s : pystr) : option N :=
  match s with
  | c :: s' => if is_space c then prev_after (Some c) s' else pv
  | [] => pv
  end.

(** The first suffix of [s] on which [k] succeeds. *)
Fixpoint first_k {R} (k : pystr → option R) (s : pystr) : option R :=
  match k s with
  | Some r => Some r
  | None => match s with [] => None | _ :: s' => first_k k s' end
  end.

(** Whether [^] matches after the character [pv]. *)
Definition line_start (pv : option N) : bool :=
  match pv with
  | None => true
  | Some c => (c =? 10)%N
  end.

End ReAux.

(** ** Vocabulary of the properties of the school portal *)

Module SchoolAux.
Import School.

(** The same request from another session. *)
Definition with_session (su : option Z) (r : Request) : Request :=
  MkRequest (method r) (endpoint r) (view_arg r) (url r) (args r) (form r) (json r)
            su (csrf_ok r) (today r) (salt r).

(** The world after flask_login flashed its message. *)
Definition asked_to_log_in (w : World) : World :=
  set_flashed (flashed w ++ [(u "message", u "Please log in to access this page.")]) w.

(** The form carries no password, or an empty one. *)
Definition no_form_password (r : Request) : Prop :=
  form r !! u "password" = None ∨ form r !! u "password" = Some [].

(** The request posts the non-empty password [pw]: in the form, or else as a
    string in a JSON object. *)
Definition posts_password (r : Request) (pw : pystr) : Prop :=
  pw ≠ [] ∧
  (form r !! u "password" = Some pw
   ∨ (no_form_password r ∧
      ∃ m, json r = Ok (JObj m) ∧ Json.dict_get (u "password") m = Some (JStr pw))).


(** The page [init_admin] answers a password with. *)
Definition password_set_page (pw : pystr) : pystr :=
  u "Admin password set to: <strong>" ++ pw ++ u "</strong> (use admin / " ++ pw ++ u ")".

(** The status a student gets from the attendance form. *)
Definition submitted_status (f : gmap pystr pystr) (s : Student.t) : pystr :=
  default (u "Absent") (f !! (u "status_" ++ str_of_int (Student.id s))).




End SchoolAux.

(** ** Vocabulary of the properties of the hospital portal *)

Module HospitalAux.
Import Hospital.

Section Aux.
Context `{Django}.

(** The objects of page [i] of a list cut into pages of [n]. *)
Definition nth_page {A} (l : list A) (n i : Z) : list A :=
  match Paginator.page py_int (Paginator.Build l n) (inr i) with
  | Ok (_, objects) => objects
  | Raise _ => []
  end.

(** Pages 1 to [total], one after the other. *)
Definition all_pages {A} (l : list A) (n total : Z) : list A :=
  mjoin ((λ i, nth_page l n i) <$> seqZ 1 total).

(** The request asks for pages of [n]: by default 10. *)
Definition page_size_is (req : Request) (n : Z) : Prop :=
  match query req !! u "page_size" with
  | Some s => if Py.truthy s then py_int s = Some n else n = 10
  | None => n = 10
  end.

(** The request names no page, which stands for page 1. *)
Definition no_page (req : Request) : Prop :=
  query req !! u "page" = None ∨ query req !! u "page" = Some [].

(** The page parameter is there and [int] refuses it. *)
Definition page_not_integer (req : Request) : Prop :=
  ∃ s, query req !! u "page" = Some s ∧ s ≠ [] ∧ py_int s = None.

(** The page parameter is the integer [k]. *)
Definition page_is (req : Request) (k : Z) : Prop :=
  ∃ s, query req !! u "page" = Some s ∧ s ≠ [] ∧ py_int s = Some k.

(** The first row of the export. *)
Definition export_header : list pystr :=
  [u "ID"; u "First"; u "Last"; u "Age"; u "Condition"; u "Doctors"; u "Appointments"].

(** The search text occurs in one of the three searched fields. *)
Definition matches (q : pystr) (p : Patient.t) : Prop :=
  icontains (Patient.first_name p) q || icontains (Patient.last_name p) q
  || icontains (Patient.condition p) q = true.

(** The fields the AJAX endpoint may assign. *)
Definition allowed : list pystr :=
  [u "first_name"; u "last_name"; u "age"; u "condition"].

(** The payload is an object whose [id] is, for [int], the number [pid]. *)
Definition names_patient (req : Request) (pid : Z) : Prop :=
  ∃ payload v, body req = Ok payload ∧ Json.get payload (u "id") = Ok v
               ∧ Json.to_int py_int v = Ok pid.

(** The payload's [data] is the object with these items. *)
Definition has_data (req : Request) (items : list (pystr * Json.json)) : Prop :=
  ∃ m, body req = Ok (JObj m) ∧ Json.dict_get (u "data") m = Some (JObj items).

(** [int] refuses the value, which is not the empty string. *)
Definition refused_age (v : Json.json) : Prop :=
  match v with
  | JStr [] => False
  | _ => ∃ e, Json.to_int py_int v = Raise e
  end.

End Aux.
End HospitalAux.

(** ** Vocabulary of the properties of the context copy *)

Module ContextAux.
Import TemplateContext.

Section Aux.
Context {value : Type}.

(** [top] after every item of every dictionary of [l], bottom first, was
    assigned into it. *)
Definition flattened (top : list (pystr * value)) (l : list (list (pystr * value)))
    : list (pystr * value) :=
  foldl (λ acc d, foldl (λ acc kv, dict_set kv.1 kv.2 acc) acc d) top l.

(** Python's dictionaries have each key once. *)
Definition well_formed (l : list (list (pystr * value))) : Prop :=
  Forall (λ d, NoDup d.*1) l.

(** The value of [k] in the first dictionary of [l] that has it. *)
Fixpoint first_with (k : pystr) (l : list (list (pystr * value))) : option value :=
  match l with
  | [] => None
  | d :: l' => match Json.dict_get k d with
               | Some v => Some v
               | None => first_with k l'
               end
  end.

End Aux.
End ContextAux.

(** ** Stand-ins for the libraries and sample data

    Used only to run the handlers on concrete requests. *)

Module Sample.

Fixpoint digits (acc : Z) (s : pystr) : option Z :=
  match s with
  | [] => Some acc
  | c :: s' =>
      if ((48 <=? c) && (c <=? 57))%N then digits (10 * acc + Z.of_N (c - 48)) s'
      else None
  end.

(** [int(s)] on an ASCII decimal numeral with an optional sign. *)
Definition dec_int (s : pystr) : option Z :=
  match strip s with
  | [] => None
  | 45%N :: c :: ds => Z.opp <$> digits 0 (c :: ds)
  | 43%N :: c :: ds => digits 0 (c :: ds)
  | ds => digits 0 ds
  end.

(** A renderer that gives the template text followed by [child_content], and
    consumes the flashed messages. *)
Definition echo_render (tpl : pystr) (context : gmap pystr School.value)
    (authenticated : bool) (fl : School.flashes) : result (pystr * School.flashes) :=
  Ok (tpl ++ match context !! u "child_content" with
             | Some (School.VStr s) => s
             | _ => []
             end, []).

Definition flask : School.Flask :=
  {| School.render_template_string := echo_render;
     School.generate_password_hash := λ salt pw, salt ++ u "$" ++ pw;
     School.fromisoformat := dec_int;
     School.isoformat := School.str_of_int;
     School.py_int := dec_int;
     School.email_ok := λ _, true |}.

Definition templates : School.Templates :=
  let child body := u "
{% block content %}" ++ body ++ u "{% endblock %}
" in
  School.MkTemplates
    (u "<html>{{ child_content|safe }}</html>")
    (child (u "login")) (child (u "<p>{{ total_students }}</p>"))
    (child (u "students")) (child (u "enroll")) (child (u "attendance"))
    (child (u "grades")) (child (u "student")) (child (u "report")).

Definition admin : School.User.t :=
  School.User.Build 1 (u "admin") (u "s$admin") (u "admin").

Definition ann : School.Student.t :=
  School.Student.Build 1 (u "12") (u "Ann") None None None.
Definition al : School.Student.t :=
  School.Student.Build 2 (u "7") (u "Al") None None None.

Definition school_db : School.DB :=
  School.MkDB [admin] [ann; al]
    [School.Attendance.Build 1 100 (u "Present") 1;
     School.Attendance.Build 2 101 (u "Present") 1;
     School.Attendance.Build 3 101 (u "Leave") 2]
    [].

Definition world : School.World := School.MkWorld school_db [] true.

(** A request with nothing in it, from a session that is not logged in. *)
Definition anonymous (m : School.http_method) (endpoint : pystr) : School.Request :=
  School.MkRequest m endpoint 0 (u "/") ∅ ∅ (Ok JNull) None true 200 (u "s").

Definition with_form (f : list (pystr * pystr)) (r : School.Request) : School.Request :=
  School.MkRequest (School.method r) (School.endpoint r) (School.view_arg r)
    (School.url r) (School.args r) (list_to_map f) (School.json r)
    (School.session_user r) (School.csrf_ok r) (School.today r) (School.salt r).

Definition with_args (a : list (pystr * pystr)) (r : School.Request) : School.Request :=
  School.MkRequest (School.method r) (School.endpoint r) (School.view_arg r)
    (School.url r) (list_to_map a) (School.form r) (School.json r)
    (School.session_user r) (School.csrf_ok r) (School.today r) (School.salt r).

Definition with_json (j : result Json.json) (r : School.Request) : School.Request :=
  School.MkRequest (School.method r) (School.endpoint r) (School.view_arg r)
    (School.url r) (School.args r) (School.form r) j
    (School.session_user r) (School.csrf_ok r) (School.today r) (School.salt r).


Definition django : Hospital.Django :=
  {| Hospital.render_list := λ _, [];
     Hospital.py_int := dec_int;
     Hospital.py_str := λ _, u "?";
     Hospital.date_iso := Hospital.str_of_int;
     Hospital.time_hm := Hospital.str_of_int;
     Hospital.time_str := Hospital.str_of_int;
     Hospital.openpyxl := false |}.

Definition alice : Hospital.Patient.t :=
  Hospital.Patient.Build 1 (u "Alice") (u "Brown") 30 (u "Checkup").
Definition bob : Hospital.Patient.t :=
  Hospital.Patient.Build 2 (u "Bob") (u "Green") 45 (u "Diabetes").
Definition carol : Hospital.Patient.t :=
  Hospital.Patient.Build 3 (u "Carol") (u "Brown") 52 (u "Checkup").

Definition hospital_db : Hospital.DB :=
  Hospital.MkDB
    [Hospital.AuthUser.Build 2 (u "dr_smith") (u "John") (u "Smith")]
    [Hospital.Doctor.Build 1 2 (u "Cardiology")]
    [alice; bob; carol]
    [Hospital.Appointment.Build 1 1 1 739000 32400].

Definition get_request (q : list (pystr * pystr)) : Hospital.Request :=
  Hospital.MkRequest Hospital.GET (list_to_map q) (Raise ValueError) (u "20250101_000000").

Definition post_json (j : Json.json) : Hospital.Request :=
  Hospital.MkRequest Hospital.POST ∅ (Ok j) (u "20250101_000000").

(** A context as [Context({"x": 1})] builds it, with JSON values for the
    values of template variables. *)
Definition context_x : TemplateContext.context Json.json unit :=
  TemplateContext.MkContext TemplateContext.ContextCls None
    (TemplateContext.Is [TemplateContext.builtins (JBool true) (JBool false) JNull;
                         [(u "x", JInt 1)]])
    TemplateContext.Missing None.

End Sample.

(** ** The requests the examples run *)

Module Cases.

(** The context of the dashboard with two students. *)
Definition index_context : gmap pystr School.value :=
  {[ u "total_students" := School.VInt 2 ]}.

(** A POST to [/init-admin] with the password in a JSON object, and one with
    nothing in it. *)
Definition empty_post : School.Request := Sample.anonymous School.POST (u "init_admin").

Definition json_password_request : School.Request :=
  Sample.with_json (Ok (JObj [(u "password", JStr (u "pw1"))])) empty_post.


(** The request of a logged-in user who enrolls Bob under the roll number of
    Ann, typed with a space on each side. *)
Definition padded_duplicate : School.Request :=
  SchoolAux.with_session (Some 1)
    (Sample.with_form [(u "roll_no", u " 12 "); (u "name", u "Bob")]
       (Sample.anonymous School.POST (u "enroll"))).

(** The attendance form for day 101, with a status for student 1 only. *)
Definition mark_101 : School.Request :=
  SchoolAux.with_session (Some 1)
    (Sample.with_form [(u "date", u "101"); (u "status_1", u "Leave")]
       (Sample.anonymous School.POST (u "attendance"))).

(** The patient list and the export searched for [brown], the list in pages
    of one. *)
Definition brown : Hospital.Request :=
  Sample.get_request [(u "q", u " brown "); (u "page_size", u "1")].

Definition brown_export : Hospital.Request :=
  Sample.get_request [(u "q", u " brown "); (u "format", u "csv")].

(** Page 9 of a list that has three pages. *)
Definition page_nine : Hospital.Request :=
  Sample.get_request [(u "page", u "9"); (u "page_size", u "1")].

(** Pages of [10 ^ 330] patients. *)
Definition huge_page_size : Hospital.Request :=
  Sample.get_request [(u "page_size", u "1" ++ replicate 330 48%N)].

(** A page that is no number, in pages whose size is no number. *)
Definition bad_page_size : Hospital.Request :=
  Sample.get_request [(u "page", u "x"); (u "page_size", u "abc")].

(** An update of patient 1: a new first name, the given age, and a key that
    is no field. *)
Definition age_items (age : Json.json) : list (pystr * Json.json) :=
  [(u "first_name", JStr (u "Alicia")); (u "age", age); (u "nickname", JStr (u "Al"))].

Definition age_update (age : Json.json) : Hospital.Request :=
  Sample.post_json (JObj [(u "id", JInt 1); (u "data", JObj (age_items age))]).

End Cases.

(** ** Logging in and out of the school portal, and its start-up *)

Module SchoolSession.
Import School.

(** [werkzeug.security.check_password_hash(pwhash, password)]. *)
Class Werkzeug := {
  check_password_hash : pystr → pystr → bool }.

Section Session.
Context `{Flask} `{Werkzeug} (T : Templates).

(** [LoginForm().validate_on_submit()] *)
Definition login_validate_on_submit (req : Request) : bool :=
  let f := form req in
  is_submitted req && csrf_ok req
  && data_required (f !! u "username") && length_between 1 64 (f !! u "username")
  && data_required (f !! u "password").

(** [user.check_password(password)] *)
Definition check_password (usr : User.t) (password : pystr) : bool :=
  check_password_hash (User.password_hash usr) password.

(** [render("login.html", form=form)], the session as it was. *)
Definition login_page (req : Request) : M (response * option Z) :=
  r ← page T req (u "login.html") [(u "form", VForm (MkForm (form req) []))];
  mret (r, session_user req).

(** [login]: the response, and the user id the session holds afterwards
    ([login_user] stores the user's id there). *)
Definition login (req : Request) : M (response * option Z) :=
  λ w,
  if is_authenticated req w then Ok ((Redirect (u "index") [], session_user req), w)
  else if login_validate_on_submit req then
    let username := default [] (form req !! u "username") in
    let password := default [] (form req !! u "password") in
    match find (λ usr, bool_decide (User.username usr = username)) (users (db w)) with
    | Some user =>
        if check_password user password then
          (_ ← flash (u "Logged in successfully.") (u "success");
           mret (Redirect (u "index") [], Some (User.id user))) w
        else
          (_ ← flash (u "Invalid username or password.") (u "danger");
           login_page req) w
    | None =>
        (_ ← flash (u "Invalid username or password.") (u "danger");
         login_page req) w
    end
  else login_page req w.

(** [logout]: [logout_user()] takes the user id out of the session. *)
Definition logout (req : Request) : M (response * option Z) :=
  mret (Redirect (u "login") [], None).

(** [ensure_db_and_admin()], the hash drawn with [salt]. The tables that
    [db.create_all()] makes are the lists of [DB], which are always there. *)
Definition ensure_db_and_admin (salt : pystr) (d : DB) : DB :=
  match find (λ usr, bool_decide (User.username usr = u "admin")) (users d) with
  | Some _ => d
  | None =>
      MkDB (users d ++ [User.Build (next_id (User.id <$> users d)) (u "admin")
                          (generate_password_hash salt (u "admin")) (u "admin")])
           (students_tbl d) (attendance_tbl d) (grades_tbl d)
  end.

(** One request served: by a route of [url_map], by [login] or by [logout]. *)
Inductive serves (w : World) : World → Prop :=
| serves_route (req : Request) : serves w (full_dispatch_request T req w).2
| serves_login (req : Request) r w' : login req w = Ok (r, w') → serves w w'
| serves_logout (req : Request) r w' : logout req w = Ok (r, w') → serves w w'.

End Session.
End SchoolSession.

(** ** The views of the hospital portal that add and delete rows *)

Module HospitalEdit.
Import Hospital.

(** The tables together with the counters of [sqlite_sequence]: Django's
    [AutoField] is [integer PRIMARY KEY AUTOINCREMENT] on SQLite, so the id of
    a new row is one more than the largest id its table ever held. *)
Record Store := MkStore {
  tables : DB;
  user_seq : Z;
  doctor_seq : Z;
  patient_seq : Z;
  appointment_seq : Z }.

Definition set_tables (d : DB) (s : Store) : Store :=
  MkStore d (user_seq s) (doctor_seq s) (patient_seq s) (appointment_seq s).

Definition autoincrement (seq : Z) (ids : list Z) : Z :=
  1 + Z.max seq (foldr Z.max 0 ids).

(** What [PatientForm] is bound to: [request.POST], or nothing. *)
Record FormContext := MkFormContext {
  form_title : pystr;
  form_bound : option (gmap pystr pystr) }.

Inductive reply :=
| RedirectTo (location : pystr)
| FormPage (status : Z) (context : FormContext)   (* PATIENT_FORM_TPL rendered *)
| JsonOk (message doctors appointments appt_links_html : pystr)
| JsonFail (status : Z) (error : error_text).

(** What the form library and [datetime] provide. *)
Class Forms := {
  (** [PatientForm(data)]: [cleaned_data] when [is_valid()]. *)
  patient_form_clean : gmap pystr pystr → option (pystr * pystr * Z * pystr);
  (** [datetime.strptime(s, "%Y-%m-%d").date()] *)
  strptime_date : pystr → option Z;
  (** [datetime.strptime(s, "%H:%M").time()] *)
  strptime_time : pystr → option Z }.

Section Edit.
Context `{Django} `{Forms}.

(** [form.save()]: one INSERT into the patient table. *)
Definition insert_patient (first last : pystr) (age : Z) (cond : pystr)
    (s : Store) : Store :=
  let d := tables s in
  let id := autoincrement (patient_seq s) (Patient.id <$> patients d) in
  MkStore (set_patients (patients d ++ [Patient.Build id first last age cond]) d)
          (user_seq s) (doctor_seq s) id (appointment_seq s).

Definition patient_add (req : Request) (post : gmap pystr pystr) (s : Store)
    : reply * Store :=
  if bool_decide (method req = POST) then
    match patient_form_clean post with
    | Some (first, last, age, cond) =>
        (RedirectTo (u "/patients/"), insert_patient first last age cond s)
    | None => (FormPage 200 (MkFormContext (u "Add patient") (Some post)), s)
    end
  else (FormPage 200 (MkFormContext (u "Add patient") None), s).

(** [patient.delete()]: [Appointment.patient] is [on_delete=CASCADE]. *)
Definition delete_patient (pk : Z) (d : DB) : DB :=
  MkDB (auth_users d) (doctors d)
       (filter (λ p, Patient.id p ≠ pk) (patients d))
       (filter (λ a, Appointment.patient_id a ≠ pk) (appointments d)).

(** [patient_delete(request, pk)]; [get_object_or_404] raises [Http404]. *)
Definition patient_delete (req : Request) (pk : Z) (s : Store)
    : result (reply * Store) :=
  match find (λ p, bool_decide (Patient.id p = pk)) (patients (tables s)) with
  | None => Raise (HTTPException 404)
  | Some patient =>
      if bool_decide (method req = POST) then
        Ok (RedirectTo (u "/patients/"),
            set_tables (delete_patient (Patient.id patient) (tables s)) s)
      else Ok (RedirectTo (u "/patients/"), s)
  end.

(** [datetime.strptime(v, fmt)]: only a [str] can be parsed. *)
Definition strptime (parse : pystr → option Z) (v : Json.json) : result Z :=
  match v with
  | JStr s => match parse s with Some x => Ok x | None => Raise ValueError end
  | _ => Raise TypeError
  end.

(** [Appointment.objects.create(...)] *)
Definition insert_appointment (doctor : Doctor.t) (patient : Patient.t)
    (date time : Z) (s : Store) : Store :=
  let d := tables s in
  let id := autoincrement (appointment_seq s) (Appointment.id <$> appointments d) in
  MkStore (MkDB (auth_users d) (doctors d) (patients d)
                (appointments d ++
                   [Appointment.Build id (Doctor.id doctor) (Patient.id patient) date time]))
          (user_seq s) (doctor_seq s) (patient_seq s) id.

(** The body of the [try] block of [patients_ajax_add_appointment]. *)
Definition add_appointment_body (req : Request) (s : Store) : result (reply * Store) :=
  payload ← body req;
  pid_value ← Json.get payload (u "patient_id");
  pid ← Json.to_int py_int pid_value;
  did_value ← Json.get payload (u "doctor_id");
  did ← Json.to_int py_int did_value;
  date_s ← Json.get payload (u "date");
  time_s ← Json.get payload (u "time");
  if negb (negb (pid =? 0) && negb (did =? 0) && Json.truthy date_s && Json.truthy time_s)
  then Ok (JsonFail 400 (Message (u "missing fields")), s)
  else
    patient ← match find (λ p, bool_decide (Patient.id p = pid)) (patients (tables s)) with
              | Some p => Ok p
              | None => Raise DoesNotExist
              end;
    doctor ← match find (λ doc, bool_decide (Doctor.id doc = did)) (doctors (tables s)) with
             | Some doc => Ok doc
             | None => Raise DoesNotExist
             end;
    date_obj ← strptime strptime_date date_s;
    time_obj ← strptime strptime_time time_s;
    let s' := insert_appointment doctor patient date_obj time_obj s in
    let appts := appointments_of (tables s') patient in
    Ok (JsonOk (u "Appointment added")
               (doctor_names_of (tables s') appts)
               (join (u "; ")
                  ((λ a, date_iso (Appointment.date a) ++ u " "
                         ++ time_str (Appointment.time a)) <$> appts))
               (join (u "; ") (appt_link <$> appts)),
        s').

Definition patients_ajax_add_appointment (req : Request) (s : Store) : reply * Store :=
  if negb (bool_decide (method req = POST)) then
    (JsonFail 405 (Message (u "POST required")), s)
  else
    match add_appointment_body req s with
    | Ok rs => rs
    | Raise e => (JsonFail 500 (StrOf e), s)
    end.

(** One request served by a view that can write. *)
Inductive serves (s : Store) : Store → Prop :=
| serves_add req post : serves s (patient_add req post s).2
| serves_delete req pk r s' : patient_delete req pk s = Ok (r, s') → serves s s'
| serves_update req : serves s (set_tables (patients_ajax_update req (tables s)).2 s)
| serves_appointment req : serves s (patients_ajax_add_appointment req s).2.

End Edit.

(** *** [seed_demo] *)

(** [Model.objects.get] on more than one matching row. *)
Inductive seed_error := MultipleObjectsReturned.

(** The matching row that [objects.get_or_create] gets, or [None] for the
    row to create. *)
Definition get_existing {A} (P : A → Prop) `{!∀ x, Decision (P x)} (rows : list A)
    : seed_error + option A :=
  match filter P rows with
  | [] => inr None
  | [x] => inr (Some x)
  | _ => inl MultipleObjectsReturned
  end.

(** [create_superuser("admin", ...)] unless a user of that name exists. The
    rows of [auth_user] carry the columns the views read: the e-mail address
    and the password of the seeded users are not among them. *)
Definition seed_admin (s : Store) : Store :=
  let d := tables s in
  if bool_decide (Exists (λ usr, AuthUser.username usr = u "admin") (auth_users d)) then s
  else
    let id := autoincrement (user_seq s) (AuthUser.id <$> auth_users d) in
    MkStore (MkDB (auth_users d ++ [AuthUser.Build id (u "admin") [] []])
                  (doctors d) (patients d) (appointments d))
            id (doctor_seq s) (patient_seq s) (appointment_seq s).

(** [User.objects.get_or_create(username="dr_smith", defaults=...)] *)
Definition seed_doctor_user (s : Store) : seed_error + (AuthUser.t * Store) :=
  let d := tables s in
  match get_existing (λ usr, AuthUser.username usr = u "dr_smith") (auth_users d) with
  | inl e => inl e
  | inr (Some usr) => inr (usr, s)
  | inr None =>
      let id := autoincrement (user_seq s) (AuthUser.id <$> auth_users d) in
      let usr := AuthUser.Build id (u "dr_smith") (u "John") (u "Smith") in
      inr (usr, MkStore (MkDB (auth_users d ++ [usr]) (doctors d) (patients d)
                              (appointments d))
                        id (doctor_seq s) (patient_seq s) (appointment_seq s))
  end.

(** [Doctor.objects.get_or_create(user=doc_user, defaults=...)] *)
Definition seed_doctor (doc_user : AuthUser.t) (s : Store) : seed_error + Store :=
  let d := tables s in
  match get_existing (λ doc, Doctor.user_id doc = AuthUser.id doc_user) (doctors d) with
  | inl e => inl e
  | inr (Some _) => inr s
  | inr None =>
      let id := autoincrement (doctor_seq s) (Doctor.id <$> doctors d) in
      inr (MkStore (MkDB (auth_users d)
                         (doctors d ++ [Doctor.Build id (AuthUser.id doc_user) (u "Cardiology")])
                         (patients d) (appointments d))
                   (user_seq s) id (patient_seq s) (appointment_seq s))
  end.

(** [Patient.objects.get_or_create(first_name=..., last_name=..., defaults=...)] *)
Definition seed_patient (first last : pystr) (age : Z) (cond : pystr) (s : Store)
    : seed_error + Store :=
  let d := tables s in
  match get_existing (λ p, Patient.first_name p = first ∧ Patient.last_name p = last)
                     (patients d) with
  | inl e => inl e
  | inr (Some _) => inr s
  | inr None =>
      let id := autoincrement (patient_seq s) (Patient.id <$> patients d) in
      inr (MkStore (set_patients (patients d ++ [Patient.Build id first last age cond]) d)
                   (user_seq s) (doctor_seq s) id (appointment_seq s))
  end.

(** [seed_demo()]: the store it leaves, and the exception when it raises.
    Every statement commits on its own, so what was created before an
    exception stays. *)
Definition seed_demo (s : Store) : Store * option seed_error :=
  let s := seed_admin s in
  match seed_doctor_user s with
  | inl e => (s, Some e)
  | inr (doc_user, s) =>
      match seed_doctor doc_user s with
      | inl e => (s, Some e)
      | inr s =>
          match seed_patient (u "Alice") (u "Brown") 30 (u "Checkup") s with
          | inl e => (s, Some e)
          | inr s =>
              match seed_patient (u "Bob") (u "Green") 45 (u "Diabetes") s with
              | inl e => (s, Some e)
              | inr s => (s, None)
              end
          end
      end
  end.

End HospitalEdit.

(** ** The tables the hospital portal makes at start-up *)

Module HospitalSetup.

(** A model class: its [__name__] and its [_meta.db_table]. *)
Record Model := MkModel {
  model_name : pystr;
  db_table : pystr }.

Inductive setup_error :=
| OperationalError (table : pystr)   (* table ... already exists *)
| RuntimeError (msg : pystr).

(** [schema_editor.create_model(m)] on the tables of the connection. *)
Definition create_model (m : Model) (tables : gset pystr) : setup_error + gset pystr :=
  if bool_decide (db_table m ∈ tables) then inl (OperationalError (db_table m))
  else inr ({[ db_table m ]} ∪ tables).

(** The loop of [create_missing_tables]: [existing_tables] is read once,
    before the loop; [created] and the connection's tables grow. *)
Fixpoint create_each (existing_tables : gset pystr) (models_list : list Model)
    (created : list pystr) (tables : gset pystr)
    : setup_error + (list pystr * gset pystr) :=
  match models_list with
  | [] => inr (created, tables)
  | m :: models_list' =>
      if bool_decide (db_table m ∈ existing_tables)
      then create_each existing_tables models_list' created tables
      else match create_model m tables with
           | inl e => inl e
           | inr tables' =>
               create_each existing_tables models_list' (created ++ [db_table m]) tables'
           end
  end.

(** [create_missing_tables(models_list)]: what it returns and the tables
    afterwards. The schema editor works in a transaction: an error leaves
    the tables as they were. *)
Definition create_missing_tables (models_list : list Model) (tables : gset pystr)
    : setup_error + (list pystr * gset pystr) :=
  create_each tables models_list [] tables.

Definition Doctor : Model := MkModel (u "Doctor") (u "hospital_app_doctor").
Definition Patient : Model := MkModel (u "Patient") (u "hospital_app_patient").
Definition Appointment : Model := MkModel (u "Appointment") (u "hospital_app_appointment").

Definition needed : list Model := [Doctor; Patient; Appointment].

Section Setup.

(** The tables after [call_command("migrate", ...)] was tried: what it raises
    is printed and dropped. *)
Context (migrate : gset pystr → gset pystr).

Definition ensure_db_setup (tables : gset pystr) : setup_error + gset pystr :=
  let tables := migrate tables in
  let missing_models := filter (λ m, db_table m ∉ tables) needed in
  match missing_models with
  | [] => inr tables
  | _ :: _ =>
      match create_missing_tables missing_models tables with
      | inl e => inl e
      | inr (created, tables') =>
          match created with
          | [] => inl (RuntimeError (u "Failed to create tables for: "
                                     ++ Hospital.join (u ", ") (model_name <$> missing_models)))
          | _ :: _ => inr tables'
          end
      end
  end.

End Setup.
End HospitalSetup.

(** ** Vocabulary of the properties that span requests of the school portal *)

Module SchoolInv.
Import School.

Section Change.
Context `{Flask}.

(** The grade [grades] saves for a valid form. *)
Definition saved_grade (req : Request) (d : DB) : Grade.t :=
  let f := form req in
  Grade.Build (next_id (Grade.id <$> grades_tbl d))
    (strip (default [] (f !! u "subject")))
    (default 0 (int_field (f !! u "marks")))
    (match int_field (f !! u "max_marks") with
     | Some m => if m =? 0 then 100 else m
     | None => 100
     end)
    (Some (default (u "Term 1") (f !! u "term"))) (f !! u "remarks")
    (default 0 (int_field (f !! u "student_id"))).

(** The attendance table after the form of [req] was saved for the day [d]. *)
Definition saved_attendance (req : Request) (d : date) (db0 : DB) : list Attendance.t :=
  foldl (mark (form req) d) (filter (λ a, Attendance.date a ≠ d) (attendance_tbl db0))
        (order_by_roll_no (students_tbl db0)).

(** The day [attendance] shows: the [date] of the URL, or today. *)
Definition selects (req : Request) (sel : date) : Prop :=
  match args req !! u "date" with
  | Some s => if Py.truthy s then fromisoformat s = Some sel else sel = today req
  | None => sel = today req
  end.

(** What one request can do to the database. *)
Inductive change (req : Request) (d : DB) : DB → Prop :=
| unchanged : change req d d
| enrolled d' :
    enroll_validate_on_submit req = true →
    insert_student (strip (default [] (form req !! u "roll_no")))
                   (strip (default [] (form req !! u "name")))
                   (form req !! u "email") (form req !! u "class_name")
                   (form req !! u "extra") d = Ok d' →
    change req d d'
| attendance_saved day :
    method req = POST →
    parse_date (form req !! u "date") = Ok day →
    change req d (MkDB (users d) (students_tbl d) (saved_attendance req day d) (grades_tbl d))
| grade_saved :
    grade_validate_on_submit req d = true →
    change req d (MkDB (users d) (students_tbl d) (attendance_tbl d)
                       (grades_tbl d ++ [saved_grade req d]))
| password_set pw :
    method req ≠ GET →
    change req d (set_admin_password (generate_password_hash (salt req) pw) d).

End Change.

(** What the tables keep true of each other. *)
Record consistent (d : DB) : Prop := MkConsistent {
  usernames_differ : NoDup (User.username <$> users d);
  student_ids_differ : NoDup (Student.id <$> students_tbl d);
  roll_nos_differ : NoDup (Student.roll_no <$> students_tbl d);
  marked_once_a_day : ∀ day,
    NoDup (Attendance.student_id <$>
             filter (λ a, Attendance.date a = day) (attendance_tbl d));
  marked_are_enrolled : ∀ a,
    a ∈ attendance_tbl d → Attendance.student_id a ∈ (Student.id <$> students_tbl d);
  graded_are_enrolled : ∀ g,
    g ∈ grades_tbl d → Grade.student_id g ∈ (Student.id <$> students_tbl d) }.

(** The rows of the report: the day, who was present, how many students. *)
Definition report_summary (today : date) (d : DB) : list (date * Z * Z) :=
  (λ day, (day,
           Z.of_nat (length (filter (λ a, present_on day a = true) (attendance_tbl d))),
           Z.of_nat (length (students_tbl d))))
    <$> ((λ i, today - Z.of_nat i) <$> seq 0 7).

(** A text of 1 to [n] characters with no white space at either end. *)
Definition tidy (n : nat) (s : pystr) : Prop :=
  s ≠ [] ∧ (length s ≤ n)%nat
  ∧ (∀ c, head s = Some c → is_space c = false)
  ∧ (∀ c, last s = Some c → is_space c = false).

(** The data routes registered for [GET] alone. *)
Definition read_only_endpoints : list pystr :=
  [u "index"; u "students"; u "view_student"; u "export_students"; u "report"].

End SchoolInv.

(** ** Vocabulary of the properties of the hospital portal's writes *)

Module HospitalInv.
Import Hospital HospitalEdit.

(** What the tables keep true of each other: ids are not shared, and an
    appointment names a patient and a doctor that are there. *)
Record sound (d : DB) : Prop := MkSound {
  patient_ids_differ : NoDup (Patient.id <$> patients d);
  appointment_ids_differ : NoDup (Appointment.id <$> appointments d);
  appointments_linked : ∀ a,
    a ∈ appointments d →
    Appointment.patient_id a ∈ (Patient.id <$> patients d)
    ∧ Appointment.doctor_id a ∈ (Doctor.id <$> doctors d) }.

Section Payload.
Context `{Django}.

(** The payload is an object in which [key] is, for [int], the number [n]. *)
Definition names (req : Request) (key : pystr) (n : Z) : Prop :=
  ∃ payload v, body req = Ok payload ∧ Json.get payload key = Ok v
               ∧ Json.to_int py_int v = Ok n.

(** The payload is an object in which [key] has the value [v] ([None] when the
    key is missing). *)
Definition holds (req : Request) (key : pystr) (v : Json.json) : Prop :=
  ∃ payload, body req = Ok payload ∧ Json.get payload key = Ok v.

End Payload.

(** The rows named Alice Brown. *)
Definition alice_browns (d : DB) : list Patient.t :=
  filter (λ p, Patient.first_name p = u "Alice" ∧ Patient.last_name p = u "Brown")
         (patients d).

End HospitalInv.

(** ** More stand-ins and sample data *)

Module Fixtures.

(** The text after the first [$]. *)
Fixpoint after_dollar (s : pystr) : pystr :=
  match s with
  | [] => []
  | c :: s' => if (c =? 36)%N then s' else after_dollar s'
  end.

(** Checks the hashes of [Sample.flask], which end in the password. *)
Definition werkzeug : SchoolSession.Werkzeug :=
  {| SchoolSession.check_password_hash := λ pwhash password,
       bool_decide (after_dollar pwhash = password) |}.

(** A school with an admin and nothing else. *)
Definition new_school : School.World :=
  School.MkWorld (School.MkDB [Sample.admin] [] [] []) [] true.

(** A logged-in user enrolls Carl under the roll number 3. *)
Definition enroll_carl : School.Request :=
  SchoolAux.with_session (Some 1)
    (Sample.with_form [(u "roll_no", u " 3"); (u "name", u "Carl ")]
       (Sample.anonymous School.POST (u "enroll"))).

(** A logged-in user gives Ann 7 marks in maths, and then 0. *)
Definition grade_ann : School.Request :=
  SchoolAux.with_session (Some 1)
    (Sample.with_form [(u "student_id", u "1"); (u "subject", u " Maths"); (u "marks", u "7")]
       (Sample.anonymous School.POST (u "grades"))).


(** The login form, posted from a session that holds no user. *)
Definition login_as (username password : pystr) : School.Request :=
  Sample.with_form [(u "username", username); (u "password", password)]
    (Sample.anonymous School.POST (u "login")).

(** The same request on another day. *)
Definition on_day (d : School.date) (r : School.Request) : School.Request :=
  School.MkRequest (School.method r) (School.endpoint r) (School.view_arg r)
    (School.url r) (School.args r) (School.form r) (School.json r)
    (School.session_user r) (School.csrf_ok r) d (School.salt r).

(** The same request for the student of another id. *)
Definition for_student (id : Z) (r : School.Request) : School.Request :=
  School.MkRequest (School.method r) (School.endpoint r) id
    (School.url r) (School.args r) (School.form r) (School.json r)
    (School.session_user r) (School.csrf_ok r) (School.today r) (School.salt r).

(** A form library that wants the four fields, the age a numeral, and a
    [datetime] that reads numerals. *)
Definition forms : HospitalEdit.Forms :=
  {| HospitalEdit.patient_form_clean := λ post,
       first ← post !! u "first_name";
       last ← post !! u "last_name";
       age ← post !! u "age" ≫= Sample.dec_int;
       cond ← post !! u "condition";
       if Py.truthy first && Py.truthy last && Py.truthy cond
       then Some (first, last, age, cond) else None;
     HospitalEdit.strptime_date := Sample.dec_int;
     HospitalEdit.strptime_time := Sample.dec_int |}.

(** The sample tables, whose counters stand at the largest ids. *)
Definition hospital : HospitalEdit.Store :=
  HospitalEdit.MkStore Sample.hospital_db 2 1 3 1.

(** An appointment of patient 2 with doctor 1. *)
Definition book_bob : Hospital.Request :=
  Sample.post_json (JObj [(u "patient_id", JStr (u "2")); (u "doctor_id", JStr (u "1"));
                          (u "date", JStr (u "739001")); (u "time", JStr (u "36000"))]).

(** The same without a date. *)
Definition book_bob_undated : Hospital.Request :=
  Sample.post_json (JObj [(u "patient_id", JStr (u "2")); (u "doctor_id", JStr (u "1"));
                          (u "date", JStr []); (u "time", JStr (u "36000"))]).

(** The form for a second patient named Alice Brown. *)
Definition namesake : gmap pystr pystr :=
  list_to_map [(u "first_name", u "Alice"); (u "last_name", u "Brown");
               (u "age", u "61"); (u "condition", u "Flu")].

(** A POST with nothing in it. *)
Definition bare_post : Hospital.Request := Sample.post_json JNull.

End Fixtures.

(** * Properties *)

(** ** The regular expressions of [render] against the specification's wording *)

Module ReFacts.
Import Re ReAux RenderSpec.

Section Engine.
Context {R : Type}.

Lemma star_greedy_spaces (k : option N → pystr → option R) pv s :
  (∀ pv' c s', is_space c = true →
     k (prev_after (Some c) s') (lstrip s') = None → k pv' (c :: s') = None) →
  star_greedy is_space k pv s = k (prev_after pv s) (lstrip s).
Proof.
  intros Hk. revert pv. induction s as [|c s IH]; intros pv; simpl; [done|].
  destruct (is_space c) eqn:Hc; [|done].
  rewrite IH. destruct (k (prev_after (Some c) s) (lstrip s)) eqn:E; [done|].
  by apply Hk.
Qed.

Lemma star_lazy_any (k : option N → pystr → option R) (k' : pystr → option R) pv s :
  (∀ pv s, k pv s = k' s) →
  star_lazy any k pv s = first_k k' s.
Proof.
  intros Hk. revert pv. induction s as [|c s IH]; intros pv; simpl; rewrite Hk.
  - by destruct (k' []).
  - destruct (k' (c :: s)); [done|].
    assert (any c = true) as -> by (unfold any; by destruct (is_space c)).
    apply IH.
Qed.
End Engine.

Lemma strip_prefix_space_head (l : pystr) c s c0 l' :
  l = c0 :: l' → is_space c0 = false → is_space c = true →
  strip_prefix l (c :: s) = None.
Proof.
  intros -> H0 Hc. simpl. destruct (N.eqb_spec c0 c); [congruence|done].
Qed.

(** exec of the block pattern *)
Lemma exec_close_tag pv s o :
  exec [GClose; Lit (u "{%"); Star true is_space; Lit (u "endblock"); Star true is_space; Lit (u "%}")]
       (Cursor pv s (Some o) None)
  = (λ rest, Cursor (Some 125%N) rest (Some o) (Some (take (length o - length s)%nat o))) <$> end_tag s.
Proof.
  unfold end_tag. cbn [exec ahead prev g_open g_text move].
  destruct (strip_prefix (u "{%") s) as [s1|] eqn:E1; [|done]. cbn [mbind option_bind].
  rewrite star_greedy_spaces.
  2:{ intros pv' c s' Hc _. cbn [exec ahead move].
      by erewrite strip_prefix_space_head. }
  cbn [exec ahead prev g_open g_text move].
  destruct (strip_prefix (u "endblock") (lstrip s1)) as [s2|] eqn:E2; [|done]. cbn [mbind option_bind].
  rewrite star_greedy_spaces.
  2:{ intros pv' c s' Hc _. cbn [exec ahead move].
      by erewrite strip_prefix_space_head. }
  cbn [exec ahead prev g_open g_text move].
  destruct (strip_prefix (u "%}") (lstrip s2)) as [s3|] eqn:E3; [|done].
  done.
Qed.

Lemma first_k_close o pre s :
  o = pre ++ s →
  first_k (λ s, (λ rest, Cursor (Some 125%N) rest (Some o)
                           (Some (take (length o - length s)%nat o))) <$> end_tag s) s
  = (λ '(body, rest), Cursor (Some 125%N) rest (Some o) (Some (pre ++ body)))
      <$> first_tag end_tag s.
Proof.
  revert pre. induction s as [|c s IH]; intros pre ->.
  - done.
  - simpl. destruct (end_tag (c :: s)) as [r|] eqn:E; simpl.
    + do 3 f_equal. rewrite app_nil_r, length_app. simpl.
      replace (length pre + S (length s) - S (length s))%nat with (length pre) by lia.
      by rewrite take_app_length.
    + rewrite (IH (pre ++ [c])); [|by rewrite <- app_assoc].
      destruct (first_tag end_tag s) as [[b a]|]; simpl; [|done].
      by rewrite <- app_assoc.
Qed.

Lemma exec_block_re pv s :
  exec block_re (Cursor pv s None None)
  = after_open ← open_tag s;
    '(body, rest) ← first_tag end_tag after_open;
    Some (Cursor (Some 125%N) rest (Some after_open) (Some body)).
Proof.
  unfold open_tag, block_re. cbn [exec ahead prev g_open g_text move].
  destruct (strip_prefix (u "{%") s) as [s1|] eqn:E1; [|done]. cbn [mbind option_bind].
  rewrite star_greedy_spaces.
  2:{ intros pv' c s' Hc _. cbn [exec ahead move].
      by erewrite strip_prefix_space_head. }
  cbn [exec ahead prev g_open g_text move].
  destruct (strip_prefix (u "block") (lstrip s1)) as [s2|] eqn:E2; [|done]. cbn [mbind option_bind].
  unfold spaces1. destruct s2 as [|c s2]; [done|].
  destruct (is_space c) eqn:Hc; [|done]. cbn [mbind option_bind].
  rewrite star_greedy_spaces.
  2:{ intros pv' c' s' Hc' _. cbn [exec ahead move].
      by erewrite strip_prefix_space_head. }
  cbn [exec ahead prev g_open g_text move].
  destruct (strip_prefix (u "content") (lstrip s2)) as [s3|] eqn:E3; [|done]. cbn [mbind option_bind].
  rewrite star_greedy_spaces.
  2:{ intros pv' c' s' Hc' _. cbn [exec ahead move].
      by erewrite strip_prefix_space_head. }
  cbn [exec ahead prev g_open g_text move].
  destruct (strip_prefix (u "%}") (lstrip s3)) as [s4|] eqn:E4; [|done]. cbn [mbind option_bind].
  erewrite star_lazy_any; [|intros; apply exec_close_tag].
  rewrite (first_k_close s4 [] s4 eq_refl).
  by destruct (first_tag end_tag s4) as [[b a]|].
Qed.

Lemma strip_prefix_Some p s r : strip_prefix p s = Some r → s = p ++ r.
Proof.
  revert s. induction p as [|a p IH]; intros [|b s] Hs; simplify_eq/=; try done.
  destruct (N.eqb_spec a b); [|done]. subst. f_equal. by apply IH.
Qed.

Lemma lstrip_split s : ∃ ws, s = ws ++ lstrip s ∧ Forall (λ c, is_space c = true) ws.
Proof.
  induction s as [|c s (ws & Hs & Hws)]; simpl.
  - by exists [].
  - destruct (is_space c) eqn:Hc.
    + exists (c :: ws). split; [by rewrite <- app_comm_cons, <- Hs|by constructor].
    + by exists [].
Qed.

Lemma space_not_brace c : is_space c = true → c ≠ 123%N.
Proof. intros Hc ->. by vm_compute in Hc. Qed.

(** An opening tag has one brace, its first character. *)
Lemma open_tag_shape s r :
  open_tag s = Some r → ∃ mid, s = 123%N :: mid ++ r ∧ Forall (λ c, c ≠ 123%N) mid.
Proof.
  unfold open_tag. intros Hs.
  destruct (strip_prefix (u "{%") s) as [s1|] eqn:E1; [|done]. cbn [mbind option_bind] in Hs.
  destruct (strip_prefix (u "block") (lstrip s1)) as [s2|] eqn:E2; [|done]. cbn [mbind option_bind] in Hs.
  destruct (spaces1 s2) as [s3|] eqn:E3; [|done]. cbn [mbind option_bind] in Hs.
  destruct (strip_prefix (u "content") s3) as [s4|] eqn:E4; [|done]. cbn [mbind option_bind] in Hs.
  apply strip_prefix_Some in E1, E2, E4, Hs.
  destruct (lstrip_split s1) as (w1 & H1 & Hw1).
  destruct (lstrip_split s4) as (w3 & H3 & Hw3).
  unfold spaces1 in E3. destruct s2 as [|c s2]; [done|].
  destruct (is_space c) eqn:Hc; [|done]. injection E3 as <-.
  destruct (lstrip_split s2) as (w2 & H2 & Hw2).
  exists (37%N :: w1 ++ u "block" ++ c :: w2 ++ u "content" ++ w3 ++ u "%}").
  split.
  - rewrite E1, H1, E2, H2, E4, H3, Hs at 1.
    change (u "{%") with [123%N; 37%N]. cbn [app]. do 2 f_equal.
    rewrite <- !app_assoc. do 2 f_equal. cbn [app]. f_equal.
    by rewrite <- !app_assoc.
  - constructor; [done|]. rewrite !Forall_app, Forall_cons, !Forall_app.
    repeat split;
      try (eapply Forall_impl; [eassumption|by intros ? ?%space_not_brace]);
      try (by apply space_not_brace);
      by apply (bool_decide_unpack _).
Qed.

Lemma open_tag_not_brace c s : c ≠ 123%N → open_tag (c :: s) = None.
Proof.
  intros Hc. unfold open_tag. change (u "{%") with [123%N; 37%N].
  cbn [strip_prefix]. by destruct (N.eqb_spec 123 c).
Qed.

Lemma first_open_skip mid r :
  Forall (λ c, c ≠ 123%N) mid →
  first_tag open_tag (mid ++ r)
  = (λ '(before, after), (mid ++ before, after)) <$> first_tag open_tag r.
Proof.
  induction 1 as [|c mid Hc _ IH]; simpl.
  - by destruct (first_tag open_tag r) as [[??]|].
  - rewrite open_tag_not_brace by done. rewrite IH.
    by destruct (first_tag open_tag r) as [[??]|].
Qed.

Lemma first_tag_None_suffix tag x s :
  first_tag tag (x ++ s) = None → first_tag tag s = None.
Proof.
  induction x as [|c x IH]; simpl; [done|].
  destruct (tag (c :: x ++ s)); [done|].
  destruct (first_tag tag (x ++ s)) as [[??]|]; [done|]. auto.
Qed.

Lemma first_tag_after tag s before after :
  (∀ s r, tag s = Some r → ∃ x, s = x ++ r) →
  first_tag tag s = Some (before, after) → ∃ x, s = x ++ after.
Proof.
  intros Htag. revert before. induction s as [|c s IH]; intros before; simpl.
  - destruct (tag []) eqn:E; [|done]. intros [= <- <-]. eauto.
  - destruct (tag (c :: s)) eqn:E.
    + intros [= <- <-]. eauto.
    + destruct (first_tag tag s) as [[b a]|]; [|done].
      intros [= <- <-]. destruct (IH _ eq_refl) as [x ->]. by exists (c :: x).
Qed.

Lemma open_tag_after s r : open_tag s = Some r → ∃ x, s = x ++ r.
Proof.
  intros (mid & -> & _)%open_tag_shape. by exists (123%N :: mid).
Qed.

(** [re.search] with the block pattern finds what the specification names. *)
Lemma search_block_content_from pv s :
  (λ '(_, st), default [] (g_text st)) <$> scan block_re pv s = block_content s.
Proof.
  revert pv. induction s as [|c s IH]; intros pv.
  - done.
  - cbn [scan]. rewrite exec_block_re. unfold block_content. cbn [first_tag].
    destruct (open_tag (c :: s)) as [r|] eqn:Hopen; cbn [mbind option_bind].
    + destruct (first_tag end_tag r) as [[body rest]|] eqn:Hend; cbn; [done|].
      cbn [mbind option_bind]. specialize (IH (Some c)).
      destruct (open_tag_shape _ _ Hopen) as (mid & [= -> ->] & Hmid).
      unfold block_content in IH. rewrite first_open_skip in IH by done.
      destruct (first_tag open_tag r) as [[b a]|] eqn:Hlater; cbn in IH.
      * destruct (first_tag_after _ _ _ _ open_tag_after Hlater) as [x ->].
        rewrite (first_tag_None_suffix _ _ _ Hend) in IH. cbn in IH.
        by destruct (scan block_re (Some 123%N) (mid ++ x ++ a)) as [[??]|].
      * by destruct (scan block_re (Some 123%N) (mid ++ r)) as [[??]|].
    + specialize (IH (Some c)). unfold block_content in IH.
      destruct (scan block_re (Some c) s) as [[n st]|];
        destruct (first_tag open_tag s) as [[b a]|]; cbn in IH |- *; done.
Qed.

Lemma search_block_content s : search_group1 block_re s = block_content s.
Proof.
  rewrite <- (search_block_content_from None). unfold search_group1.
  by destruct (scan block_re None s) as [[??]|].
Qed.

Lemma exec_extends_re pv s :
  ahead <$> exec extends_re (Cursor pv s None None)
  = if line_start pv then extends_tag s else None.
Proof.
  unfold extends_re, extends_tag. cbn [exec prev].
  assert (ahead <$> exec (tail extends_re) (Cursor pv s None None) = extends_tag s) as Hrest.
  2:{ destruct pv as [c|]; cbn [line_start]; [destruct (c =? 10)%N|]; done. }
  unfold extends_re, extends_tag. cbn [tail exec ahead prev g_open g_text move].
  rewrite star_greedy_spaces.
  2:{ intros pv' c s' Hc _. cbn [exec ahead move]. by erewrite strip_prefix_space_head. }
  cbn [exec ahead prev g_open g_text move].
  destruct (strip_prefix (u "{%") (lstrip s)) as [s1|]; [|done]. cbn [mbind option_bind].
  rewrite star_greedy_spaces.
  2:{ intros pv' c s' Hc _. cbn [exec ahead move]. by erewrite strip_prefix_space_head. }
  cbn [exec ahead prev g_open g_text move].
  destruct (strip_prefix (u "extends") (lstrip s1)) as [s2|]; [|done]. cbn [mbind option_bind].
  unfold spaces1. destruct s2 as [|c s2]; [done|].
  destruct (is_space c) eqn:Hc; [|done]. cbn [mbind option_bind].
  rewrite star_greedy_spaces.
  2:{ intros pv' c' s' Hc' _. cbn [exec ahead move].
      unfold quote. destruct (N.eqb_spec c' 34); [by subst|].
      destruct (N.eqb_spec c' 39); [by subst|]. done. }
  cbn [exec ahead prev g_open g_text move]. unfold one_quote.
  destruct (lstrip s2) as [|q1 s3]; [done|].
  destruct (quote q1); [|done]. cbn [mbind option_bind].
  cbn [exec ahead prev g_open g_text move].
  destruct (strip_prefix (u "base") s3) as [s4|]; [|done]. cbn [mbind option_bind].
  destruct s4 as [|q2 s4]; [done|].
  destruct (quote q2); [|done]. cbn [mbind option_bind].
  rewrite star_greedy_spaces.
  2:{ intros pv' c' s' Hc' _. cbn [exec ahead move]. by erewrite strip_prefix_space_head. }
  cbn [exec ahead prev g_open g_text move].
  destruct (strip_prefix (u "%}") (lstrip s4)) as [s5|]; [|done]. cbn [mbind option_bind].
  rewrite star_greedy_spaces; [done|]. intros; by cbn in *.
Qed.

Lemma sub_extends_from pv s :
  match scan extends_re pv s with
  | Some (n, st) => take n s ++ ahead st
  | None => s
  end = strip_extends_from (line_start pv) s.
Proof.
  revert pv. induction s as [|c s IH]; intros pv; cbn [scan strip_extends_from];
    pose proof (exec_extends_re pv) as Hexec.
  - specialize (Hexec []).
    destruct (exec extends_re (Cursor pv [] None None));
      destruct (line_start pv); done.
  - specialize (Hexec (c :: s)).
    destruct (exec extends_re (Cursor pv (c :: s) None None)) as [st|];
      rewrite <- Hexec; [done|]. cbn [fmap option_fmap option_map].
    specialize (IH (Some c)). cbn [line_start] in IH.
    rewrite <- IH. by destruct (scan extends_re (Some c) s) as [[??]|].
Qed.

Lemma sub_extends s : sub1_empty extends_re s = strip_extends s.
Proof. apply (sub_extends_from None). Qed.

End ReFacts.

(** ** [render]: composition of a page *)

Module RenderProps.
Import School.

Section Render.
Context `{F : Flask} (T : Templates).

Lemma template_env_base : template_env T !! u "base" = Some (base_tpl T).
Proof. reflexivity. Qed.

(** C1 (as amended). For every template name registered in [template_env] and
    every context that binds none of [name], [source] and [child_content],
    [render] takes the child's text between the first opening block tag and
    the closing tag after it (the whole child when there is no such block),
    after removing the first extends tag that leads a line; it renders that
    text with the context first, and then renders the base layout with the
    same context extended by [child_content], bound to the HTML just
    rendered; what the second rendering gives is the page. *)
Theorem render_composes (req : Request) (name child : pystr)
    (context : gmap pystr value) (w : World) :
  template_env T !! name = Some child →
  context !! u "name" = None →
  context !! u "source" = None →
  context !! u "child_content" = None →
  render T req name context w
  = match render_template_string (RenderSpec.inner_text child) context
            (is_authenticated req w) (flashed w) with
    | Raise e => Raise e
    | Ok (child_html, rest) =>
        match render_template_string (base_tpl T)
                (<[u "child_content" := VStr child_html]> context)
                (is_authenticated req w) rest with
        | Raise e => Raise e
        | Ok (html, rest') => Ok (html, set_flashed rest' w)
        end
    end.
Proof.
  intros Hname Hn Hs Hc. unfold render. rewrite Hn, Hname.
  rewrite ReFacts.sub_extends, ReFacts.search_block_content, template_env_base.
  unfold RenderSpec.inner_text, kwargs, render_string. rewrite Hc, Hs.
  unfold mbind, M_bind.
  destruct (render_template_string _ context _ _) as [[child_html rest]|e]; [|done].
  unfold lift. rewrite lookup_insert_ne by done. rewrite Hs.
  change (is_authenticated req (set_flashed rest w)) with (is_authenticated req w).
  change (flashed (set_flashed rest w)) with rest.
  by destruct (render_template_string (base_tpl T) _ _ _) as [[html rest']|e].
Qed.

(** A name that is not registered is refused before anything is rendered. *)
Lemma render_unknown (req : Request) (name : pystr) (context : gmap pystr value) w :
  template_env T !! name = None → context !! u "name" = None →
  render T req name context w = Raise (RuntimeError (u "Template not found: " ++ name)).
Proof. intros Hname Hn. unfold render. by rewrite Hn, Hname. Qed.

End Render.

Lemma render_composes_witness :
  render (H:=Sample.flask) Sample.templates (Sample.anonymous GET (u "index"))
         (u "index.html") Cases.index_context Sample.world
  = Ok (u "<html>{{ child_content|safe }}</html><p>{{ total_students }}</p>",
        Sample.world).
Proof.
  rewrite (render_composes (F:=Sample.flask) Sample.templates _ (u "index.html")
             (index_tpl Sample.templates)); reflexivity.
Defined.

(** C1 as stated fails on a context that binds [child_content] itself: the
    child is rendered, and the call that renders the base layout is given the
    keyword twice. *)
Lemma render_child_content_clash :
  template_env Sample.templates !! u "index.html" = Some (index_tpl Sample.templates)
  ∧ render (H:=Sample.flask) Sample.templates (Sample.anonymous GET (u "index"))
      (u "index.html") {[ u "child_content" := VStr (u "x") ]} Sample.world
    = Raise TypeError.
Proof. split; reflexivity. Qed.

(** On the sample child the part rendered is the block's body. *)
Example inner_text_index :
  RenderSpec.inner_text (index_tpl Sample.templates) = u "<p>{{ total_students }}</p>".
Proof. reflexivity. Qed.

(** An extends tag that leads the template goes, with the white space around. *)
Example inner_text_extends :
  RenderSpec.inner_text (u "{% extends 'base' %}
<h1>plain</h1>") = u "<h1>plain</h1>".
Proof. reflexivity. Qed.

End RenderProps.

(** ** Login guard of the data routes *)

Module GuardProps.
Import School SchoolAux.

Section Guard.
Context `{F : Flask} (T : Templates).

(** Whatever the view, an unauthenticated request gets flask_login's answer. *)
Lemma login_required_unauthorized (v : Request → M response) req w :
  method req ≠ OPTIONS → is_authenticated req w = false →
  login_required v req w
  = Ok (Redirect (u "login") [(u "next", url req)], asked_to_log_in w).
Proof.
  intros Hm Hauth. unfold login_required.
  rewrite bool_decide_eq_false_2 by done. by rewrite Hauth.
Qed.

Lemma accepts_not_options (r : Route) m :
  OPTIONS ∉ methods r → accepts r m = true → m ≠ OPTIONS.
Proof.
  intros Hr Hacc ->. unfold accepts in Hacc.
  rewrite (bool_decide_eq_false_2 (OPTIONS ∈ methods r)) in Hacc by done.
  by rewrite (bool_decide_eq_false_2 (OPTIONS = HEAD)) in Hacc.
Qed.

Lemma url_map_no_options (r : Route) : r ∈ url_map T → OPTIONS ∉ methods r.
Proof.
  unfold url_map. intros Hr.
  repeat (apply elem_of_cons in Hr as [->|Hr]); [..|by apply elem_of_nil in Hr];
    cbn [methods]; by apply (bool_decide_unpack _).
Qed.

Lemma find_route (e : pystr) (r : Route) :
  find (λ r, bool_decide (route_endpoint r = e)) (url_map T) = Some r →
  r ∈ url_map T ∧ route_endpoint r = e.
Proof.
  intros [Hin He]%find_some. split; [by apply list_elem_of_In|].
  by apply bool_decide_eq_true in He.
Qed.

(** The guard of a data route, shared by the statements below. *)
Lemma data_route_guard (e : pystr) :
  e ∈ data_endpoints →
  ∃ r, find (λ r, bool_decide (route_endpoint r = e)) (url_map T) = Some r
       ∧ ∀ req w, accepts r (method req) = true → is_authenticated req w = false →
           view r req w
           = Ok (Redirect (u "login") [(u "next", url req)], asked_to_log_in w).
Proof.
  intros He. unfold data_endpoints in He.
  repeat (apply elem_of_cons in He as [->|He]); [..|by apply elem_of_nil in He];
    (eexists; split; [reflexivity|]); intros req w Hacc Hauth;
    cbn [view]; apply login_required_unauthorized; try done;
    (eapply accepts_not_options; [|exact Hacc]); cbn [methods];
    by apply (bool_decide_unpack _).
Qed.

(** C3. Each of the eight data routes is registered with a view that, for a
    request whose session is not authenticated, does not run the handler: it
    flashes the login message and redirects to the login view, and the database is
    as before. *)
Theorem data_routes_require_login (e : pystr) :
  e ∈ data_endpoints →
  ∃ r, find (λ r, bool_decide (route_endpoint r = e)) (url_map T) = Some r
       ∧ ∀ req w, accepts r (method req) = true → is_authenticated req w = false →
           view r req w
           = Ok (Redirect (u "login") [(u "next", url req)], asked_to_log_in w)
           ∧ db (asked_to_log_in w) = db w.
Proof.
  intros (r & Hr & Hview)%data_route_guard. exists r. split; [done|].
  intros req w Hacc Hauth. by rewrite (Hview req w Hacc Hauth).
Qed.

(** The same through the dispatcher: every request to a data route with a
    method the route takes. *)
Corollary unauthenticated_request_redirected req w r :
  endpoint req ∈ data_endpoints →
  find (λ r, bool_decide (route_endpoint r = endpoint req)) (url_map T) = Some r →
  accepts r (method req) = true →
  is_authenticated req w = false →
  full_dispatch_request T req w
  = (Redirect (u "login") [(u "next", url req)], asked_to_log_in w).
Proof.
  intros He Hr Hacc Hauth.
  destruct (data_route_guard _ He) as (r' & Hr' & Hview).
  rewrite Hr in Hr'. injection Hr' as <-.
  pose proof (Hview req w Hacc Hauth) as Hv.
  unfold full_dispatch_request, dispatch_request. rewrite Hr.
  rewrite bool_decide_eq_false_2.
  - by rewrite Hacc, Hv.
  - eapply accepts_not_options; [|exact Hacc].
    apply url_map_no_options. by apply find_route in Hr as [??].
Qed.

(** Whatever the method, the database is as before. *)
Corollary unauthenticated_request_reads_nothing req w :
  endpoint req ∈ data_endpoints →
  is_authenticated req w = false →
  db (full_dispatch_request T req w).2 = db w
  ∧ ((full_dispatch_request T req w).1 = Redirect (u "login") [(u "next", url req)]
     ∨ (full_dispatch_request T req w).1 = Html 405 []
     ∨ (full_dispatch_request T req w).1 = Html 200 []).
Proof.
  intros He Hauth.
  destruct (data_route_guard _ He) as (r & Hr & Hview).
  unfold full_dispatch_request, dispatch_request. rewrite Hr.
  destruct (bool_decide (method req = OPTIONS)); [by auto|].
  destruct (accepts r (method req)) eqn:Hacc; [|by auto].
  rewrite (Hview req w Hacc Hauth). by auto.
Qed.

End Guard.

Lemma data_routes_require_login_witness :
  ∃ r, find (λ r, bool_decide (route_endpoint r = u "students"))
         (url_map (H:=Sample.flask) Sample.templates) = Some r
       ∧ ∀ req w, accepts r (method req) = true → is_authenticated req w = false →
           view r req w
           = Ok (Redirect (u "login") [(u "next", url req)], asked_to_log_in w)
           ∧ db (asked_to_log_in w) = db w.
Proof.
  apply (data_routes_require_login (F:=Sample.flask) Sample.templates (u "students")).
  by apply (bool_decide_unpack _).
Defined.

(** The anonymous sample request for the student list reaches no student. *)
Example anonymous_students_request :
  full_dispatch_request (H:=Sample.flask) Sample.templates
    (Sample.anonymous GET (u "students")) Sample.world
  = (Redirect (u "login") [(u "next", u "/")], asked_to_log_in Sample.world).
Proof. reflexivity. Qed.

End GuardProps.

(** ** [init_admin] *)

Module InitAdminProps.
Import School SchoolAux.

Section InitAdmin.
Context `{F : Flask} (T : Templates).

(** What [set_admin_password] does to the users: the admin is there afterwards
    with the new hash; it is appended when it was missing, and otherwise only
    rows with the admin's id change, and only in their hash. *)
Lemma set_admin_password_users (hash : pystr) (d : DB) :
  let d' := set_admin_password hash d in
  students_tbl d' = students_tbl d ∧ attendance_tbl d' = attendance_tbl d
  ∧ grades_tbl d' = grades_tbl d
  ∧ (∃ adm, adm ∈ users d' ∧ User.username adm = u "admin" ∧ User.password_hash adm = hash)
  ∧ ((∀ usr, usr ∈ users d → User.username usr ≠ u "admin") →
       users d' = users d ++ [User.Build (next_id (User.id <$> users d)) (u "admin") hash (u "admin")])
  ∧ ((∃ usr, usr ∈ users d ∧ User.username usr = u "admin") →
       length (users d') = length (users d)
       ∧ ∀ i usr, users d !! i = Some usr →
           ∃ usr', users d' !! i = Some usr'
                   ∧ User.id usr' = User.id usr ∧ User.username usr' = User.username usr
                   ∧ User.role usr' = User.role usr
                   ∧ (User.password_hash usr' = User.password_hash usr
                      ∨ User.password_hash usr' = hash)).
Proof.
  unfold set_admin_password.
  destruct (find _ (users d)) as [adm|] eqn:Hfind; cbn.
  - apply find_some in Hfind as [Hin Hname]. apply bool_decide_eq_true in Hname.
    apply list_elem_of_In in Hin. split_and!; try done.
    + exists (User.Build (User.id adm) (User.username adm) hash (User.role adm)).
      split; [|done]. apply list_elem_of_fmap. exists adm.
      by rewrite bool_decide_eq_true_2.
    + intros Hnone. by destruct (Hnone adm Hin).
    + intros _. split; [by rewrite length_map|].
      intros i usr Hi. rewrite list_lookup_fmap, Hi. cbn.
      eexists; split; [done|]. case_bool_decide; cbn; auto.
  - split_and!; try done.
    + eexists. split; [apply elem_of_app; right; by apply list_elem_of_singleton|done].
    + intros (usr & Hin & Hname). apply list_elem_of_In in Hin.
      eapply find_none in Hfind; [|done]. by rewrite bool_decide_eq_true_2 in Hfind.
Qed.

Lemma submitted_password_posted (req : Request) (pw : pystr) :
  posts_password req pw → submitted_password req = Ok (JStr pw).
Proof.
  intros [Hpw [Hform|[Hno (m & Hjson & Hm)]]]; unfold submitted_password.
  - rewrite Hform. unfold Py.truthy. by rewrite bool_decide_eq_false_2.
  - assert (Json.truthy (JObj m) = true) as Hm' by (by destruct m).
    assert (Py.truthy [] = false) as Hempty by done.
    destruct Hno as [->| ->]; rewrite ?Hempty, Hjson; cbn [mbind result_bind];
      rewrite Hm'; unfold Json.get; by rewrite Hm.
Qed.



(** The route is registered bare, without [login_required]. *)
Lemma init_admin_route :
  find (λ r, bool_decide (route_endpoint r = u "init_admin")) (url_map T)
  = Some (MkRoute (u "/init-admin") [GET; POST] (u "init_admin") init_admin).
Proof. reflexivity. Qed.

End InitAdmin.



End InitAdminProps.

(** ** The student list and its search *)

Module SearchProps.
Import School SchoolAux.









Lemma str_leb_total a b : str_leb a b = true ∨ str_leb b a = true.
Proof.
  revert b. induction a as [|x a IH]; intros [|y b]; cbn; auto.
  destruct (N.ltb_spec x y), (N.ltb_spec y x), (N.eqb_spec x y), (N.eqb_spec y x);
    auto; try lia.
Qed.

#[global] Instance by_roll_no_total : Total by_roll_no.
Proof. intros s t. apply str_leb_total. Qed.

Lemma order_by_roll_no_sorted l :
  Sorted by_roll_no (order_by_roll_no l) ∧ order_by_roll_no l ≡ₚ l.
Proof.
  split; [apply Sorted_merge_sort, _|apply merge_sort_Permutation].
Qed.

Section Students.
Context `{F : Flask} (T : Templates).


End Students.


Example search_without_case :
  students_query (u "aN") Sample.school_db = [Sample.ann].
Proof. reflexivity. Qed.

Example list_by_roll_no :
  students_query [] Sample.school_db = [Sample.ann; Sample.al].
Proof. reflexivity. Qed.

End SearchProps.

(** ** Enrollment *)

Module EnrollProps.
Import School SchoolAux.

Section Enroll.
Context `{F : Flask} (T : Templates).

(** A valid submission of a roll number some student has, letter for letter:
    the warning is flashed, the form is rendered again, no table changes. *)
Lemma enroll_existing_roll_no (req : Request) (w : World) (roll : pystr) :
  enroll_validate_on_submit req = true →
  form req !! u "roll_no" = Some roll →
  roll ∈ (Student.roll_no <$> students_tbl (db w)) →
  enroll T req w
  = page T req (u "enroll.html") [(u "form", VForm (MkForm (form req) []))]
      (set_flashed (flashed w ++ [(u "warning", u "Roll Number already exists.")]) w).
Proof.
  intros Hvalid Hroll Hin. unfold enroll. rewrite Hvalid, Hroll. cbn [default].
  unfold mbind at 1, M_bind, get_db.
  destruct (find _ (students_tbl (db w))) as [s|] eqn:Hfind; [done|].
  apply list_elem_of_fmap in Hin as (s & -> & Hs%list_elem_of_In).
  eapply find_none in Hfind; [|done]. by rewrite bool_decide_eq_true_2 in Hfind.
Qed.

(** A valid submission whose roll number, as typed and as stripped, belongs to
    no student: one student is appended, with the stripped roll number and
    name, and nothing else changes. *)
Lemma enroll_fresh_roll_no (req : Request) (w : World) (roll name : pystr) :
  enroll_validate_on_submit req = true →
  form req !! u "roll_no" = Some roll →
  form req !! u "name" = Some name →
  roll ∉ (Student.roll_no <$> students_tbl (db w)) →
  strip roll ∉ (Student.roll_no <$> students_tbl (db w)) →
  ∃ s, Student.roll_no s = strip roll ∧ Student.name s = strip name
       ∧ enroll T req w
         = Ok (Redirect (u "students") [],
               set_flashed (flashed w ++ [(u "success", u "Student enrolled.")])
                 (set_db (MkDB (users (db w)) (students_tbl (db w) ++ [s])
                               (attendance_tbl (db w)) (grades_tbl (db w))) w)).
Proof.
  intros Hvalid Hroll Hname Hraw Hstripped.
  eexists (Student.Build _ (strip roll) (strip name) _ _ _). split_and!; [done..|].
  unfold enroll. rewrite Hvalid, Hroll, Hname. cbn [default].
  unfold mbind at 1, M_bind, get_db.
  destruct (find _ (students_tbl (db w))) as [s|] eqn:Hfind.
  { apply find_some in Hfind as [Hin Heq]. apply bool_decide_eq_true in Heq.
    destruct Hraw. apply list_elem_of_fmap. exists s. by rewrite list_elem_of_In. }
  unfold mbind, M_bind, lift, insert_student.
  by rewrite bool_decide_eq_false_2.
Qed.

End Enroll.

(** C6 (the defect). The check for an existing roll number compares the text
    as typed, the insertion stores it stripped: on the padded roll number of
    an existing student the check finds nothing, the insertion violates the
    unique constraint, and the request ends in a 500 instead of the warning. *)
Theorem enroll_padded_duplicate_fails :
  enroll_validate_on_submit (H:=Sample.flask) Cases.padded_duplicate = true
  ∧ (u " 12 " ∉ (Student.roll_no <$> students_tbl Sample.school_db))
  ∧ (strip (u " 12 ") ∈ (Student.roll_no <$> students_tbl Sample.school_db))
  ∧ enroll (H:=Sample.flask) Sample.templates Cases.padded_duplicate Sample.world
    = Raise IntegrityError
  ∧ full_dispatch_request (H:=Sample.flask) Sample.templates Cases.padded_duplicate Sample.world
    = (Html 500 [], Sample.world).
Proof.
  split_and!; try reflexivity; by apply (bool_decide_unpack _).
Qed.

End EnrollProps.

(** ** Attendance *)

Module AttendanceProps.
Import School SchoolAux.

Lemma filter_all {A} (P : A → Prop) `{!∀ x, Decision (P x)} (l : list A) :
  Forall P l → filter P l = l.
Proof.
  induction 1 as [|x l Hx _ IH]; [done|]. by rewrite filter_cons_True, IH.
Qed.

Lemma filter_none {A} (P : A → Prop) `{!∀ x, Decision (P x)} (l : list A) :
  Forall (λ x, ¬ P x) l → filter P l = [].
Proof.
  induction 1 as [|x l Hx _ IH]; [done|]. by rewrite filter_cons_False.
Qed.

(** The loop appends one record per student, in order, all for the date. *)
Lemma foldl_mark (f : gmap pystr pystr) (d : date) (l : list Student.t)
    (tbl : list Attendance.t) :
  ∃ news, foldl (mark f d) tbl l = tbl ++ news
          ∧ Forall (λ a, Attendance.date a = d) news
          ∧ (λ a, (Attendance.student_id a, Attendance.status a)) <$> news
            = (λ s, (Student.id s, submitted_status f s)) <$> l.
Proof.
  revert tbl. induction l as [|s l IH]; intros tbl; cbn [foldl].
  - exists []. by rewrite app_nil_r.
  - destruct (IH (mark f d tbl s)) as (news & -> & Hdate & Hnews).
    unfold mark at 1. rewrite <- app_assoc. eexists (_ :: news). split; [done|].
    split; [by constructor|]. cbn. by rewrite Hnews.
Qed.

Lemma filter_kept (d : date) (tbl news : list Attendance.t) :
  Forall (λ a, Attendance.date a = d) news →
  filter (λ a, Attendance.date a ≠ d)
         (filter (λ a, Attendance.date a ≠ d) tbl ++ news)
  = filter (λ a, Attendance.date a ≠ d) tbl
  ∧ filter (λ a, Attendance.date a = d)
           (filter (λ a, Attendance.date a ≠ d) tbl ++ news)
    = news.
Proof.
  intros Hnews. rewrite !filter_app. split.
  - rewrite (filter_none _ news).
    + rewrite app_nil_r. by apply list_filter_filter_l.
    + eapply Forall_impl; [exact Hnews|]. by intros a -> ?.
  - rewrite (filter_none _ (filter _ tbl)), (filter_all _ news); [done..|].
    apply Forall_forall. by intros a [? _]%list_elem_of_filter.
Qed.

Section Attendance.
Context `{F : Flask} (T : Templates).

(** C4. A POST to the attendance route whose form names the date [d] (and
    whose URL carries no date or one that parses) succeeds, and afterwards the
    records of date [d] are one per enrolled student, in the order of the roll
    numbers, each with the status of the form field [status_<id>] or
    ['Absent'] when the field is missing; the records of every other date are
    the ones there were, and the students are as before. *)
Theorem attendance_post (req : Request) (w : World) (ds : pystr) (d : date) :
  method req = POST →
  (∀ s, args req !! u "date" = Some s → s ≠ [] → is_Some (fromisoformat s)) →
  form req !! u "date" = Some ds →
  fromisoformat ds = Some d →
  ∃ w', attendance T req w
        = Ok (Redirect (u "attendance") [(u "date", isoformat d)], w')
    ∧ students_tbl (db w') = students_tbl (db w)
    ∧ (let marked := filter (λ a, Attendance.date a = d) (attendance_tbl (db w')) in
       (λ a, (Attendance.student_id a, Attendance.status a)) <$> marked
       = (λ s, (Student.id s, submitted_status (form req) s))
           <$> order_by_roll_no (students_tbl (db w))
       ∧ Attendance.student_id <$> marked ≡ₚ Student.id <$> students_tbl (db w))
    ∧ filter (λ a, Attendance.date a ≠ d) (attendance_tbl (db w'))
      = filter (λ a, Attendance.date a ≠ d) (attendance_tbl (db w)).
Proof.
  intros Hpost Hargs Hform Hd.
  destruct (foldl_mark (form req) d (order_by_roll_no (students_tbl (db w)))
              (filter (λ a, Attendance.date a ≠ d) (attendance_tbl (db w))))
    as (news & Hfold & Hdate & Hnews).
  destruct (filter_kept d (attendance_tbl (db w)) news Hdate) as [Hother Hmarked].
  assert (∃ sel, (match args req !! u "date" with
                  | Some s => if Py.truthy s then parse_date (Some s) else Ok (today req)
                  | None => Ok (today req)
                  end) = Ok sel) as [sel Hsel].
  { destruct (args req !! u "date") as [s|] eqn:Hs; [|by eexists].
    unfold Py.truthy. case_bool_decide as Hempty; cbn [negb]; [by eexists|].
    destruct (Hargs s eq_refl Hempty) as [x Hx]. exists x. unfold parse_date.
    by rewrite Hx. }
  eexists. split.
  - unfold attendance. rewrite Hsel. unfold mbind at 1, M_bind, lift.
    unfold mbind at 1, M_bind, get_db. rewrite Hpost.
    rewrite bool_decide_eq_true_2 by done. rewrite Hform. unfold parse_date.
    rewrite Hd. unfold mbind, M_bind, lift, commit, flash. reflexivity.
  - cbn [db set_db set_flashed students_tbl attendance_tbl]. rewrite Hfold.
    split_and!; [done|by rewrite Hmarked|..|done].
    rewrite Hmarked.
    transitivity (Student.id <$> order_by_roll_no (students_tbl (db w))).
    + assert (Attendance.student_id <$> news
              = Student.id <$> order_by_roll_no (students_tbl (db w))) as ->; [|done].
      apply (f_equal (fmap fst)) in Hnews. rewrite <- !list_fmap_compose in Hnews.
      exact Hnews.
    + apply fmap_Permutation, SearchProps.order_by_roll_no_sorted.
Qed.

End Attendance.

Lemma attendance_post_witness :
  ∃ w', attendance (H:=Sample.flask) Sample.templates Cases.mark_101 Sample.world
        = Ok (Redirect (u "attendance") [(u "date", u "101")], w')
    ∧ students_tbl (db w') = students_tbl Sample.school_db
    ∧ (let marked := filter (λ a, Attendance.date a = 101) (attendance_tbl (db w')) in
       (λ a, (Attendance.student_id a, Attendance.status a)) <$> marked
       = (λ s, (Student.id s, submitted_status (form Cases.mark_101) s))
           <$> order_by_roll_no (students_tbl Sample.school_db)
       ∧ Attendance.student_id <$> marked ≡ₚ Student.id <$> students_tbl Sample.school_db)
    ∧ filter (λ a, Attendance.date a ≠ 101) (attendance_tbl (db w'))
      = filter (λ a, Attendance.date a ≠ 101) (attendance_tbl Sample.school_db).
Proof.
  apply (attendance_post (F:=Sample.flask) Sample.templates Cases.mark_101 Sample.world
           (u "101") 101); [reflexivity| |reflexivity..].
  intros s Hs. by vm_compute in Hs.
Defined.

(** On the sample: Ann gets the status of her field, Al the default, and the
    record of the other day stays. *)
Example attendance_post_sample :
  (attendance_tbl ∘ db ∘ snd) <$>
    (match attendance (H:=Sample.flask) Sample.templates Cases.mark_101 Sample.world with
     | Ok rw => Some rw | Raise _ => None end)
  = Some [Attendance.Build 1 100 (u "Present") 1;
          Attendance.Build 2 101 (u "Leave") 1;
          Attendance.Build 3 101 (u "Absent") 2].
Proof. reflexivity. Qed.

End AttendanceProps.

(** ** [math.ceil(a / b)] against the ceiling of the quotient *)

Module PyFloatProps.
Import PyFloat.

Lemma pow2_nonneg k : 0 ≤ k → pow2 k = 2 ^ k.
Proof. intros Hk. unfold pow2. by rewrite Z.max_r. Qed.

Lemma pow2_neg k : k ≤ 0 → pow2 k = 1.
Proof. intros Hk. unfold pow2. by rewrite Z.max_l. Qed.

Lemma pow2_pos k : 0 < pow2 k.
Proof. unfold pow2. apply Z.pow_pos_nonneg; lia. Qed.

(** The exponent found is not above the quotient. *)
Lemma ilog2_ratio_lower a b :
  0 < a → 0 < b →
  b * pow2 (ilog2_ratio a b) ≤ a * pow2 (- ilog2_ratio a b).
Proof.
  intros Ha Hb. unfold ilog2_ratio.
  destruct (Z.leb_spec (b * pow2 (Z.log2 a - Z.log2 b))
                       (a * pow2 (- (Z.log2 a - Z.log2 b)))) as [Hle|_]; [done|].
  destruct (Z.log2_spec a Ha) as [Hla _]. destruct (Z.log2_spec b Hb) as [_ Hlb].
  pose proof (Z.log2_nonneg a) as Hna. pose proof (Z.log2_nonneg b) as Hnb.
  set (la := Z.log2 a) in *. set (lb := Z.log2 b) in *.
  destruct (Z.le_gt_cases 0 (la - lb - 1)) as [Hpos|Hneg].
  - rewrite (pow2_nonneg (la - lb - 1)), (pow2_neg (- (la - lb - 1))) by lia.
    assert (2 ^ la = 2 ^ Z.succ lb * 2 ^ (la - lb - 1)) as Hsplit.
    { rewrite <- Z.pow_add_r by lia. f_equal; lia. }
    assert (0 < 2 ^ (la - lb - 1)) by (apply Z.pow_pos_nonneg; lia). nia.
  - rewrite (pow2_neg (la - lb - 1)), (pow2_nonneg (- (la - lb - 1))) by lia.
    assert (2 ^ Z.succ lb = 2 ^ la * 2 ^ (- (la - lb - 1))) as Hsplit.
    { rewrite <- Z.pow_add_r by lia. f_equal; lia. }
    assert (0 < 2 ^ (- (la - lb - 1))) by (apply Z.pow_pos_nonneg; lia). nia.
Qed.

(** And the next exponent is above it. *)
Lemma ilog2_ratio_upper a b :
  0 < a → 0 < b →
  a * pow2 (- (ilog2_ratio a b + 1)) < b * pow2 (ilog2_ratio a b + 1).
Proof.
  intros Ha Hb. unfold ilog2_ratio.
  destruct (Z.leb_spec (b * pow2 (Z.log2 a - Z.log2 b))
                       (a * pow2 (- (Z.log2 a - Z.log2 b)))) as [_|Hlt].
  2:{ by replace (Z.log2 a - Z.log2 b - 1 + 1) with (Z.log2 a - Z.log2 b) by lia. }
  destruct (Z.log2_spec a Ha) as [_ Hla]. destruct (Z.log2_spec b Hb) as [Hlb _].
  pose proof (Z.log2_nonneg a) as Hna. pose proof (Z.log2_nonneg b) as Hnb.
  set (la := Z.log2 a) in *. set (lb := Z.log2 b) in *.
  destruct (Z.le_gt_cases 0 (la - lb + 1)) as [Hpos|Hneg].
  - rewrite (pow2_nonneg (la - lb + 1)), (pow2_neg (- (la - lb + 1))) by lia.
    assert (2 ^ Z.succ la = 2 ^ lb * 2 ^ (la - lb + 1)) as Hsplit.
    { rewrite <- Z.pow_add_r by lia. f_equal; lia. }
    assert (0 < 2 ^ (la - lb + 1)) by (apply Z.pow_pos_nonneg; lia). nia.
  - rewrite (pow2_neg (la - lb + 1)), (pow2_nonneg (- (la - lb + 1))) by lia.
    assert (2 ^ lb = 2 ^ Z.succ la * 2 ^ (- (la - lb + 1))) as Hsplit.
    { rewrite <- Z.pow_add_r by lia. f_equal; lia. }
    assert (0 < 2 ^ (- (la - lb + 1))) by (apply Z.pow_pos_nonneg; lia). nia.
Qed.

(** Rounding does not pass an integer. *)
Lemma round_half_even_le n d k : 0 < d → n ≤ k * d → round_half_even n d ≤ k.
Proof.
  intros Hd Hn. unfold round_half_even.
  pose proof (Z.div_mod n d ltac:(lia)) as Hdiv.
  pose proof (Z.mod_pos_bound n d Hd) as Hmod.
  assert (n `div` d ≤ k) by nia.
  destruct (Z.ltb_spec (2 * (n `mod` d)) d); [done|].
  assert (n `div` d < k) by nia.
  destruct (Z.ltb_spec d (2 * (n `mod` d))); [lia|]. destruct (Z.even _); lia.
Qed.

(** A quotient more than half above an integer is rounded above it. *)
Lemma round_half_even_gt n d k t :
  0 < d → k * d + t ≤ n → d < 2 * t → k < round_half_even n d.
Proof.
  intros Hd Hn Ht. unfold round_half_even.
  pose proof (Z.div_mod n d ltac:(lia)) as Hdiv.
  pose proof (Z.mod_pos_bound n d Hd) as Hmod.
  assert (k ≤ n `div` d) by nia.
  destruct (Z.ltb_spec (2 * (n `mod` d)) d) as [Hlow|Hhigh].
  - assert (k < n `div` d) by nia. lia.
  - destruct (Z.ltb_spec d (2 * (n `mod` d))); [lia|]. 
    assert (k < n `div` d) by nia. destruct (Z.even _); lia.
Qed.

(** For a numerator below [2 ^ 53] and a divisor below [2 ^ 1075], the
    quotient is neither rounded down to an integer nor to zero:
    [math.ceil(a / b)] is the ceiling of the quotient. *)
Lemma ceil_truediv a b :
  1 ≤ a < 2 ^ 53 → 1 ≤ b < 2 ^ 1075 →
  ∃ x, truediv a b = Ok x ∧ ceil x = - ((- a) `div` b).
Proof.
  intros Ha Hb. unfold truediv.
  rewrite (proj2 (Z.eqb_neq b 0)), (proj2 (Z.eqb_neq a 0)) by lia.
  rewrite (Z.abs_eq a), (Z.abs_eq b), (Z.sgn_pos a), (Z.sgn_pos b) by lia.
  pose proof (ilog2_ratio_lower a b ltac:(lia) ltac:(lia)) as Hlow.
  set (e := ilog2_ratio a b) in *.
  assert (e ≤ 52) as He.
  { destruct (Z.le_gt_cases e 52) as [|Hbig]; [done|]. exfalso.
    rewrite (pow2_nonneg e), (pow2_neg (- e)) in Hlow by lia.
    assert (2 ^ 53 ≤ 2 ^ e) by (apply Z.pow_le_mono_r; lia). nia. }
  set (s := Z.max e (-1022) - 52).
  assert (s ≤ 0) as Hs by lia.
  rewrite (pow2_neg s) by done. rewrite (pow2_nonneg (- s)) by lia.
  set (T := 2 ^ (- s)).
  assert (0 < T) as HT by (apply Z.pow_pos_nonneg; lia).
  assert (b < 2 * T) as HbT.
  { destruct (Z.le_gt_cases (-1022) e) as [Hnormal|Hsub].
    - assert (2 * T = 2 ^ (53 - e)) as ->.
      { subst T s. rewrite Z.max_l by lia. rewrite <- Z.pow_succ_r by lia. f_equal; lia. }
      destruct (Z.le_gt_cases 0 e) as [Hpos|Hneg].
      + rewrite (pow2_nonneg e), (pow2_neg (- e)) in Hlow by lia.
        assert (2 ^ 53 = 2 ^ e * 2 ^ (53 - e)) as Hsplit.
        { rewrite <- Z.pow_add_r by lia. f_equal; lia. }
        assert (0 < 2 ^ e) by (apply Z.pow_pos_nonneg; lia). nia.
      + rewrite (pow2_neg e), (pow2_nonneg (- e)) in Hlow by lia.
        assert (2 ^ (53 - e) = 2 ^ 53 * 2 ^ (- e)) as Hsplit.
        { rewrite <- Z.pow_add_r by lia. f_equal; lia. }
        assert (0 < 2 ^ (- e)) by (apply Z.pow_pos_nonneg; lia). nia.
    - assert (2 * T = 2 ^ 1075) as ->; [|lia].
      subst T s. rewrite Z.max_r by lia. rewrite <- Z.pow_succ_r by lia. done. }
  rewrite !Z.mul_1_r, !Z.mul_1_l.
  set (c := - ((- a) `div` b)).
  assert ((c - 1) * b < a ≤ c * b) as Hc.
  { subst c. pose proof (Z.div_mod (- a) b ltac:(lia)).
    pose proof (Z.mod_pos_bound (- a) b ltac:(lia)). nia. }
  assert (1 ≤ c ≤ a) as Hca by nia.
  set (m := round_half_even (a * T) b).
  assert (m ≤ c * T) as Hup.
  { apply round_half_even_le; [lia|]. nia. }
  assert ((c - 1) * T < m) as Hdown.
  { apply (round_half_even_gt _ _ _ T); [lia| |lia]. nia. }
  assert (T ≤ 2 ^ 1074) as HTmax.
  { subst T. apply Z.pow_le_mono_r; lia. }
  destruct (Z.leb_spec (2 ^ 1024 * T) m) as [Hover|_].
  { exfalso. assert (2 ^ 53 ≤ 2 ^ 1024) by (apply Z.pow_le_mono_r; lia). nia. }
  eexists. split; [reflexivity|].
  unfold ceil. cbn [mantissa exponent]. rewrite (pow2_neg s) by done.
  rewrite (pow2_nonneg (- s)) by lia. fold T. rewrite Z.mul_1_r.
  assert ((- m) `div` T = - c) as ->; [|lia].
  symmetry. apply (Z.div_unique (- m) T (- c) (c * T - m)); lia.
Qed.

(** [1 / 3] and [7 / -2]; a tie, which goes to the even float; the smallest
    float and the zero below it; and the floats that are too large. *)
Example truediv_samples :
  truediv 1 3 = Ok (Build 6004799503160661 (-54))
  ∧ truediv 7 (-2) = Ok (Build (-7881299347898368) (-51))
  ∧ truediv (2 ^ 53 + 1) 1 = Ok (Build (2 ^ 52) 1)
  ∧ truediv 1 (2 ^ 1074) = Ok (Build 1 (-1074))
  ∧ truediv 1 (2 ^ 1075) = Ok (Build 0 (-1074))
  ∧ truediv 3 (10 ^ 330) = Ok (Build 0 (-1074))
  ∧ truediv (2 ^ 1024 - 1) 1 = Raise OverflowError
  ∧ truediv 1 0 = Raise ZeroDivisionError.
Proof. repeat split; by vm_compute. Qed.

End PyFloatProps.

(** ** Pagination of the patient list *)

Module PaginatorProps.
Import Hospital HospitalAux.

Section Pages.
Context `{D : Django} {A : Type}.
Implicit Types (l : list A) (n i total : Z).

(** With a positive page size below [2 ^ 1075] and fewer than [2 ^ 53]
    objects, there is at least one page, and the last page is the one that
    reaches the end of the list. *)
Lemma num_pages_positive l n :
  1 ≤ n < 2 ^ 1075 → Z.of_nat (length l) < 2 ^ 53 →
  ∃ total, Paginator.num_pages (Paginator.Build l n) = Ok total
           ∧ 1 ≤ total
           ∧ (total - 1) * n < Z.max 1 (Z.of_nat (length l)) ≤ total * n.
Proof.
  intros Hn Hl. unfold Paginator.num_pages, Paginator.count.
  cbn [Paginator.object_list Paginator.per_page].
  set (h := Z.max 1 (Z.of_nat (length l))).
  assert (1 ≤ h < 2 ^ 53) as Hh.
  { split; [lia|]. subst h. apply Z.max_lub_lt; [|done]. by apply Z.pow_gt_1. }
  destruct (PyFloatProps.ceil_truediv h n Hh Hn) as (x & -> & Hceil).
  cbn [mbind result_bind]. eexists. split; [done|]. rewrite Hceil.
  pose proof (Z.div_mod (- h) n ltac:(lia)) as Hdiv.
  pose proof (Z.mod_pos_bound (- h) n ltac:(lia)) as Hmod.
  nia.
Qed.

Lemma page_in_range l n i total :
  1 ≤ n → Paginator.num_pages (Paginator.Build l n) = Ok total → 1 ≤ i ≤ total →
  Paginator.page py_int (Paginator.Build l n) (inr i)
  = Ok (i, take (Z.to_nat (Z.min (i * n) (Z.of_nat (length l)) - (i - 1) * n))
             (drop (Z.to_nat ((i - 1) * n)) l)).
Proof.
  intros Hn Htotal Hi. unfold Paginator.page, Paginator.validate_number.
  rewrite (proj2 (Z.ltb_ge i 1)) by lia. rewrite Htotal. cbn [mbind result_bind].
  rewrite (proj2 (Z.ltb_ge total i)) by lia. cbn [mbind result_bind].
  unfold Paginator.count. cbn [Paginator.object_list Paginator.per_page].
  do 3 f_equal. destruct (Z.leb_spec (Z.of_nat (length l)) ((i - 1) * n + n)); lia.
Qed.

Lemma nth_page_in_range l n i total :
  1 ≤ n → Paginator.num_pages (Paginator.Build l n) = Ok total → 1 ≤ i ≤ total →
  nth_page l n i
  = take (Z.to_nat (Z.min (i * n) (Z.of_nat (length l)) - (i - 1) * n))
         (drop (Z.to_nat ((i - 1) * n)) l).
Proof. intros. unfold nth_page. by erewrite page_in_range. Qed.

(** The first [k] pages are the first [k * n] objects. *)
Lemma first_pages l n total (k : nat) :
  1 ≤ n < 2 ^ 1075 → Z.of_nat (length l) < 2 ^ 53 →
  Paginator.num_pages (Paginator.Build l n) = Ok total → Z.of_nat k ≤ total →
  all_pages l n (Z.of_nat k) = take (Z.to_nat (Z.of_nat k * n)) l.
Proof.
  intros Hn Hl Htotal. unfold all_pages. induction k as [|k IH]; intros Hk.
  - done.
  - rewrite seqZ_S, fmap_app, join_app, IH by lia. cbn [fmap list_fmap mjoin list_join].
    rewrite app_nil_r, (nth_page_in_range _ _ _ total) by (done || lia).
    replace (1 + Z.of_nat k - 1) with (Z.of_nat k) by lia.
    rewrite take_take_drop.
    destruct (num_pages_positive l n Hn Hl) as (total' & Htotal' & _ & Hlast).
    rewrite Htotal in Htotal'. injection Htotal' as <-.
    destruct (Z.le_gt_cases ((1 + Z.of_nat k) * n) (Z.of_nat (length l))).
    + f_equal. lia.
    + rewrite !take_ge; [done|lia..].
Qed.

(** The pages, one after the other, are the list. *)
Lemma pages_cover l n total :
  1 ≤ n < 2 ^ 1075 → Z.of_nat (length l) < 2 ^ 53 →
  Paginator.num_pages (Paginator.Build l n) = Ok total →
  all_pages l n total = l.
Proof.
  intros Hn Hl Htotal.
  destruct (num_pages_positive l n Hn Hl) as (total' & Htotal' & Hpos & Hlast).
  rewrite Htotal in Htotal'. injection Htotal' as <-.
  rewrite <- (Z2Nat.id total) at 1 by lia.
  rewrite (first_pages _ _ total) by (done || lia).
  apply take_ge. lia.
Qed.

End Pages.
End PaginatorProps.

(** ** The patient list and the export *)

Module PatientListProps.
Import Hospital HospitalAux PaginatorProps.

#[global] Instance by_id_total : Total by_id.
Proof. intros p1 p2. unfold by_id. lia. Qed.

#[global] Instance by_id_transitive : Transitive by_id.
Proof. intros p1 p2 p3. unfold by_id. lia. Qed.

Lemma StronglySorted_filter {A} (R : relation A) (P : A → Prop)
    `{!∀ x, Decision (P x)} (l : list A) :
  StronglySorted R l → StronglySorted R (filter P l).
Proof.
  induction 1 as [|x l Hl IH Hx]; [constructor|].
  rewrite filter_cons. case_decide; [|done]. constructor; [done|].
  apply Forall_forall. intros y [_ Hy]%list_elem_of_filter.
  by eapply Forall_forall in Hx.
Qed.

Section List.
Context `{D : Django}.

(** The list view shows no more patients than the table holds. *)
Lemma list_queryset_length (req : Request) (d : DB) :
  (length (list_queryset req d) ≤ length (patients d))%nat.
Proof.
  unfold list_queryset. rewrite length_fmap.
  assert (length (merge_sort by_id (patients d)) = length (patients d)) as Hsorted.
  { apply Permutation_length, merge_sort_Permutation. }
  destruct (Py.truthy _); [|lia].
  rewrite <- Hsorted. apply length_filter.
Qed.

Lemma per_page_ok (req : Request) (n : Z) :
  page_size_is req n →
  match query req !! u "page_size" with
  | Some s => if Py.truthy s
              then match py_int s with Some n => Ok n | None => Raise ValueError end
              else Ok 10
  | None => Ok 10
  end = Ok n.
Proof.
  unfold page_size_is. destruct (query req !! u "page_size") as [s|]; [|by intros ->].
  destruct (Py.truthy s); [by intros ->|by intros ->].
Qed.

(** Closes the case analysis of [served_page]: the equation, the bounds, and
    the four readings of the page parameter. *)
Ltac served :=
  split_and!; [done|lia|..]; intros;
  repeat match goal with
         | H : _ ∨ _ |- _ => destruct H
         | H : ∃ _, _ |- _ => destruct H
         | H : _ ∧ _ |- _ => destruct H
         end;
  simplify_eq; lia.

(** The page [patients_list] serves. *)
Lemma served_page {A} (req : Request) (l : list A) (n total : Z) :
  1 ≤ n → Paginator.num_pages (Paginator.Build l n) = Ok total → 1 ≤ total →
  let page_num : pystr + Z :=
    match query req !! u "page" with
    | Some s => if Py.truthy s then inl s else inr 1
    | None => inr 1
    end in
  ∃ cur,
    match Paginator.page py_int (Paginator.Build l n) page_num with
    | Raise PageNotAnInteger => Paginator.page py_int (Paginator.Build l n) (inr 1)
    | Raise EmptyPage =>
        total ← Paginator.num_pages (Paginator.Build l n);
        Paginator.page py_int (Paginator.Build l n) (inr total)
    | r => r
    end = Ok (cur, nth_page l n cur)
    ∧ 1 ≤ cur ≤ total
    ∧ (no_page req → cur = 1)
    ∧ (page_not_integer req → cur = 1)
    ∧ (∀ k, page_is req k → total < k → cur = total)
    ∧ (∀ k, page_is req k → 1 ≤ k ≤ total → cur = k).
Proof.
  intros Hn Htotal Hpos page_num.
  assert (∀ i, 1 ≤ i ≤ total →
            Paginator.page py_int (Paginator.Build l n) (inr i) = Ok (i, nth_page l n i))
    as Hpage.
  { intros i Hi. unfold nth_page. by erewrite page_in_range. }
  unfold no_page, page_not_integer, page_is. subst page_num.
  destruct (query req !! u "page") as [s|] eqn:Hs.
  2:{ exists 1. rewrite Hpage by lia. served. }
  unfold Py.truthy. case_bool_decide as Hempty; cbn [negb].
  { exists 1. rewrite Hpage by lia. served. }
  destruct (py_int s) as [k|] eqn:Hint.
  2:{ exists 1. unfold Paginator.page at 1, Paginator.validate_number. rewrite Hint.
      cbn [mbind result_bind]. rewrite Hpage by lia. served. }
  destruct (Z.ltb_spec k 1) as [Hlow|Hlow].
  { exists total. unfold Paginator.page at 1, Paginator.validate_number. rewrite Hint.
    rewrite (proj2 (Z.ltb_lt k 1)) by done. cbn [mbind result_bind].
    rewrite Htotal. cbn [mbind result_bind]. rewrite Hpage by lia. served. }
  destruct (Z.ltb_spec total k) as [Hhigh|Hhigh].
  { exists total. unfold Paginator.page at 1, Paginator.validate_number. rewrite Hint.
    rewrite (proj2 (Z.ltb_ge k 1)) by done. rewrite Htotal. cbn [mbind result_bind].
    rewrite (proj2 (Z.ltb_lt total k)) by done. cbn [mbind result_bind].
    rewrite Hpage by lia. served. }
  exists k.
  assert (Paginator.page py_int (Paginator.Build l n) (inl s)
          = Paginator.page py_int (Paginator.Build l n) (inr k)) as ->.
  { unfold Paginator.page, Paginator.validate_number. by rewrite Hint. }
  rewrite Hpage by lia. served.
Qed.

(** C8 (as amended). For a request whose page size is absent, empty or a
    positive integer below [2 ^ 1075], on a table of fewer than [2 ^ 53]
    patients, [patients_list] succeeds and serves one page of the list: the
    first when the page parameter is absent or not an integer, the last when
    it exceeds the number of pages, the one asked for when it lies within;
    and the page range handed to the navigation is the run of numbers from
    [max(1, current - 3)] to [min(total, current + 3)]. *)
Theorem patients_list_pagination (req : Request) (d : DB) (n : Z) :
  page_size_is req n → 1 ≤ n < 2 ^ 1075 →
  Z.of_nat (length (patients d)) < 2 ^ 53 →
  ∃ ctx,
    patients_list_context req d = Ok ctx
    ∧ Paginator.num_pages (Paginator.Build (list_queryset req d) n) = Ok (ctx_num_pages ctx)
    ∧ 1 ≤ ctx_number ctx ≤ ctx_num_pages ctx
    ∧ ctx_patients ctx = nth_page (list_queryset req d) n (ctx_number ctx)
    ∧ (no_page req → ctx_number ctx = 1)
    ∧ (page_not_integer req → ctx_number ctx = 1)
    ∧ (∀ k, page_is req k → ctx_num_pages ctx < k → ctx_number ctx = ctx_num_pages ctx)
    ∧ (∀ k, page_is req k → 1 ≤ k ≤ ctx_num_pages ctx → ctx_number ctx = k)
    ∧ ctx_page_range ctx
      = seqZ (Z.max 1 (ctx_number ctx - 3))
             (Z.min (ctx_num_pages ctx) (ctx_number ctx + 3) + 1
              - Z.max 1 (ctx_number ctx - 3))
    ∧ ∀ k, k ∈ ctx_page_range ctx
           ↔ Z.max 1 (ctx_number ctx - 3) ≤ k
             ≤ Z.min (ctx_num_pages ctx) (ctx_number ctx + 3).
Proof.
  intros Hsize Hn Hcount.
  pose proof (list_queryset_length req d) as Hlisted.
  destruct (num_pages_positive (list_queryset req d) n Hn ltac:(lia))
    as (total & Htotal & Hpos & _).
  destruct (served_page req (list_queryset req d) n total (proj1 Hn) Htotal Hpos)
    as (cur & Hserved & Hcur & Hnone & Hbad & Hhigh & Hin).
  eexists. split.
  - unfold patients_list_context. rewrite (per_page_ok _ _ Hsize).
    cbn [mbind result_bind]. rewrite Hserved. cbn [mbind result_bind].
    rewrite Htotal. cbn [mbind result_bind fst snd]. reflexivity.
  - cbn [ctx_num_pages ctx_number ctx_patients ctx_page_range].
    split; [exact Htotal|]. split; [exact Hcur|]. split; [reflexivity|].
    split; [exact Hnone|]. split; [exact Hbad|]. split; [exact Hhigh|].
    split; [exact Hin|]. split; [reflexivity|].
    intros k. rewrite elem_of_seqZ. lia.
Qed.

(** C7. For the same [q], the patients of the export are the patients of the
    list view, its pages taken one after the other, in the same order: both
    are the patients, by id, whose first name, last name or condition contains
    the stripped [q] without case (all of them when that is empty). The list
    view is taken in pages of a size for which it has pages: a positive size
    below [2 ^ 1075], on a table of fewer than [2 ^ 53] patients. *)
Theorem export_same_as_list (req req' : Request) (d : DB) (n : Z) :
  query req !! u "q" = query req' !! u "q" → 1 ≤ n < 2 ^ 1075 →
  Z.of_nat (length (patients d)) < 2 ^ 53 →
  ∃ total content_type filename,
    Paginator.num_pages (Paginator.Build (list_queryset req d) n) = Ok total
    ∧ export_patients req' d
      = Ok (Download content_type filename
              (export_header :: (export_row d <$> export_queryset req' d)))
    ∧ patient <$> all_pages (list_queryset req d) n total = export_queryset req' d
    ∧ StronglySorted by_id (export_queryset req' d)
    ∧ ∀ p, p ∈ export_queryset req' d
           ↔ p ∈ patients d ∧ (search_text req' = [] ∨ matches (search_text req') p).
Proof.
  intros Hq Hn Hcount.
  pose proof (list_queryset_length req d) as Hlisted.
  assert (Z.of_nat (length (list_queryset req d)) < 2 ^ 53) as Hl by lia.
  destruct (num_pages_positive (list_queryset req d) n Hn Hl) as (total & Htotal & Hpos & _).
  exists total.
  assert (∃ ct fn, export_patients req' d
                   = Ok (Download ct fn (export_header :: (export_row d <$> export_queryset req' d))))
    as (ct & fn & Hexport).
  { unfold export_patients. destruct (_ && _); by do 2 eexists. }
  exists ct, fn. split_and!; [done..| | |].
  - rewrite (pages_cover _ _ _ Hn Hl Htotal).
    unfold list_queryset, export_queryset, search_text.
    rewrite Hq, <- list_fmap_compose. apply list_eq. intros i.
    rewrite list_lookup_fmap. by destruct (_ !! i).
  - unfold export_queryset. destruct (Py.truthy _).
    + apply StronglySorted_filter, StronglySorted_merge_sort; apply _.
    + apply StronglySorted_merge_sort; apply _.
  - intros p. unfold export_queryset, matches, Py.truthy.
    case_bool_decide as Hempty; cbn [negb].
    + rewrite merge_sort_Permutation. split; [by auto|by intros [? _]].
    + rewrite list_elem_of_filter, merge_sort_Permutation.
      split; [intros [? ?]; by auto|intros [? [?|?]]; [done|by split]].
Qed.

End List.

Lemma export_same_as_list_witness :
  ∃ total content_type filename,
    Paginator.num_pages
      (Paginator.Build (list_queryset Cases.brown Sample.hospital_db) 1)
    = Ok total
    ∧ export_patients (H:=Sample.django) Cases.brown_export Sample.hospital_db
      = Ok (Download content_type filename
              (export_header
               :: (export_row (H:=Sample.django) Sample.hospital_db
                     <$> export_queryset Cases.brown_export Sample.hospital_db)))
    ∧ patient <$> all_pages (H:=Sample.django)
                    (list_queryset Cases.brown Sample.hospital_db) 1 total
      = export_queryset Cases.brown_export Sample.hospital_db
    ∧ StronglySorted by_id (export_queryset Cases.brown_export Sample.hospital_db)
    ∧ ∀ p, p ∈ export_queryset Cases.brown_export Sample.hospital_db
           ↔ p ∈ patients Sample.hospital_db
             ∧ (search_text Cases.brown_export = [] ∨ matches (search_text Cases.brown_export) p).
Proof.
  apply (export_same_as_list (D:=Sample.django) Cases.brown Cases.brown_export Sample.hospital_db 1);
    [reflexivity|split; by vm_compute|by vm_compute].
Defined.

Example export_brown :
  export_queryset Cases.brown_export Sample.hospital_db = [Sample.alice; Sample.carol]
  ∧ patient <$> nth_page (H:=Sample.django)
                  (list_queryset Cases.brown Sample.hospital_db) 1 1
    = [Sample.alice]
  ∧ patient <$> nth_page (H:=Sample.django)
                  (list_queryset Cases.brown Sample.hospital_db) 1 2
    = [Sample.carol].
Proof. repeat split; reflexivity. Qed.

Lemma patients_list_pagination_witness :
  ∃ ctx,
    patients_list_context (H:=Sample.django) Cases.page_nine Sample.hospital_db = Ok ctx
    ∧ ctx_number ctx = 3 ∧ ctx_page_range ctx = [1; 2; 3]
    ∧ patient <$> ctx_patients ctx = [Sample.carol].
Proof.
  destruct (patients_list_pagination (D:=Sample.django) Cases.page_nine
              Sample.hospital_db 1) as (ctx & Hctx & _);
    [reflexivity|split; by vm_compute|by vm_compute|].
  exists ctx. split; [exact Hctx|].
  vm_compute in Hctx. injection Hctx as Hctx. subst ctx. repeat split; reflexivity.
Defined.

(** C8 as stated fails on a request whose page size is not a number: the
    conversion raises before anything is paginated, and no page is served. *)
Lemma page_size_not_a_number :
  page_not_integer (H:=Sample.django) Cases.bad_page_size
  ∧ patients_list_context (H:=Sample.django) Cases.bad_page_size Sample.hospital_db
    = Raise ValueError.
Proof.
  split; [|reflexivity]. exists (u "x"). split_and!; [reflexivity|done|reflexivity].
Qed.

(** Beyond these page sizes the list has no page: [3 / 10 ^ 330] is the float
    0, so there are 0 pages, page 1 is refused, and so is the page 0 that the
    view falls back to. *)
Example page_size_underflows :
  page_size_is (H:=Sample.django) Cases.huge_page_size (10 ^ 330)
  ∧ Paginator.num_pages
      (Paginator.Build (list_queryset Cases.huge_page_size Sample.hospital_db) (10 ^ 330))
    = Ok 0
  ∧ patients_list_context (H:=Sample.django) Cases.huge_page_size Sample.hospital_db
    = Raise EmptyPage.
Proof. repeat split; by vm_compute. Qed.

End PatientListProps.

(** ** The AJAX update of a patient *)

Module AjaxUpdateProps.
Import Hospital HospitalAux.

Section Update.
Context `{D : Django}.

Lemma assign_id k v st st' : assign k v st = Some st' → i_id st'.1 = i_id st.1.
Proof.
  destruct st as [p c]. unfold assign. intros Hst.
  repeat case_match; by simplify_eq.
Qed.

Lemma assign_all_id items st st' :
  assign_all items st = Some st' → i_id st'.1 = i_id st.1.
Proof.
  revert st. induction items as [|[k v] items IH]; intros st; cbn.
  - by intros [= ->].
  - destruct (assign k v st) as [st1|] eqn:Hst; [|done].
    intros ?%IH. apply assign_id in Hst. congruence.
Qed.

Lemma assign_ignored k v st : k ∉ allowed → assign k v st = Some st.
Proof.
  intros Hk. destruct st as [p c]. unfold assign.
  rewrite !bool_decide_eq_false_2; [done|intros ->; apply Hk; unfold allowed..].
  - do 3 right. left.
  - do 1 right. left.
  - left.
  - do 2 right. left.
Qed.

(** Keys outside the four fields play no part. *)
Lemma assign_all_filter items st :
  assign_all items st = assign_all (filter (λ kv, kv.1 ∈ allowed) items) st.
Proof.
  revert st. induction items as [|[k v] items IH]; intros st; [done|].
  rewrite filter_cons. cbn [fst]. case_decide as Hk; cbn [assign_all].
  - destruct (assign k v st); [apply IH|done].
  - rewrite assign_ignored by done. apply IH.
Qed.

Lemma assign_refused v st : refused_age v → assign (u "age") v st = None.
Proof.
  destruct st as [p c]. unfold assign, refused_age.
  rewrite bool_decide_eq_true_2 by done.
  destruct v as [| | | |[|]| |]; try done; by intros [e ->].
Qed.

Lemma assign_all_refused items v st :
  (u "age", v) ∈ items → refused_age v → assign_all items st = None.
Proof.
  intros Hin Hv. revert st. induction items as [|[k v'] items IH]; intros st.
  - by apply elem_of_nil in Hin.
  - cbn. apply elem_of_cons in Hin as [[= <- <-]|Hin].
    + by rewrite assign_refused.
    + destruct (assign k v' st); [by apply IH|done].
Qed.

(** [save] rewrites the rows with the instance's key, keeps the keys, and
    touches no other table. *)
Lemma save_frame p d d' :
  save p d = Ok d' →
  auth_users d' = auth_users d ∧ doctors d' = doctors d
  ∧ appointments d' = appointments d
  ∧ Patient.id <$> patients d' = Patient.id <$> patients d
  ∧ ∀ i row row', patients d !! i = Some row → patients d' !! i = Some row' →
                  row' ≠ row → Patient.id row = i_id p.
Proof.
  unfold save. intros Hsave.
  destruct (char_value (i_first_name p)) as [first|]; [|done].
  destruct (char_value (i_last_name p)) as [last|]; [|done].
  destruct (int_value (i_age p)) as [age|]; [|done].
  destruct (char_value (i_condition p)) as [cond|]; [|done].
  cbn in Hsave. simplify_eq. cbn. split_and!; try done.
  - rewrite <- list_fmap_compose. apply list_eq. intros i.
    rewrite !list_lookup_fmap. destruct (patients d !! i) as [row|]; [|done].
    cbn. case_bool_decide; cbn; congruence.
  - intros i row row' Hrow. rewrite list_lookup_fmap, Hrow. cbn.
    case_bool_decide; [done|]. by intros [= <-].
Qed.

(** What the body of the [try] block can come to. *)
Lemma update_body_cases req d resp d' :
  update_body req d = Ok (resp, d') →
  (resp = JsonError 400 (Message (u "age must be integer")) ∧ d' = d)
  ∨ ((∃ a b c, resp = JsonSaved a b c)
     ∧ (d' = d ∨ ∃ p, names_patient req (i_id p) ∧ save p d = Ok d')).
Proof.
  unfold update_body. intros Hbody.
  destruct (body req) as [payload|] eqn:Hpayload; [|done]. cbn in Hbody.
  destruct (Json.get payload (u "id")) as [idv|] eqn:Hidv; [|done]. cbn in Hbody.
  destruct (to_int py_int idv) as [pid|] eqn:Hpid; [|done]. cbn in Hbody.
  destruct (match payload with JObj m => _ | _ => _ end) as [data|]; [|done].
  cbn in Hbody.
  destruct (find _ (patients d)) as [p|] eqn:Hfind; [|done]. cbn in Hbody.
  destruct (match data with JObj m => _ | _ => _ end) as [items|]; [|done].
  cbn in Hbody.
  destruct (assign_all items (fetched p, false)) as [[p' changed]|] eqn:Hassign.
  2:{ injection Hbody as <- <-. by left. }
  right. destruct changed.
  - destruct (save p' d) as [d1|] eqn:Hsave; [|done]. cbn in Hbody.
    injection Hbody as <- <-. split; [by do 3 eexists|]. right. exists p'.
    split; [|done]. apply assign_all_id in Hassign. cbn in Hassign.
    apply find_some in Hfind as [_ Hp%bool_decide_eq_true].
    rewrite Hassign, Hp. by exists payload, idv.
  - cbn in Hbody. injection Hbody as <- <-. split; [by do 3 eexists|by left].
Qed.

Lemma find_patient (d : DB) (pid : Z) :
  pid ∈ (Patient.id <$> patients d) →
  ∃ p, find (λ row, bool_decide (Patient.id row = pid)) (patients d) = Some p.
Proof.
  intros (p & -> & Hp%list_elem_of_In)%list_elem_of_fmap.
  destruct (find _ (patients d)) as [p'|] eqn:Hfind; [by eexists|].
  eapply find_none in Hfind; [|done]. by rewrite bool_decide_eq_true_2 in Hfind.
Qed.

Lemma update_body_refused req d pid items v :
  names_patient req pid → pid ∈ (Patient.id <$> patients d) →
  has_data req items → (u "age", v) ∈ items → refused_age v →
  update_body req d = Ok (JsonError 400 (Message (u "age must be integer")), d).
Proof.
  intros (payload & idv & Hbody & Hidv & Hpid) Hin (m & Hbody' & Hdata) Hage Hv.
  rewrite Hbody in Hbody'. injection Hbody' as ->.
  destruct (find_patient d pid Hin) as [p Hp].
  unfold update_body. rewrite Hbody. cbn [mbind result_bind].
  rewrite Hidv. cbn [mbind result_bind]. rewrite Hpid. cbn [mbind result_bind].
  rewrite Hdata. cbn [default from_option id mbind result_bind]. rewrite Hp.
  cbn [mbind result_bind]. by rewrite (assign_all_refused _ _ _ Hage Hv).
Qed.

(** C10 (as amended). Whatever the request, [patients_ajax_update] leaves the
    users, doctors and appointments alone, adds and removes no patient, and
    changes no row but that of the patient the payload's [id] names; an error
    response (405 for a method other than POST, 400, or 500 for any exception)
    comes with the database unchanged; an [age] that [int] refuses, and that
    is not the empty string, gives the 400; keys outside [first_name],
    [last_name], [age] and [condition] are ignored. *)
Theorem ajax_update_frame (req : Request) (d : DB) :
  let resp := (patients_ajax_update req d).1 in
  let d' := (patients_ajax_update req d).2 in
  auth_users d' = auth_users d ∧ doctors d' = doctors d
  ∧ appointments d' = appointments d
  ∧ Patient.id <$> patients d' = Patient.id <$> patients d
  ∧ (∀ i row row', patients d !! i = Some row → patients d' !! i = Some row' →
                   row' ≠ row → names_patient req (Patient.id row))
  ∧ (∀ st e, resp = JsonError st e → d' = d)
  ∧ (method req ≠ POST → resp = JsonError 405 (Message (u "POST required")))
  ∧ (∀ e, method req = POST → update_body req d = Raise e →
          resp = JsonError 500 (StrOf e))
  ∧ (∀ pid items v,
       method req = POST → names_patient req pid →
       pid ∈ (Patient.id <$> patients d) → has_data req items →
       (u "age", v) ∈ items → refused_age v →
       resp = JsonError 400 (Message (u "age must be integer")))
  ∧ (∀ items st,
       assign_all items st = assign_all (filter (λ kv, kv.1 ∈ allowed) items) st).
Proof.
  intros resp d'. subst resp d'. unfold patients_ajax_update.
  case_bool_decide as Hpost; cbn [negb].
  2:{ cbn [fst snd]. split_and!; try done.
      - intros i row row' Hrow Hrow'. congruence.
      - intros; apply assign_all_filter. }
  destruct (update_body req d) as [[resp d']|e] eqn:Hbody; cbn [fst snd].
  2:{ split_and!; try done.
      - intros i row row' Hrow Hrow'. congruence.
      - by intros e' _ [= <-].
      - intros pid items v _ Hname Hin Hdata Hage Hv.
        by rewrite (update_body_refused _ _ _ _ _ Hname Hin Hdata Hage Hv) in Hbody.
      - intros; apply assign_all_filter. }
  assert (d' = d ∨ ∃ p, names_patient req (i_id p) ∧ save p d = Ok d') as Hd'.
  { destruct (update_body_cases _ _ _ _ Hbody) as [[_ ->]|[_ ?]]; auto. }
  assert (∀ st e, resp = JsonError st e → d' = d) as Herror.
  { intros st e ->.
    by destruct (update_body_cases _ _ _ _ Hbody) as [[_ ->]|[(a & b & c & [=]) _]]. }
  assert (auth_users d' = auth_users d ∧ doctors d' = doctors d
          ∧ appointments d' = appointments d
          ∧ Patient.id <$> patients d' = Patient.id <$> patients d
          ∧ ∀ i row row', patients d !! i = Some row → patients d' !! i = Some row' →
                          row' ≠ row → names_patient req (Patient.id row))
    as (? & ? & ? & ? & ?).
  { destruct Hd' as [->|(p & Hname & Hsave)].
    - split_and!; try done. intros i row row' Hrow Hrow'. congruence.
    - destruct (save_frame _ _ _ Hsave) as (? & ? & ? & ? & Hrows).
      split_and!; try done. intros i row row' Hrow Hrow' Hne.
      by rewrite (Hrows i row row' Hrow Hrow' Hne). }
  split_and!; try done.
  - intros pid items v _ Hname Hin Hdata Hage Hv.
    rewrite (update_body_refused _ _ _ _ _ Hname Hin Hdata Hage Hv) in Hbody.
    by injection Hbody as <- _.
  - intros; apply assign_all_filter.
Qed.

End Update.

Lemma ajax_update_frame_witness :
  (patients_ajax_update (H:=Sample.django) (Cases.age_update (JStr (u "3.5"))) Sample.hospital_db).1
  = JsonError 400 (Message (u "age must be integer"))
  ∧ (patients_ajax_update (H:=Sample.django) (Cases.age_update (JStr (u "3.5"))) Sample.hospital_db).2
    = Sample.hospital_db.
Proof.
  destruct (ajax_update_frame (D:=Sample.django) (Cases.age_update (JStr (u "3.5")))
              Sample.hospital_db) as (_ & _ & _ & _ & _ & Herror & _ & _ & Hage & _).
  assert ((patients_ajax_update (H:=Sample.django) (Cases.age_update (JStr (u "3.5")))
             Sample.hospital_db).1
          = JsonError 400 (Message (u "age must be integer"))) as Hresp.
  { apply (Hage 1 (Cases.age_items (JStr (u "3.5"))) (JStr (u "3.5"))).
    - reflexivity.
    - do 2 eexists. split_and!; reflexivity.
    - by apply (bool_decide_unpack _).
    - eexists. split; reflexivity.
    - right. left.
    - by exists ValueError. }
  split; [exact Hresp|]. by eapply Herror.
Defined.

(** An accepted update: the named row changes in the assigned fields, the
    unknown key is dropped, the other rows stay. *)
Example ajax_update_sample :
  patients (patients_ajax_update (H:=Sample.django) (Cases.age_update (JStr (u "31")))
              Sample.hospital_db).2
  = [Patient.Build 1 (u "Alicia") (u "Brown") 31 (u "Checkup"); Sample.bob; Sample.carol].
Proof. reflexivity. Qed.

(** C10 as stated fails on an age that is a number with a fraction: [int]
    truncates it, nothing is refused, and the truncated age is saved. *)
Lemma fractional_age_is_saved :
  status_of (patients_ajax_update (H:=Sample.django)
               (Cases.age_update (JFloat (Finite 7 2))) Sample.hospital_db).1 = 200
  ∧ patients (patients_ajax_update (H:=Sample.django)
                (Cases.age_update (JFloat (Finite 7 2))) Sample.hospital_db).2
    = [Patient.Build 1 (u "Alicia") (u "Brown") 3 (u "Checkup"); Sample.bob; Sample.carol].
Proof. split; reflexivity. Qed.

End AjaxUpdateProps.

(** ** The patched [Context.__copy__] *)

Module ContextCopyProps.
Import TemplateContext ContextAux.

Section Copy.
Context {value request : Type}.
Context (of_key : pystr → value) (vTrue vFalse vNone : value).
Implicit Types (d top : list (pystr * value)) (l below : list (list (pystr * value))).
Implicit Types (k : pystr) (v : value).

Local Abbreviation copy := (_context_copy (request:=request) of_key vTrue vFalse vNone).
Local Abbreviation builtins := (builtins vTrue vFalse vNone).
Local Abbreviation set_all := (foldl (λ acc kv, dict_set kv.1 kv.2 acc)).

Lemma dict_get_set k k' v d :
  dict_get k (dict_set k' v d) = if bool_decide (k' = k) then Some v else dict_get k d.
Proof.
  induction d as [|[k1 v1] d IH]; cbn.
  - by case_bool_decide.
  - destruct (bool_decide (k1 = k')) eqn:Hk1; cbn.
    + apply bool_decide_eq_true in Hk1 as ->. by case_bool_decide.
    + apply bool_decide_eq_false in Hk1. rewrite IH.
      repeat case_bool_decide; congruence.
Qed.

Lemma dict_get_None k d : k ∉ d.*1 → dict_get k d = None.
Proof.
  induction d as [|[k1 v1] d IH]; cbn; [done|].
  rewrite not_elem_of_cons. intros [Hk Hd]. by rewrite bool_decide_eq_false_2, IH.
Qed.

(** Assigning the items of a dictionary: its values win over the old ones. *)
Lemma dict_get_set_all k d top :
  NoDup d.*1 →
  dict_get k (set_all top d)
  = match dict_get k d with Some v => Some v | None => dict_get k top end.
Proof.
  intros Hd. revert top. induction d as [|[k1 v1] d IH]; intros top; cbn; [done|].
  apply NoDup_cons in Hd as [Hk1 Hd]. cbn [fst snd] in *. rewrite IH by done.
  case_bool_decide as Hk; subst.
  - by rewrite (dict_get_None _ _ Hk1), dict_get_set, bool_decide_eq_true_2.
  - destruct (dict_get k d); [done|]. by rewrite dict_get_set, bool_decide_eq_false_2.
Qed.

Lemma lookup_stack_first_with k l : lookup_stack k l = first_with k (reverse l).
Proof.
  unfold lookup_stack. induction (reverse l) as [|d r IH]; cbn; [done|].
  case_decide as Hd.
  - destruct Hd as [v Hv]. cbn. by rewrite Hv.
  - destruct (dict_get k d) as [v|] eqn:Hv; [by destruct Hd|].
    rewrite <- IH. by destruct (list_find _ r) as [[??]|].
Qed.

Lemma first_with_app k l1 l2 :
  first_with k (l1 ++ l2)
  = match first_with k l1 with Some v => Some v | None => first_with k l2 end.
Proof.
  induction l1 as [|d l1 IH]; cbn; [done|]. by destruct (dict_get k d).
Qed.

Lemma lookup_stack_cons k d l :
  lookup_stack k (d :: l)
  = match lookup_stack k l with Some v => Some v | None => dict_get k d end.
Proof.
  rewrite !lookup_stack_first_with, reverse_cons, first_with_app. cbn.
  by destruct (dict_get k d).
Qed.

Lemma lookup_stack_snoc k d l :
  lookup_stack k (l ++ [d])
  = match dict_get k d with Some v => Some v | None => lookup_stack k l end.
Proof. by rewrite !lookup_stack_first_with, reverse_snoc. Qed.

(** The flattened top dictionary shows what the stack showed. *)
Lemma dict_get_flattened k top l :
  well_formed l →
  dict_get k (flattened top l)
  = match lookup_stack k l with Some v => Some v | None => dict_get k top end.
Proof.
  intros Hl. revert top. unfold flattened.
  induction Hl as [|d l Hd Hl IH]; intros top; cbn [foldl]; [done|].
  rewrite IH, lookup_stack_cons, dict_get_set_all by done.
  by destruct (lookup_stack k l), (dict_get k d).
Qed.

Lemma assign_items_top d below top :
  assign_items d (below ++ [top]) = below ++ [set_all top d].
Proof.
  revert top. induction d as [|[k v] d IH]; intros top; cbn; [done|].
  unfold setitem. rewrite reverse_snoc, reverse_involutive. apply IH.
Qed.

Lemma foldl_assign_items l below top :
  foldl (λ acc d, assign_items d acc) (below ++ [top]) l = below ++ [flattened top l].
Proof.
  revert top. unfold flattened. induction l as [|d l IH]; intros top; cbn [foldl]; [done|].
  by rewrite assign_items_top, IH.
Qed.

(** [dict()] refuses a context that stands on the builtins: they are three. *)
Lemma dict_of_items_builtins items acc :
  dict_of_items of_key (items ++ [builtins]) acc = Raise ValueError.
Proof.
  revert acc. induction items as [|d items IH]; intros acc; [done|].
  destruct d as [|[k1 v1] [|[k2 v2] [|? ?]]]; cbn; auto.
Qed.

Lemma pad_length idx l :
  0 ≤ idx → idx < Z.of_nat (length (pad idx l)) ∧ (length l ≤ length (pad idx l))%nat.
Proof. intros Hidx. unfold pad. rewrite length_app, length_replicate. lia. Qed.

Lemma index_of_nonneg (a : attr Z) : 0 ≤ index_of a.
Proof. destruct a as [| |z]; cbn; [lia..|]. destruct (Z.ltb_spec z 0); lia. Qed.

(** C2 (as amended). On a context that Django built, the patched copy
    returns a duplicate of the same class whose stack has the dictionaries of
    the original, padded with empty ones up to [_processors_index]; below the
    top they are as in the original, and the top one has in addition every
    item of every dictionary of the original assigned into it, bottom first;
    [_processors_index] is the original's, clamped at 0, and a valid index of
    the stack; and every key visible in the original is visible in the
    duplicate with the same value. *)
Theorem context_copy_spec (self : context value request) :
  built_by_django vTrue vFalse vNone self →
  ∃ dup stack below top,
    copy self = Ok dup
    ∧ klass dup = klass self
    ∧ dicts self = Is stack
    ∧ copied_stack self = below ++ [top]
    ∧ dicts dup = Is (below ++ [flattened top stack])
    ∧ processors_index dup = Is (index_of (processors_index self))
    ∧ 0 ≤ index_of (processors_index self) < Z.of_nat (length (below ++ [flattened top stack]))
    ∧ ∀ k v, getitem self k = Some v → getitem dup k = Some v.
Proof.
  intros (pushed & Hdicts & Hwf).
  pose proof (index_of_nonneg (processors_index self)) as Hidx.
  destruct (pad_length (index_of (processors_index self)) (builtins :: pushed) Hidx)
    as [Hlen Hlen'].
  destruct (pad (index_of (processors_index self)) (builtins :: pushed))
    as [|d0 padded] eqn:Hpad using rev_ind; [cbn in Hlen'; lia|]. clear IHpadded.
  rename d0 into top, padded into below.
  assert (well_formed (builtins :: pushed)) as Hstack.
  { constructor; [|done]. cbn. repeat constructor; by apply (bool_decide_unpack _). }
  eexists _, (builtins :: pushed), below, top. split_and!.
  - unfold _context_copy, dict_of_context. rewrite Hdicts, reverse_cons.
    rewrite dict_of_items_builtins, Hpad, foldl_assign_items.
    cbn [mbind result_bind]. reflexivity.
  - cbn [klass]. unfold construct. by destruct (klass self).
  - done.
  - unfold copied_stack. by rewrite Hdicts.
  - done.
  - done.
  - done.
  - rewrite length_app in *. cbn [length] in *. lia.
  - intros k v. unfold getitem. rewrite Hdicts. cbn [dicts]. intros Hk.
    by rewrite lookup_stack_snoc, dict_get_flattened, Hk.
Qed.

End Copy.

Lemma context_copy_spec_witness :
  ∃ dup stack below top,
    _context_copy JStr (JBool true) (JBool false) JNull Sample.context_x = Ok dup
    ∧ klass dup = klass Sample.context_x
    ∧ dicts Sample.context_x = Is stack
    ∧ copied_stack Sample.context_x = below ++ [top]
    ∧ dicts dup = Is (below ++ [flattened top stack])
    ∧ processors_index dup = Is (index_of (processors_index Sample.context_x))
    ∧ 0 ≤ index_of (processors_index Sample.context_x)
      < Z.of_nat (length (below ++ [flattened top stack]))
    ∧ ∀ k v, getitem Sample.context_x k = Some v → getitem dup k = Some v.
Proof.
  apply (context_copy_spec JStr (JBool true) (JBool false) JNull Sample.context_x).
  exists [[(u "x", JInt 1)]]. split; [reflexivity|].
  repeat constructor. by apply (bool_decide_unpack _).
Defined.

(** C2 as stated fails on [Context({"x": 1})]: the duplicate's top dictionary
    is not a copy of the original's, it also holds the builtins. *)
Lemma copy_flattens_into_top :
  _context_copy JStr (JBool true) (JBool false) JNull Sample.context_x
  = Ok (MkContext ContextCls None
          (Is [builtins (JBool true) (JBool false) JNull;
               [(u "x", JInt 1); (u "True", JBool true); (u "False", JBool false);
                (u "None", JNull)]])
          (Is 0) (Some (RenderContext [builtins (JBool true) (JBool false) JNull])))
  ∧ copied_stack Sample.context_x
    = [builtins (JBool true) (JBool false) JNull; [(u "x", JInt 1)]].
Proof. split; reflexivity. Qed.

End ContextCopyProps.

(** ** What a request of the school portal does to the database *)

Module SchoolFrame.
Import School SchoolAux SchoolInv.

Section Frame.
Context `{F : Flask} (T : Templates).

Lemma render_string_db req tpl ctx w html w' :
  render_string req tpl ctx w = Ok (html, w') → db w' = db w.
Proof.
  unfold render_string. destruct (ctx !! u "source"); [done|].
  destruct (render_template_string _ _ _ _) as [[h rest]|]; [|done].
  by intros [= _ <-].
Qed.

Lemma render_db req name ctx w html w' :
  render T req name ctx w = Ok (html, w') → db w' = db w.
Proof.
  unfold render. destruct (ctx !! u "name"); [done|].
  destruct (template_env T !! name) as [child|]; [|done].
  unfold mbind, M_bind.
  destruct (render_string req _ ctx w) as [[child_html w1]|] eqn:H1; [|done].
  apply render_string_db in H1.
  destruct (template_env T !! u "base") as [full|]; [|done].
  unfold lift. destruct (kwargs _ _ ctx) as [kw|]; [|done].
  intros H2%render_string_db. congruence.
Qed.

Lemma page_db req name ctx w r w' :
  page T req name ctx w = Ok (r, w') → db w' = db w.
Proof.
  unfold page, mbind, M_bind.
  destruct (render T req name _ w) as [[html w1]|] eqn:H1; [|done].
  apply render_db in H1. by intros [= _ <-].
Qed.

Lemma index_db req w r w' : index T req w = Ok (r, w') → db w' = db w.
Proof. unfold index, mbind, M_bind, get_db. apply page_db. Qed.

Lemma students_db req w r w' : students T req w = Ok (r, w') → db w' = db w.
Proof. unfold students, mbind, M_bind, get_db. apply page_db. Qed.

Lemma view_student_db req w r w' : view_student T req w = Ok (r, w') → db w' = db w.
Proof.
  unfold view_student, mbind, M_bind, get_db.
  destruct (find _ (students_tbl (db w))); [apply page_db|done].
Qed.

Lemma export_students_db req w r w' : export_students req w = Ok (r, w') → db w' = db w.
Proof. by intros [= _ <-]. Qed.

Lemma report_db req w r w' : report T req w = Ok (r, w') → db w' = db w.
Proof. unfold report, mbind, M_bind, get_db. apply page_db. Qed.

Lemma enroll_change req w r w' :
  enroll T req w = Ok (r, w') → change req (db w) (db w').
Proof.
  unfold enroll. destruct (enroll_validate_on_submit req) eqn:Hvalid.
  2:{ intros ->%page_db. constructor. }
  unfold mbind at 1, M_bind, get_db.
  destruct (find _ (students_tbl (db w))).
  { unfold mbind, M_bind, flash. intros ->%page_db. constructor. }
  unfold mbind, M_bind, lift.
  destruct (insert_student _ _ _ _ _ (db w)) as [d'|] eqn:Hins; [|done].
  intros [= _ <-]. by apply enrolled.
Qed.

Lemma attendance_change req w r w' :
  attendance T req w = Ok (r, w') → change req (db w) (db w').
Proof.
  unfold attendance. unfold mbind at 1, M_bind, lift.
  destruct (match args req !! u "date" with Some _ => _ | None => _ end) as [sel|]; [|done].
  unfold mbind at 1, M_bind, get_db.
  case_bool_decide as Hpost.
  - unfold mbind, M_bind, lift.
    destruct (parse_date (form req !! u "date")) as [d|] eqn:Hd; [|done].
    intros [= _ <-]. by apply attendance_saved.
  - intros ->%page_db. constructor.
Qed.

Lemma grades_change req w r w' :
  grades T req w = Ok (r, w') → change req (db w) (db w').
Proof.
  unfold grades. unfold mbind at 1, M_bind, get_db.
  destruct (grade_validate_on_submit req (db w)) eqn:Hvalid.
  - intros [= _ <-]. by apply grade_saved.
  - intros ->%page_db. constructor.
Qed.

Lemma init_admin_change req w r w' :
  init_admin req w = Ok (r, w') → change req (db w) (db w').
Proof.
  unfold init_admin. destruct (debug w); cbn [negb]; [|intros [= _ <-]; constructor].
  case_bool_decide as Hget; [intros [= _ <-]; constructor|].
  destruct (submitted_password req) as [newpw|]; [|done].
  destruct (Json.truthy newpw); cbn [negb]; [|intros [= _ <-]; constructor].
  destruct newpw; try done. intros [= _ <-]. by apply password_set.
Qed.

Lemma login_required_change (v : Request → M response) req w r w' :
  (∀ r w', v req w = Ok (r, w') → change req (db w) (db w')) →
  login_required v req w = Ok (r, w') → change req (db w) (db w').
Proof.
  intros Hv. unfold login_required.
  destruct (bool_decide (method req = OPTIONS)); [apply Hv|].
  destruct (is_authenticated req w); [apply Hv|].
  intros [= _ <-]. constructor.
Qed.

Lemma same_change req w w' : db w' = db w → change req (db w) (db w').
Proof. intros ->. constructor. Qed.

(** Whatever the route, the view changes the database in one of the ways of
    [change]. *)
Lemma route_change (rt : Route) req w r w' :
  rt ∈ url_map T → view rt req w = Ok (r, w') → change req (db w) (db w').
Proof.
  unfold url_map. intros Hrt.
  repeat (apply elem_of_cons in Hrt as [->|Hrt]); [..|by apply elem_of_nil in Hrt];
    cbn [view]; [apply init_admin_change|apply login_required_change; intros r0 w0..].
  - intros ?%index_db. by apply same_change.
  - intros ?%students_db. by apply same_change.
  - apply enroll_change.
  - intros ?%view_student_db. by apply same_change.
  - apply attendance_change.
  - apply grades_change.
  - intros ?%export_students_db. by apply same_change.
  - intros ?%report_db. by apply same_change.
Qed.

Lemma dispatch_change req w :
  change req (db w) (db (full_dispatch_request T req w).2).
Proof.
  unfold full_dispatch_request, dispatch_request.
  destruct (find _ (url_map T)) as [rt|] eqn:Hrt; [|constructor].
  apply GuardProps.find_route in Hrt as [Hrt _].
  destruct (bool_decide (method req = OPTIONS)); [constructor|].
  destruct (accepts rt (method req)); [|constructor].
  destruct (view rt req w) as [[r w']|e] eqn:Hview.
  - by apply (route_change rt req w r w').
  - destruct e; constructor.
Qed.

End Frame.
End SchoolFrame.

(** ** Requests that read *)

Module SafeMethodProps.
Import School SchoolAux SchoolInv SchoolFrame.

Section Safe.
Context `{F : Flask} (T : Templates).

Lemma not_submitted_get req : method req = GET → is_submitted req = false.
Proof.
  intros Hget. unfold is_submitted. rewrite Hget. apply bool_decide_eq_false_2.
  rewrite !elem_of_cons, elem_of_nil. by intros [?|[?|[?|[?|[]]]]].
Qed.

(** X1. A [GET] request leaves every table as it was, whatever route it names,
    whatever the session, and whether the view answers or raises. *)
Theorem get_changes_nothing (req : Request) (w : World) :
  method req = GET → db (full_dispatch_request T req w).2 = db w.
Proof.
  intros Hget. destruct (dispatch_change T req w) as [|d' Hvalid _|day Hpost _|Hvalid|pw Hne].
  - done.
  - unfold enroll_validate_on_submit in Hvalid. by rewrite not_submitted_get in Hvalid.
  - congruence.
  - unfold grade_validate_on_submit in Hvalid. by rewrite not_submitted_get in Hvalid.
  - done.
Qed.

(** X2. The five data routes registered without [methods] take [GET] (and so
    [HEAD] and [OPTIONS]) only: any other method is answered 405 before the
    login guard or the view runs, and nothing changes. *)
Theorem read_only_routes_refuse_writes (req : Request) (w : World) :
  endpoint req ∈ read_only_endpoints →
  method req ∉ [GET; HEAD; OPTIONS] →
  full_dispatch_request T req w = (Html 405 [], w).
Proof.
  intros He Hm. unfold full_dispatch_request, dispatch_request.
  assert (method req ≠ GET ∧ method req ≠ HEAD ∧ method req ≠ OPTIONS) as (H1 & H2 & H3).
  { split_and!; intros Heq; apply Hm; rewrite Heq, !elem_of_cons; auto. }
  unfold read_only_endpoints in He.
  repeat (apply elem_of_cons in He as [->|He]); [..|by apply elem_of_nil in He];
    cbn [find url_map route_endpoint];
    rewrite ?(bool_decide_eq_false_2 (_ = _ :> pystr)) by done;
    (rewrite (bool_decide_eq_true_2 (_ = _ :> pystr)) by done);
    rewrite (bool_decide_eq_false_2 (method req = OPTIONS)) by done;
    unfold accepts; cbn [methods];
    rewrite (bool_decide_eq_false_2 (method req ∈ [GET])),
            (bool_decide_eq_false_2 (method req = HEAD)) by (done || (rewrite elem_of_cons, elem_of_nil; by intros [?|[]]));
    reflexivity.
Qed.

End Safe.

Lemma get_changes_nothing_witness :
  db (full_dispatch_request (H:=Sample.flask) Sample.templates
        (SchoolAux.with_session (Some 1) (Sample.anonymous GET (u "enroll")))
        Sample.world).2
  = Sample.school_db.
Proof.
  apply (get_changes_nothing (F:=Sample.flask) Sample.templates). reflexivity.
Defined.

Lemma read_only_routes_refuse_writes_witness :
  full_dispatch_request (H:=Sample.flask) Sample.templates
    (SchoolAux.with_session (Some 1) (Sample.anonymous POST (u "students"))) Sample.world
  = (Html 405 [], Sample.world).
Proof.
  apply (read_only_routes_refuse_writes (F:=Sample.flask) Sample.templates);
    by apply (bool_decide_unpack _).
Defined.

End SafeMethodProps.

(** ** What the tables of the school portal keep true *)

Module ConsistencyProps.
Import School SchoolAux SchoolInv SchoolFrame SchoolSession.

Lemma le_max_of (ids : list Z) x : x ∈ ids → x ≤ foldr Z.max 0 ids.
Proof.
  induction ids as [|y ids IH]; [by intros ?%elem_of_nil|].
  cbn. intros [->|Hx%IH]%elem_of_cons; lia.
Qed.

Lemma next_id_fresh (ids : list Z) : next_id ids ∉ ids.
Proof. intros Hin%le_max_of. unfold next_id in Hin. lia. Qed.

Lemma NoDup_snoc {A} (l : list A) x : NoDup l → x ∉ l → NoDup (l ++ [x]).
Proof.
  intros Hl Hx. apply NoDup_app. split_and!; [done| |apply NoDup_singleton].
  intros y Hy ->%list_elem_of_singleton. by apply Hx.
Qed.

Lemma filter_filter_implied {A} (P Q : A → Prop) `{!∀ x, Decision (P x)}
    `{!∀ x, Decision (Q x)} (l : list A) :
  (∀ x, P x → Q x) → filter P (filter Q l) = filter P l.
Proof.
  intros HPQ. induction l as [|x l IH]; [done|].
  rewrite (filter_cons Q). destruct (decide (Q x)) as [Hq|Hq].
  - rewrite !filter_cons. destruct (decide (P x)); by rewrite IH.
  - rewrite IH, (filter_cons P). destruct (decide (P x)) as [Hp|]; [|done].
    destruct Hq. by apply HPQ.
Qed.

Section Consistency.
Context `{F : Flask} `{K : Werkzeug} (T : Templates).

Lemma set_admin_password_usernames hash d :
  NoDup (User.username <$> users d) →
  NoDup (User.username <$> users (set_admin_password hash d)).
Proof.
  intros Hnd. unfold set_admin_password.
  destruct (find _ (users d)) as [adm|] eqn:Hfind; cbn [users].
  - assert (User.username <$> map (λ usr, if bool_decide (User.id usr = User.id adm)
              then User.Build (User.id usr) (User.username usr) hash (User.role usr)
              else usr) (users d) = User.username <$> users d) as ->; [|done].
    rewrite <- list_fmap_compose. apply list_fmap_ext. intros i usr _. cbn.
    by case_bool_decide.
  - rewrite fmap_app. apply NoDup_snoc; [done|]. cbn.
    intros (usr & Hname & Hin%list_elem_of_In)%list_elem_of_fmap.
    eapply find_none in Hfind; [|done]. by rewrite bool_decide_eq_true_2 in Hfind.
Qed.

Lemma saved_attendance_days req day d day0 :
  NoDup (Student.id <$> students_tbl d) →
  NoDup (Attendance.student_id <$>
           filter (λ a, Attendance.date a = day0) (attendance_tbl d)) →
  NoDup (Attendance.student_id <$>
           filter (λ a, Attendance.date a = day0) (saved_attendance req day d)).
Proof.
  intros Hids Hday0. unfold saved_attendance.
  destruct (AttendanceProps.foldl_mark (form req) day (order_by_roll_no (students_tbl d))
              (filter (λ a, Attendance.date a ≠ day) (attendance_tbl d)))
    as (news & -> & Hdate & Hnews).
  destruct (decide (day0 = day)) as [->|Hne].
  - destruct (AttendanceProps.filter_kept day (attendance_tbl d) news Hdate) as [_ ->].
    apply (f_equal (fmap fst)) in Hnews. rewrite <- !list_fmap_compose in Hnews.
    change (fst ∘ _) with Attendance.student_id in Hnews at 1.
    change (fst ∘ _) with Student.id in Hnews. rewrite Hnews.
    assert (Student.id <$> order_by_roll_no (students_tbl d) ≡ₚ Student.id <$> students_tbl d)
      as -> by apply fmap_Permutation, SearchProps.order_by_roll_no_sorted.
    done.
  - rewrite filter_app, (AttendanceProps.filter_none _ news), app_nil_r.
    + rewrite filter_filter_implied; [done|]. intros a ->. done.
    + eapply Forall_impl; [exact Hdate|]. intros a -> ?. done.
Qed.

Lemma saved_attendance_enrolled req day d a :
  (∀ a, a ∈ attendance_tbl d → Attendance.student_id a ∈ (Student.id <$> students_tbl d)) →
  a ∈ saved_attendance req day d →
  Attendance.student_id a ∈ (Student.id <$> students_tbl d).
Proof.
  intros Hold. unfold saved_attendance.
  destruct (AttendanceProps.foldl_mark (form req) day (order_by_roll_no (students_tbl d))
              (filter (λ a, Attendance.date a ≠ day) (attendance_tbl d)))
    as (news & -> & Hdate & Hnews).
  intros [[_ Hin]%list_elem_of_filter|Hin]%elem_of_app; [by apply Hold|].
  apply (f_equal (fmap fst)) in Hnews. rewrite <- !list_fmap_compose in Hnews.
  change (fst ∘ _) with Attendance.student_id in Hnews at 1.
  change (fst ∘ _) with Student.id in Hnews.
  assert (Attendance.student_id a ∈ Attendance.student_id <$> news) as Ha
    by (by apply list_elem_of_fmap_2).
  rewrite Hnews in Ha.
  assert (Student.id <$> order_by_roll_no (students_tbl d) ≡ₚ Student.id <$> students_tbl d)
    as Hperm by apply fmap_Permutation, SearchProps.order_by_roll_no_sorted.
  by rewrite Hperm in Ha.
Qed.

Lemma grade_valid_student req d :
  grade_validate_on_submit req d = true →
  Grade.student_id (saved_grade req d) ∈ (Student.id <$> students_tbl d).
Proof.
  unfold grade_validate_on_submit, saved_grade. cbn [Grade.student_id].
  intros Hvalid. rewrite !andb_true_iff in Hvalid.
  destruct Hvalid as [[[[[[_ _] Hsid] _] _] _] _].
  destruct (int_field (form req !! u "student_id")) as [sid|]; [|done].
  apply andb_true_iff in Hsid as [Hsid%bool_decide_eq_true _]. done.
Qed.

(** One request keeps the tables consistent. *)
Lemma change_consistent req d d' : change req d d' → consistent d → consistent d'.
Proof.
  intros Hch [Hnames Hids Hrolls Honce Hmarked Hgraded].
  destruct Hch as [|d' Hvalid Hins|day Hpost Hday|Hvalid|pw Hne].
  - done.
  - unfold insert_student in Hins. case_bool_decide as Hroll; [done|].
    injection Hins as <-. split; cbn [users students_tbl attendance_tbl grades_tbl];
      try done.
    + rewrite fmap_app. apply NoDup_snoc; [done|]. apply next_id_fresh.
    + rewrite fmap_app. by apply NoDup_snoc.
    + intros a Ha%Hmarked. rewrite fmap_app. apply elem_of_app. by left.
    + intros g Hg%Hgraded. rewrite fmap_app. apply elem_of_app. by left.
  - split; cbn [users students_tbl attendance_tbl grades_tbl]; try done.
    + intros day0. by apply saved_attendance_days.
    + intros a. by apply saved_attendance_enrolled.
  - split; cbn [users students_tbl attendance_tbl grades_tbl]; try done.
    intros g [Hg|Hg%list_elem_of_singleton]%elem_of_app; [by apply Hgraded|].
    subst g. by apply grade_valid_student.
  - pose proof (set_admin_password_usernames (generate_password_hash (salt req) pw) d Hnames).
    destruct (InitAdminProps.set_admin_password_users
                (generate_password_hash (salt req) pw) d) as (Hs & Ha & Hg & _).
    split; rewrite ?Hs, ?Ha, ?Hg; done.
Qed.

Lemma login_page_db req w r w' : login_page T req w = Ok (r, w') → db w' = db w.
Proof.
  unfold login_page, mbind, M_bind.
  destruct (page T req _ _ w) as [[r0 w0]|] eqn:Hpage; [|done].
  apply page_db in Hpage. by intros [= _ <-].
Qed.

Lemma login_db req w r w' : login T req w = Ok (r, w') → db w' = db w.
Proof.
  unfold login. destruct (is_authenticated req w); [by intros [= _ <-]|].
  destruct (login_validate_on_submit req); [|apply login_page_db].
  destruct (find _ (users (db w))) as [user|].
  - destruct (check_password user _).
    + by intros [= _ <-].
    + unfold mbind, M_bind, flash. by intros ->%login_page_db.
  - unfold mbind, M_bind, flash. by intros ->%login_page_db.
Qed.

Lemma serves_db_consistent w w' :
  serves T w w' → consistent (db w) → consistent (db w').
Proof.
  intros [req|req r w1 Hlogin|req r w1 Hlogout].
  - apply (change_consistent req), dispatch_change.
  - apply login_db in Hlogin. by rewrite Hlogin.
  - injection Hlogout as _ <-. done.
Qed.

(** X3. Whatever requests are served one after the other, and whether they
    answer or fail, a consistent database stays consistent: user names,
    student ids and roll numbers stay pairwise distinct, no student is marked
    twice for the same day, and attendance records and grades only name
    enrolled students. *)
Theorem requests_keep_consistency (w w' : World) :
  rtc (serves T) w w' → consistent (db w) → consistent (db w').
Proof.
  induction 1 as [|w1 w2 w3 Hstep _ IH]; [done|].
  intros Hw1. apply IH. by apply (serves_db_consistent w1).
Qed.

End Consistency.
End ConsistencyProps.

Module ConsistencyExamples.
Import School SchoolAux SchoolInv SchoolSession.

Lemma new_school_consistent : consistent (db Fixtures.new_school).
Proof.
  split; cbn.
  - apply NoDup_singleton.
  - apply NoDup_nil_2.
  - apply NoDup_nil_2.
  - intros day. apply NoDup_nil_2.
  - by intros a ?%elem_of_nil.
  - by intros g ?%elem_of_nil.
Qed.

Lemma school_db_consistent : consistent Sample.school_db.
Proof.
  split; cbn [Sample.school_db users students_tbl attendance_tbl grades_tbl].
  - apply NoDup_singleton.
  - by apply (bool_decide_unpack _).
  - by apply (bool_decide_unpack _).
  - intros day. rewrite !filter_cons, filter_nil.
    repeat case_decide; cbn in *; try lia; by apply (bool_decide_unpack _).
  - intros a Ha. rewrite !elem_of_cons, elem_of_nil in Ha.
    destruct Ha as [->|[->|[->|[]]]]; by apply (bool_decide_unpack _).
  - by intros g ?%elem_of_nil.
Qed.

Lemma requests_keep_consistency_witness :
  consistent (db (full_dispatch_request (H:=Sample.flask) Sample.templates
                    Fixtures.enroll_carl Fixtures.new_school).2).
Proof.
  apply (ConsistencyProps.requests_keep_consistency (F:=Sample.flask)
           (K:=Fixtures.werkzeug) Sample.templates Fixtures.new_school).
  - apply rtc_once. apply serves_route.
  - exact new_school_consistent.
Defined.

Example carl_is_enrolled :
  students_tbl (db (full_dispatch_request (H:=Sample.flask) Sample.templates
                      Fixtures.enroll_carl Fixtures.new_school).2)
  = [Student.Build 1 (u "3") (u "Carl") None None None].
Proof. reflexivity. Qed.

End ConsistencyExamples.

(** ** The counts of the dashboard and of the report *)

Module ReportProps.
Import School SchoolAux SchoolInv.

Lemma filter_length_implied {A} (P Q : A → Prop) `{!∀ x, Decision (P x)}
    `{!∀ x, Decision (Q x)} (l : list A) :
  (∀ x, P x → Q x) → (length (filter P l) ≤ length (filter Q l))%nat.
Proof.
  intros HPQ. induction l as [|x l IH]; [done|].
  rewrite !filter_cons. destruct (decide (P x)) as [Hp|].
  - rewrite decide_True by auto. cbn. lia.
  - destruct (decide (Q x)); cbn; lia.
Qed.

(** In a consistent database the students present on a day are at most the
    students enrolled. *)
Lemma present_at_most_enrolled (d : DB) (day : date) :
  consistent d →
  (length (filter (λ a, present_on day a = true) (attendance_tbl d))
   ≤ length (students_tbl d))%nat.
Proof.
  intros [_ _ _ Honce Hmarked _].
  etransitivity; [apply (filter_length_implied _ (λ a, Attendance.date a = day))|].
  { intros a [Ha%bool_decide_eq_true _]%andb_true_iff. done. }
  rewrite <- (length_fmap Attendance.student_id), <- (length_fmap Student.id (students_tbl d)).
  apply submseteq_length, NoDup_submseteq; [apply Honce|].
  intros sid (a & -> & [_ Ha]%list_elem_of_filter)%list_elem_of_fmap. by apply Hmarked.
Qed.

Section Report.
Context `{F : Flask} (T : Templates).

(** X4. On a consistent database the report has one row for each of the
    seven days that end today, the newest first, each with the number of
    students enrolled now, and on no day more students present than enrolled;
    the dashboard's count for today is bounded the same way. *)
Theorem report_counts_bounded (req : Request) (w : World) :
  consistent (db w) →
  let total := Z.of_nat (length (students_tbl (db w))) in
  report T req w
  = page T req (u "report.html")
      [(u "summary", VSummary (report_summary (today req) (db w)))] w
  ∧ (report_summary (today req) (db w)).*1.*1
    = [today req; today req - 1; today req - 2; today req - 3; today req - 4;
       today req - 5; today req - 6]
  ∧ Forall (λ row, 0 ≤ row.1.2 ≤ total ∧ row.2 = total) (report_summary (today req) (db w))
  ∧ ∃ present, 0 ≤ present ≤ total
      ∧ index T req w
        = page T req (u "index.html")
            [(u "total_students", VInt total); (u "present_count", VInt present);
             (u "today", VDate (today req))] w.
Proof.
  intros Hcons total. split_and!.
  - done.
  - unfold report_summary. cbn. by rewrite !Z.sub_0_r.
  - unfold report_summary. rewrite !Forall_fmap. apply Forall_true. intros i. cbn.
    pose proof (present_at_most_enrolled (db w) (today req - Z.of_nat i) Hcons).
    subst total. lia.
  - eexists. split; [|reflexivity].
    pose proof (present_at_most_enrolled (db w) (today req) Hcons). subst total. lia.
Qed.

End Report.

Lemma report_counts_bounded_witness :
  Forall (λ row, 0 ≤ row.1.2 ≤ 2 ∧ row.2 = 2) (report_summary 101 Sample.school_db).
Proof.
  exact (proj1 (proj2 (proj2
    (report_counts_bounded (F:=Sample.flask) Sample.templates
       (Fixtures.on_day 101 (Sample.anonymous GET (u "report"))) Sample.world
       ConsistencyExamples.school_db_consistent)))).
Defined.

Example report_sample :
  report_summary 101 Sample.school_db
  = [(101, 1, 2); (100, 1, 2); (99, 0, 2); (98, 0, 2); (97, 0, 2); (96, 0, 2); (95, 0, 2)].
Proof. reflexivity. Qed.

End ReportProps.

(** ** What enrollment stores *)

Module EnrollStoreProps.
Import School SchoolAux SchoolInv.

Lemma lstrip_head s c : head (lstrip s) = Some c → is_space c = false.
Proof.
  induction s as [|x s IH]; [done|]. cbn [lstrip].
  destruct (is_space x) eqn:Hx; [done|]. by intros [= <-].
Qed.

Lemma rstrip_split s : ∃ ws, s = rstrip s ++ ws.
Proof.
  unfold rstrip. destruct (ReFacts.lstrip_split (rev s)) as (ws & Hsplit & _).
  exists (rev ws). rewrite <- rev_app_distr, <- Hsplit. by rewrite rev_involutive.
Qed.

Lemma rstrip_last s c : last (rstrip s) = Some c → is_space c = false.
Proof.
  unfold rstrip. rewrite rev_alt. change (rev_append ?l []) with (reverse l).
  rewrite last_reverse. apply lstrip_head.
Qed.

Lemma strip_length s : (length (strip s) ≤ length s)%nat.
Proof.
  unfold strip. destruct (rstrip_split (lstrip s)) as [ws Hws].
  destruct (ReFacts.lstrip_split s) as (ws' & Hs & _).
  apply (f_equal length) in Hws, Hs. rewrite length_app in Hws, Hs. lia.
Qed.

Lemma strip_head s c : head (strip s) = Some c → is_space c = false.
Proof.
  unfold strip. destruct (rstrip_split (lstrip s)) as [ws Hws].
  intros Hc. apply (lstrip_head s). rewrite Hws.
  destruct (rstrip (lstrip s)); [done|]. exact Hc.
Qed.

Lemma strip_tidy (n : nat) (v : option pystr) :
  data_required v = true → length_between 1 n v = true →
  tidy n (strip (default [] v)).
Proof.
  destruct v as [s|]; [|done]. change (default [] (Some s)) with s.
  cbn [data_required length_between].
  intros [_ Hs]%andb_true_iff [_ Hn%bool_decide_eq_true]%andb_true_iff.
  split_and!.
  - intros Heq. unfold Py.truthy in Hs. by rewrite Heq in Hs.
  - pose proof (strip_length s). lia.
  - apply strip_head.
  - apply rstrip_last.
Qed.

Section Enroll.
Context `{F : Flask} (T : Templates).

(** X5. However [enroll] answers, it touches the student table only, and
    there it either changes nothing or appends one student: with an id and a
    roll number no student had, and with a roll number of 1 to 20 and a name
    of 1 to 120 characters that neither begin nor end in white space. *)
Theorem enroll_appends_tidy_student (req : Request) (w w' : World) (r : response) :
  enroll T req w = Ok (r, w') →
  users (db w') = users (db w)
  ∧ attendance_tbl (db w') = attendance_tbl (db w)
  ∧ grades_tbl (db w') = grades_tbl (db w)
  ∧ (students_tbl (db w') = students_tbl (db w)
     ∨ ∃ s, students_tbl (db w') = students_tbl (db w) ++ [s]
            ∧ r = Redirect (u "students") []
            ∧ (Student.id s ∉ (Student.id <$> students_tbl (db w)))
            ∧ (Student.roll_no s ∉ (Student.roll_no <$> students_tbl (db w)))
            ∧ tidy 20 (Student.roll_no s) ∧ tidy 120 (Student.name s)).
Proof.
  unfold enroll. destruct (enroll_validate_on_submit req) eqn:Hvalid.
  2:{ intros ->%SchoolFrame.page_db. auto. }
  unfold mbind at 1, M_bind, get_db.
  destruct (find _ (students_tbl (db w))).
  { unfold mbind, M_bind, flash. intros ->%SchoolFrame.page_db. auto. }
  unfold mbind, M_bind, lift, insert_student.
  case_bool_decide as Hroll; [done|]. intros [= <- <-].
  cbn [db set_db set_flashed users students_tbl attendance_tbl grades_tbl].
  split_and!; try done. right. eexists. split; [reflexivity|].
  cbn [Student.id Student.roll_no Student.name].
  unfold enroll_validate_on_submit in Hvalid. rewrite !andb_true_iff in Hvalid.
  destruct Hvalid as [[[[[[[_ _] Hr1] Hr2] Hn1] Hn2] _] _].
  split_and!; try done.
  - apply ConsistencyProps.next_id_fresh.
  - by apply strip_tidy.
  - by apply strip_tidy.
Qed.

End Enroll.

Lemma enroll_appends_tidy_student_witness :
  students_tbl (db Fixtures.new_school) = []
  ∧ ∃ s, students_tbl (db (full_dispatch_request (H:=Sample.flask) Sample.templates
                             Fixtures.enroll_carl Fixtures.new_school).2) = [s]
         ∧ tidy 20 (Student.roll_no s) ∧ tidy 120 (Student.name s).
Proof.
  split; [reflexivity|].
  destruct (enroll_appends_tidy_student (F:=Sample.flask) Sample.templates
              Fixtures.enroll_carl Fixtures.new_school
              (full_dispatch_request (H:=Sample.flask) Sample.templates
                 Fixtures.enroll_carl Fixtures.new_school).2
              (Redirect (u "students") []) eq_refl)
    as (_ & _ & _ & [Hsame|(s & Hs & _ & _ & _ & Hroll & Hname)]).
  - by vm_compute in Hsame.
  - exists s. by split.
Defined.

End EnrollStoreProps.

(** ** The page of one student *)

Module ViewStudentProps.
Import School SchoolAux SchoolInv.

#[local] Instance newest_date_first_total : Total newest_date_first.
Proof. intros a b. unfold newest_date_first. lia. Qed.
#[local] Instance newest_date_first_trans : Transitive newest_date_first.
Proof. intros a b c. unfold newest_date_first. lia. Qed.
#[local] Instance newest_grade_first_total : Total newest_grade_first.
Proof. intros a b. unfold newest_grade_first. lia. Qed.
#[local] Instance newest_grade_first_trans : Transitive newest_grade_first.
Proof. intros a b c. unfold newest_grade_first. lia. Qed.


Section View.
Context `{F : Flask} (T : Templates).


End View.


Example ann_page :
  view_student (H:=Sample.flask) Sample.templates
    (Fixtures.for_student 1 (Sample.anonymous GET (u "view_student"))) Sample.world
  = page (H:=Sample.flask) Sample.templates
      (Fixtures.for_student 1 (Sample.anonymous GET (u "view_student")))
      (u "view_student.html")
      [(u "s", VStudent Sample.ann);
       (u "attendances", VAttendances [Attendance.Build 2 101 (u "Present") 1;
                                       Attendance.Build 1 100 (u "Present") 1]);
       (u "grades", VGrades [])] Sample.world.
Proof. reflexivity. Qed.

End ViewStudentProps.

(** ** More on attendance *)

Module AttendanceMoreProps.
Import School SchoolAux SchoolInv.

Section Attendance.
Context `{F : Flask} (T : Templates).

(** The date [attendance] reads from the URL. *)
Lemma selected_date_cases req :
  (∃ s, args req !! u "date" = Some s ∧ s ≠ [] ∧ fromisoformat s = None
        ∧ ∀ w, attendance T req w = Raise ValueError)
  ∨ ∃ sel, (match args req !! u "date" with
            | Some s => if Py.truthy s then parse_date (Some s) else Ok (today req)
            | None => Ok (today req)
            end) = Ok sel.
Proof.
  destruct (args req !! u "date") as [s|] eqn:Hs; [|right; by eexists].
  unfold Py.truthy. case_bool_decide as Hempty; cbn [negb]; [right; by eexists|].
  unfold parse_date. destruct (fromisoformat s) as [d|] eqn:Hd; [right; by eexists|].
  left. exists s. split_and!; try done. intros w. unfold attendance.
  rewrite Hs. unfold Py.truthy. rewrite (bool_decide_eq_false_2 (s = [])) by done.
  cbn [negb]. unfold parse_date. rewrite Hd. reflexivity.
Qed.

(** X7. A date that [date.fromisoformat] refuses makes [attendance] raise
    before anything is stored: a [ValueError] for a non-empty [date] in the
    URL, whatever the method, and on a POST a [TypeError] when the form has no
    [date] and a [ValueError] when it has one that does not parse. The
    request of a logged-in user then ends in a 500 and leaves everything as
    it was. *)
Theorem attendance_refuses_bad_dates (req : Request) (w : World) :
  (∀ s, args req !! u "date" = Some s → s ≠ [] → fromisoformat s = None →
        attendance T req w = Raise ValueError)
  ∧ (method req = POST → args req !! u "date" = None → form req !! u "date" = None →
     attendance T req w = Raise TypeError)
  ∧ (∀ s, method req = POST → args req !! u "date" = None →
          form req !! u "date" = Some s → fromisoformat s = None →
          attendance T req w = Raise ValueError)
  ∧ (∀ e, attendance T req w = Raise e → (∀ st, e ≠ HTTPException st) →
          endpoint req = u "attendance" → method req = GET ∨ method req = POST →
          is_authenticated req w = true →
          full_dispatch_request T req w = (Html 500 [], w)).
Proof.
  split_and!.
  - intros s Hs Hne Hd. unfold attendance. rewrite Hs. unfold Py.truthy.
    rewrite (bool_decide_eq_false_2 (s = [])) by done. cbn [negb]. unfold parse_date.
    rewrite Hd. reflexivity.
  - intros Hpost Hargs Hform. unfold attendance. rewrite Hargs.
    unfold mbind at 1, M_bind, lift. unfold mbind at 1, M_bind, get_db.
    rewrite bool_decide_eq_true_2 by done. by rewrite Hform.
  - intros s Hpost Hargs Hform Hd. unfold attendance. rewrite Hargs.
    unfold mbind at 1, M_bind, lift. unfold mbind at 1, M_bind, get_db.
    rewrite bool_decide_eq_true_2 by done. rewrite Hform. unfold parse_date.
    by rewrite Hd.
  - intros e Hraise Hhttp He Hm Hauth.
    unfold full_dispatch_request, dispatch_request. rewrite He.
    cbn [find url_map route_endpoint].
    rewrite ?(bool_decide_eq_false_2 (_ = _ :> pystr)) by done.
    rewrite (bool_decide_eq_true_2 (_ = _ :> pystr)) by done.
    assert (method req ≠ OPTIONS) as Hopt by (destruct Hm as [-> | ->]; done).
    rewrite (bool_decide_eq_false_2 (method req = OPTIONS)) by done.
    assert (accepts (MkRoute (u "/attendance") [GET; POST] (u "attendance")
                       (login_required (attendance T))) (method req) = true) as ->.
    { unfold accepts. cbn [methods]. destruct Hm as [-> | ->]; reflexivity. }
    cbn [view]. unfold login_required.
    rewrite (bool_decide_eq_false_2 (method req = OPTIONS)) by done.
    rewrite Hauth, Hraise. destruct e; try done. by destruct (Hhttp status).
Qed.

(** X8. Saving the attendance form twice is the same as saving it once: the
    second POST answers as the first did and leaves every table, the ids of
    the records included, as the first left it. *)
Theorem attendance_post_idempotent (req : Request) (w w1 : World) (r : response) :
  method req = POST →
  attendance T req w = Ok (r, w1) →
  ∃ w2, attendance T req w1 = Ok (r, w2) ∧ db w2 = db w1.
Proof.
  intros Hpost Hatt.
  destruct (selected_date_cases req) as [(s & _ & _ & _ & Hfail)|[sel Hsel]].
  { by rewrite Hfail in Hatt. }
  revert Hatt. unfold attendance. rewrite Hsel.
  unfold mbind at 1 3, M_bind, lift. unfold mbind at 1 3, M_bind, get_db.
  rewrite !bool_decide_eq_true_2 by done.
  destruct (parse_date (form req !! u "date")) as [d|] eqn:Hd; [|done].
  unfold mbind, M_bind, lift, commit, flash. intros [= <- <-].
  eexists. split; [reflexivity|].
  cbn [db set_db set_flashed users students_tbl attendance_tbl grades_tbl].
  f_equal.
  destruct (AttendanceProps.foldl_mark (form req) d
              (order_by_roll_no (students_tbl (db w)))
              (filter (λ a, Attendance.date a ≠ d) (attendance_tbl (db w))))
    as (news & Hfold & Hdate & _).
  rewrite Hfold at 1.
  by destruct (AttendanceProps.filter_kept d (attendance_tbl (db w)) news Hdate) as [-> _].
Qed.

End Attendance.

Lemma attendance_refuses_bad_dates_witness :
  attendance (H:=Sample.flask) Sample.templates
    (SchoolAux.with_session (Some 1) (Sample.anonymous POST (u "attendance"))) Sample.world
  = Raise TypeError
  ∧ full_dispatch_request (H:=Sample.flask) Sample.templates
      (SchoolAux.with_session (Some 1) (Sample.anonymous POST (u "attendance"))) Sample.world
    = (Html 500 [], Sample.world).
Proof.
  destruct (attendance_refuses_bad_dates (F:=Sample.flask) Sample.templates
              (SchoolAux.with_session (Some 1) (Sample.anonymous POST (u "attendance")))
              Sample.world) as (_ & Hmissing & _ & Hfail).
  split.
  - by apply Hmissing.
  - apply (Hfail TypeError); try done. by right.
Defined.

Lemma attendance_post_idempotent_witness :
  ∃ w1 w2 r,
    attendance (H:=Sample.flask) Sample.templates Cases.mark_101 Sample.world = Ok (r, w1)
    ∧ attendance (H:=Sample.flask) Sample.templates Cases.mark_101 w1 = Ok (r, w2)
    ∧ db w2 = db w1.
Proof.
  destruct (attendance (H:=Sample.flask) Sample.templates Cases.mark_101 Sample.world)
    as [[r w1]|] eqn:H1; [|by vm_compute in H1].
  destruct (attendance_post_idempotent (F:=Sample.flask) Sample.templates Cases.mark_101
              Sample.world w1 r eq_refl H1) as (w2 & H2 & Hdb).
  by exists w1, w2, r.
Defined.

End AttendanceMoreProps.

(** ** Grades *)

Module GradeProps.
Import School SchoolAux SchoolInv.

Section Grades.
Context `{F : Flask} (T : Templates).


End Grades.


Example grade_saved_sample :
  grades_tbl (db (full_dispatch_request (H:=Sample.flask) Sample.templates
                    Fixtures.grade_ann Sample.world).2)
  = [Grade.Build 1 (u "Maths") 7 100 (Some (u "Term 1")) None 1].
Proof. reflexivity. Qed.

End GradeProps.

(** ** Logging in *)

Module LoginProps.
Import School SchoolAux SchoolInv SchoolSession.

Section Login.
Context `{F : Flask} `{K : Werkzeug} (T : Templates).

Lemma login_page_session req w r su w' :
  login_page T req w = Ok ((r, su), w') → su = session_user req.
Proof.
  unfold login_page, mbind, M_bind.
  destruct (page T req _ _ w) as [[r0 w0]|]; [|done]. by intros [= _ <- _].
Qed.

(** What [login] can come to, shared by the statements below. *)
Lemma login_outcome (req : Request) (w w' : World) (r : response) (su : option Z) :
  login T req w = Ok ((r, su), w') →
  db w' = db w
  ∧ (su = session_user req
     ∨ ∃ user password,
         su = Some (User.id user) ∧ r = Redirect (u "index") []
         ∧ user ∈ users (db w)
         ∧ is_submitted req = true ∧ csrf_ok req = true
         ∧ form req !! u "username" = Some (User.username user)
         ∧ form req !! u "password" = Some password
         ∧ check_password_hash (User.password_hash user) password = true).
Proof.
  intros Hlogin. split; [by apply (ConsistencyProps.login_db T req w (r, su))|].
  revert Hlogin. unfold login.
  destruct (is_authenticated req w); [intros [= _ <- _]; by left|].
  destruct (login_validate_on_submit req) eqn:Hvalid.
  2:{ intros ->%login_page_session. by left. }
  destruct (find _ (users (db w))) as [user|] eqn:Hfind.
  2:{ unfold mbind, M_bind, flash. intros ->%login_page_session. by left. }
  destruct (check_password user _) eqn:Hcheck.
  2:{ unfold mbind, M_bind, flash. intros ->%login_page_session. by left. }
  intros [= <- <- _]. right.
  apply find_some in Hfind as [Hin%list_elem_of_In Hname%bool_decide_eq_true].
  unfold login_validate_on_submit in Hvalid. rewrite !andb_true_iff in Hvalid.
  destruct Hvalid as [[[[Hsub Hcsrf] Huser] _] Hpw].
  destruct (form req !! u "username") as [name|] eqn:Hn; [|done].
  destruct (form req !! u "password") as [password|] eqn:Hp; [|done].
  exists user, password. cbn in Hname. by rewrite Hname.
Qed.

(** X10. [login] never changes a table. The session it leaves is the one it
    found, unless the form was submitted with a valid CSRF token, names a
    user of the database, and carries a password that [check_password_hash]
    accepts for the hash stored with that user: then the session holds that
    user's id and the answer is the redirect to the dashboard. *)
Theorem login_checks_password (req : Request) (w w' : World) (r : response)
    (su : option Z) :
  login T req w = Ok ((r, su), w') →
  db w' = db w
  ∧ (su = session_user req
     ∨ ∃ user password,
         su = Some (User.id user) ∧ r = Redirect (u "index") []
         ∧ user ∈ users (db w)
         ∧ is_submitted req = true ∧ csrf_ok req = true
         ∧ form req !! u "username" = Some (User.username user)
         ∧ form req !! u "password" = Some password
         ∧ check_password_hash (User.password_hash user) password = true).
Proof. apply login_outcome. Qed.

(** X11. Once [login] has put a user id into a session that had none, the
    login guard lets every request of that session through to its view, as
    long as the users are the ones [login] found. *)
Theorem login_opens_guard (req : Request) (w w' : World) (r : response) (uid : Z) :
  login T req w = Ok ((r, Some uid), w') →
  session_user req = None →
  ∀ (view : Request → M response) (req' : Request) (w'' : World),
    users (db w'') = users (db w') → session_user req' = Some uid →
    login_required view req' w'' = view req' w''.
Proof.
  intros Hlogin Hanon view req' w'' Husers Hsession.
  destruct (login_outcome _ _ _ _ _ Hlogin) as [Hdb [Hsame|Hin]].
  { by rewrite Hanon in Hsame. }
  destruct Hin as (user & _ & [= ->] & _ & Hin & _).
  unfold login_required. destruct (bool_decide (method req' = OPTIONS)); [done|].
  assert (is_authenticated req' w'' = true) as ->; [|done].
  unfold is_authenticated. apply bool_decide_eq_true. rewrite Hsession. cbn.
  unfold load_user. rewrite Husers, Hdb.
  destruct (find _ (users (db w))) as [usr|] eqn:Hfind; [done|].
  apply list_elem_of_In in Hin. eapply find_none in Hfind; [|exact Hin].
  by rewrite bool_decide_eq_true_2 in Hfind.
Qed.

Lemma find_snoc {A} (P : A → bool) (l : list A) (x : A) :
  find P l = None → P x = true → find P (l ++ [x]) = Some x.
Proof.
  intros Hnone Hx. induction l as [|y l IH]; cbn [find app] in *; [by rewrite Hx|].
  destruct (P y); [done|]. by apply IH.
Qed.

Lemma find_admin_after (hash : pystr) (d : DB) :
  ∃ adm, find (λ usr, bool_decide (User.username usr = u "admin"))
              (users (set_admin_password hash d)) = Some adm
         ∧ User.password_hash adm = hash.
Proof.
  unfold set_admin_password.
  destruct (find _ (users d)) as [adm|] eqn:Hfind; cbn [users].
  - exists (User.Build (User.id adm) (User.username adm) hash (User.role adm)).
    split; [|done]. revert Hfind.
    induction (users d) as [|usr l IH]; [done|]. cbn [find map].
    case_bool_decide as Hname.
    + intros [= ->]. rewrite (bool_decide_eq_true_2 (User.id adm = User.id adm)) by done.
      cbn [User.username]. by rewrite bool_decide_eq_true_2.
    + intros Hfind.
      assert (User.username (if bool_decide (User.id usr = User.id adm)
                then User.Build (User.id usr) (User.username usr) hash (User.role usr)
                else usr) ≠ u "admin") as Hne by (by case_bool_decide).
      rewrite (bool_decide_eq_false_2 _ Hne). by apply IH.
  - exists (User.Build (next_id (User.id <$> users d)) (u "admin") hash (u "admin")).
    split; [|done]. by apply find_snoc.
Qed.

(** X12. The password that [init_admin] sets is the one that logs the admin
    in: after a POST of [pw] to [/init-admin] in debug mode, a valid login
    form with the name [admin] and [pw], from a session that holds no user,
    is answered with the redirect to the dashboard and a session that holds
    the admin's id; provided [check_password_hash] accepts [pw] for the hash
    that was generated, and [pw] is not white space only, which the login
    form refuses. *)
Theorem password_set_logs_in (req0 req1 : Request) (w : World) (pw : pystr) :
  debug w = true → method req0 = POST → posts_password req0 pw →
  check_password_hash (generate_password_hash (salt req0) pw) pw = true →
  strip pw ≠ [] →
  method req1 = POST → csrf_ok req1 = true → session_user req1 = None →
  form req1 !! u "username" = Some (u "admin") →
  form req1 !! u "password" = Some pw →
  ∃ r0 w1 adm,
    init_admin req0 w = Ok (r0, w1)
    ∧ adm ∈ users (db w1) ∧ User.username adm = u "admin"
    ∧ login T req1 w1
      = Ok ((Redirect (u "index") [], Some (User.id adm)),
            set_flashed (flashed w1 ++ [(u "success", u "Logged in successfully.")]) w1).
Proof.
  intros Hdebug Hpost Hposts Hcheck Hstrip Hpost1 Hcsrf Hanon Hname Hpw.
  set (hash := generate_password_hash (salt req0) pw).
  destruct (find_admin_after hash (db w)) as (adm & Hfind & Hhash).
  exists (Html 200 (password_set_page pw)), (set_db (set_admin_password hash (db w)) w), adm.
  split_and!.
  - unfold init_admin. rewrite Hdebug, Hpost. cbn [negb].
    rewrite bool_decide_eq_false_2 by done.
    rewrite (InitAdminProps.submitted_password_posted _ _ Hposts).
    destruct Hposts as [Hne _]. cbn [Json.truthy]. unfold Py.truthy.
    by rewrite bool_decide_eq_false_2.
  - by apply find_some in Hfind as [Hin%list_elem_of_In _].
  - by apply find_some in Hfind as [_ ?%bool_decide_eq_true].
  - unfold login.
    assert (is_authenticated req1 (set_db (set_admin_password hash (db w)) w) = false) as ->.
    { unfold is_authenticated. rewrite Hanon. by apply bool_decide_eq_false_2, is_Some_None. }
    assert (login_validate_on_submit req1 = true) as ->.
    { unfold login_validate_on_submit, is_submitted. rewrite Hpost1, Hcsrf, Hname, Hpw.
      cbn [data_required]. unfold Py.truthy at 3 4.
      rewrite (bool_decide_eq_false_2 (strip pw = [])) by done.
      rewrite (bool_decide_eq_false_2 (pw = [])) by (by intros ->).
      reflexivity. }
    rewrite Hname, Hpw. cbn [default from_option id db set_db].
    rewrite Hfind. unfold check_password. rewrite Hhash. fold hash in Hcheck.
    by rewrite Hcheck.
Qed.

(** X13. [ensure_db_and_admin] creates the admin only when no user has that
    name: an admin that is there is left as it is, password included, so
    running the start-up again changes nothing; and it never touches students,
    attendance or grades. When it creates the admin, the password [admin]
    logs in, provided [check_password_hash] accepts it for the hash that was
    generated. *)
Theorem ensure_db_and_admin_once (salt salt' : pystr) (d : DB) :
  let d' := ensure_db_and_admin salt d in
  ensure_db_and_admin salt' d' = d'
  ∧ students_tbl d' = students_tbl d ∧ attendance_tbl d' = attendance_tbl d
  ∧ grades_tbl d' = grades_tbl d
  ∧ (∀ usr, usr ∈ users d → usr ∈ users d')
  ∧ ((∃ usr, usr ∈ users d ∧ User.username usr = u "admin") → d' = d)
  ∧ (NoDup (User.username <$> users d) → NoDup (User.username <$> users d'))
  ∧ ((∀ usr, usr ∈ users d → User.username usr ≠ u "admin") →
     check_password_hash (generate_password_hash salt (u "admin")) (u "admin") = true →
     ∀ req w, db w = d' → method req = POST → csrf_ok req = true →
       session_user req = None →
       form req !! u "username" = Some (u "admin") →
       form req !! u "password" = Some (u "admin") →
       ∃ adm w', adm ∈ users d'
         ∧ login T req w = Ok ((Redirect (u "index") [], Some (User.id adm)), w')).
Proof.
  intros d'. subst d'.
  destruct (find (λ usr, bool_decide (User.username usr = u "admin")) (users d))
    as [adm|] eqn:Hfind.
  - assert (ensure_db_and_admin salt d = d) as ->
      by (unfold ensure_db_and_admin; by rewrite Hfind).
    split_and!; try done.
    + unfold ensure_db_and_admin. by rewrite Hfind.
    + intros Hnone. apply find_some in Hfind as [Hin%list_elem_of_In Hname%bool_decide_eq_true].
      by destruct (Hnone adm Hin).
  - set (new := User.Build (next_id (User.id <$> users d)) (u "admin")
                  (generate_password_hash salt (u "admin")) (u "admin")).
    assert (ensure_db_and_admin salt d
            = MkDB (users d ++ [new]) (students_tbl d) (attendance_tbl d) (grades_tbl d))
      as -> by (unfold ensure_db_and_admin; by rewrite Hfind).
    assert (find (λ usr, bool_decide (User.username usr = u "admin")) (users d ++ [new])
            = Some new) as Hnew by (by apply find_snoc).
    cbn [users students_tbl attendance_tbl grades_tbl]. split_and!; try done.
    + unfold ensure_db_and_admin. cbn [users]. by rewrite Hnew.
    + intros usr Hin. apply elem_of_app. by left.
    + intros (usr & Hin%list_elem_of_In & Hname).
      eapply find_none in Hfind; [|done]. by rewrite bool_decide_eq_true_2 in Hfind.
    + intros Hnd. rewrite fmap_app. apply ConsistencyProps.NoDup_snoc; [done|].
      intros (usr & Hname & Hin%list_elem_of_In)%list_elem_of_fmap.
      eapply find_none in Hfind; [|done]. by rewrite bool_decide_eq_true_2 in Hfind.
    + intros _ Hcheck req w Hdb Hpost Hcsrf Hanon Hname Hpw.
      exists new. eexists. split; [apply elem_of_app; right; by apply list_elem_of_singleton|].
      unfold login.
      assert (is_authenticated req w = false) as ->.
      { unfold is_authenticated. rewrite Hanon. by apply bool_decide_eq_false_2, is_Some_None. }
      assert (login_validate_on_submit req = true) as ->.
      { unfold login_validate_on_submit, is_submitted. by rewrite Hpost, Hcsrf, Hname, Hpw. }
      rewrite Hname, Hpw, Hdb. cbn [default from_option id users].
      rewrite Hnew. unfold check_password. cbn [User.password_hash new]. rewrite Hcheck.
      reflexivity.
Qed.

End Login.

Lemma login_checks_password_witness :
  ∃ r su w',
    login (H:=Sample.flask) (H0:=Fixtures.werkzeug) Sample.templates
      (Fixtures.login_as (u "admin") (u "wrong")) Sample.world = Ok ((r, su), w')
    ∧ db w' = Sample.school_db ∧ su = None.
Proof.
  destruct (login (H:=Sample.flask) (H0:=Fixtures.werkzeug) Sample.templates
              (Fixtures.login_as (u "admin") (u "wrong")) Sample.world)
    as [[[r su] w']|] eqn:Hlogin; [|by vm_compute in Hlogin].
  exists r, su, w'. split; [done|].
  destruct (login_checks_password (F:=Sample.flask) (K:=Fixtures.werkzeug)
              Sample.templates _ _ _ _ _ Hlogin) as [Hdb Hsession].
  split; [exact Hdb|]. vm_compute in Hlogin. by injection Hlogin as _ <- _.
Defined.

Lemma login_opens_guard_witness :
  login_required (students (H:=Sample.flask) Sample.templates)
    (with_session (Some 1) (Sample.anonymous GET (u "students")))
    (set_flashed [(u "success", u "Logged in successfully.")] Sample.world)
  = students (H:=Sample.flask) Sample.templates
      (with_session (Some 1) (Sample.anonymous GET (u "students")))
      (set_flashed [(u "success", u "Logged in successfully.")] Sample.world).
Proof.
  apply (login_opens_guard (F:=Sample.flask) (K:=Fixtures.werkzeug) Sample.templates
           (Fixtures.login_as (u "admin") (u "admin")) Sample.world
           (set_flashed [(u "success", u "Logged in successfully.")] Sample.world)
           (Redirect (u "index") []) 1); reflexivity.
Defined.

Lemma password_set_logs_in_witness :
  ∃ r0 w1 adm,
    init_admin (H:=Sample.flask) Cases.json_password_request Sample.world = Ok (r0, w1)
    ∧ adm ∈ users (db w1) ∧ User.username adm = u "admin"
    ∧ login (H:=Sample.flask) (H0:=Fixtures.werkzeug) Sample.templates
        (Fixtures.login_as (u "admin") (u "pw1")) w1
      = Ok ((Redirect (u "index") [], Some (User.id adm)),
            set_flashed (flashed w1 ++ [(u "success", u "Logged in successfully.")]) w1).
Proof.
  apply (password_set_logs_in (F:=Sample.flask) (K:=Fixtures.werkzeug) Sample.templates
           Cases.json_password_request (Fixtures.login_as (u "admin") (u "pw1"))
           Sample.world (u "pw1")); try reflexivity; try done.
  split; [done|]. right. split; [by left|]. eexists. split; reflexivity.
Defined.

Lemma ensure_db_and_admin_once_witness :
  ∃ adm w',
    adm ∈ users (ensure_db_and_admin (H:=Sample.flask) (u "s") (MkDB [] [] [] []))
    ∧ login (H:=Sample.flask) (H0:=Fixtures.werkzeug) Sample.templates
        (Fixtures.login_as (u "admin") (u "admin")) Fixtures.new_school
      = Ok ((Redirect (u "index") [], Some (User.id adm)), w').
Proof.
  destruct (ensure_db_and_admin_once (F:=Sample.flask) (K:=Fixtures.werkzeug)
              Sample.templates (u "s") (u "t") (MkDB [] [] [] []))
    as (_ & _ & _ & _ & _ & _ & _ & Hlogin).
  apply Hlogin; try reflexivity. by intros usr ?%elem_of_nil.
Defined.

Example wrong_password :
  fst <$> (match login (H:=Sample.flask) (H0:=Fixtures.werkzeug) Sample.templates
                   (Fixtures.login_as (u "admin") (u "wrong")) Sample.world with
           | Ok rw => Some rw | Raise _ => None end)
  = Some (Html 200 (u "<html>{{ child_content|safe }}</html>login"), None).
Proof. reflexivity. Qed.

End LoginProps.

(** ** Deleting a patient *)

Module PatientDeleteProps.
Import Hospital HospitalEdit HospitalInv.

Section Delete.
Context `{D : Django} `{Fo : Forms}.

Lemma find_by_id (d : DB) (pk : Z) :
  ((pk ∉ (Patient.id <$> patients d))
   ∧ find (λ p, bool_decide (Patient.id p = pk)) (patients d) = None)
  ∨ (pk ∈ (Patient.id <$> patients d)
     ∧ ∃ p, find (λ p, bool_decide (Patient.id p = pk)) (patients d) = Some p
            ∧ p ∈ patients d ∧ Patient.id p = pk).
Proof.
  destruct (find _ (patients d)) as [p|] eqn:Hfind.
  - apply find_some in Hfind as [Hin%list_elem_of_In Hid%bool_decide_eq_true].
    right. split; [rewrite <- Hid; by apply list_elem_of_fmap_2|by exists p].
  - left. split; [|done].
    intros (p & -> & Hin%list_elem_of_In)%list_elem_of_fmap.
    eapply find_none in Hfind; [|done]. by rewrite bool_decide_eq_true_2 in Hfind.
Qed.

(** X14. [patient_delete] answers an id that no patient has with a 404,
    whatever the method. For a patient that is there, a request other than a
    POST deletes nothing; a POST removes that patient and, by the cascade,
    all appointments of that patient, and it keeps every other patient and
    appointment, in their order, together with the doctors, the users and the
    counters of the ids. *)
Theorem patient_delete_cascades (req : Request) (pk : Z) (s : Store) :
  (pk ∉ (Patient.id <$> patients (tables s)) →
     patient_delete req pk s = Raise (HTTPException 404))
  ∧ (pk ∈ (Patient.id <$> patients (tables s)) → method req ≠ POST →
     patient_delete req pk s = Ok (RedirectTo (u "/patients/"), s))
  ∧ (pk ∈ (Patient.id <$> patients (tables s)) → method req = POST →
     ∃ s', patient_delete req pk s = Ok (RedirectTo (u "/patients/"), s')
       ∧ auth_users (tables s') = auth_users (tables s)
       ∧ doctors (tables s') = doctors (tables s)
       ∧ (user_seq s', doctor_seq s', patient_seq s', appointment_seq s')
         = (user_seq s, doctor_seq s, patient_seq s, appointment_seq s)
       ∧ (∀ p, p ∈ patients (tables s') ↔ p ∈ patients (tables s) ∧ Patient.id p ≠ pk)
       ∧ (∀ a, a ∈ appointments (tables s')
               ↔ a ∈ appointments (tables s) ∧ Appointment.patient_id a ≠ pk)
       ∧ patients (tables s') `sublist_of` patients (tables s)
       ∧ appointments (tables s') `sublist_of` appointments (tables s)).
Proof.
  unfold patient_delete.
  destruct (find_by_id (tables s) pk) as [[Hnot ->]|[Hin (p & -> & _ & Hid)]].
  - split_and!; done.
  - split_and!; [done|..].
    + intros _ Hm. by rewrite bool_decide_eq_false_2.
    + intros _ Hm. rewrite bool_decide_eq_true_2 by done. rewrite Hid.
      eexists. split; [reflexivity|]. cbn. split_and!; try done.
      * intros p0. rewrite list_elem_of_filter. tauto.
      * intros a. rewrite list_elem_of_filter. tauto.
      * apply sublist_filter.
      * apply sublist_filter.
Qed.

End Delete.

Lemma patient_delete_cascades_witness :
  patient_delete (Sample.get_request []) 1 Fixtures.hospital
  = Ok (RedirectTo (u "/patients/"), Fixtures.hospital)
  ∧ patient_delete (Sample.post_json JNull) 7 Fixtures.hospital = Raise (HTTPException 404)
  ∧ ∃ s', patient_delete (Sample.post_json JNull) 1 Fixtures.hospital
          = Ok (RedirectTo (u "/patients/"), s')
          ∧ ∀ a, a ∈ appointments (tables s')
                 ↔ a ∈ appointments Sample.hospital_db ∧ Appointment.patient_id a ≠ 1.
Proof.
  split_and!.
  - apply (patient_delete_cascades (Sample.get_request []) 1 Fixtures.hospital);
      [by apply (bool_decide_unpack _)|done].
  - apply (patient_delete_cascades (Sample.post_json JNull) 7 Fixtures.hospital).
    by apply (bool_decide_unpack _).
  - destruct (patient_delete_cascades (Sample.post_json JNull) 1 Fixtures.hospital)
      as (_ & _ & Hpost).
    destruct Hpost as (s' & Hs' & _ & _ & _ & _ & Happts & _);
      [by apply (bool_decide_unpack _)|done|].
    by exists s'.
Defined.

Example alice_deleted :
  (tables ∘ snd) <$> (match patient_delete (Sample.post_json JNull) 1 Fixtures.hospital with
                      | Ok rs => Some rs | Raise _ => None end)
  = Some (MkDB (auth_users Sample.hospital_db) (doctors Sample.hospital_db)
               [Sample.bob; Sample.carol] []).
Proof. reflexivity. Qed.

End PatientDeleteProps.

(** ** Adding an appointment *)

Module AppointmentProps.
Import Hospital HospitalEdit HospitalInv.

Lemma le_autoincrement seq ids x : x ∈ ids → x < autoincrement seq ids.
Proof.
  intros Hx%ConsistencyProps.le_max_of. unfold autoincrement. lia.
Qed.

Lemma autoincrement_fresh seq ids : autoincrement seq ids ∉ ids.
Proof. intros Hin%(le_autoincrement seq). lia. Qed.

Section Appointment.
Context `{D : Django} `{Fo : Forms}.

(** What the body of the [try] block can come to. *)
Lemma add_appointment_body_cases req s r s' :
  add_appointment_body req s = Ok (r, s') →
  ∃ pid did dv tv,
    names req (u "patient_id") pid ∧ names req (u "doctor_id") did
    ∧ holds req (u "date") dv ∧ holds req (u "time") tv
    ∧ ((r = JsonFail 400 (Message (u "missing fields")) ∧ s' = s
        ∧ (pid = 0 ∨ did = 0 ∨ Json.truthy dv = false ∨ Json.truthy tv = false))
       ∨ (pid ≠ 0 ∧ did ≠ 0 ∧ Json.truthy dv = true ∧ Json.truthy tv = true
          ∧ ∃ patient doctor ds ts date time,
              patient ∈ patients (tables s) ∧ Patient.id patient = pid
              ∧ doctor ∈ doctors (tables s) ∧ Doctor.id doctor = did
              ∧ dv = JStr ds ∧ strptime_date ds = Some date
              ∧ tv = JStr ts ∧ strptime_time ts = Some time
              ∧ s' = insert_appointment doctor patient date time s
              ∧ ∃ doctor_names appt_texts links,
                  r = JsonOk (u "Appointment added") doctor_names appt_texts links)).
Proof.
  unfold add_appointment_body. intros Hbody.
  destruct (body req) as [payload|] eqn:Hpayload; [|done]. cbn in Hbody.
  destruct (Json.get payload (u "patient_id")) as [pv|] eqn:Hpv; [|done]. cbn in Hbody.
  destruct (to_int py_int pv) as [pid|] eqn:Hpid; [|done]. cbn in Hbody.
  destruct (Json.get payload (u "doctor_id")) as [dv0|] eqn:Hdv0; [|done]. cbn in Hbody.
  destruct (to_int py_int dv0) as [did|] eqn:Hdid; [|done]. cbn in Hbody.
  destruct (Json.get payload (u "date")) as [dv|] eqn:Hdv; [|done]. cbn in Hbody.
  destruct (Json.get payload (u "time")) as [tv|] eqn:Htv; [|done]. cbn in Hbody.
  exists pid, did, dv, tv.
  split_and!; [by exists payload, pv|by exists payload, dv0|by exists payload..|].
  destruct (negb (negb (pid =? 0) && negb (did =? 0) && Json.truthy dv && Json.truthy tv))
    eqn:Hcheck.
  - injection Hbody as <- <-. left. split_and!; try done.
    apply negb_true_iff in Hcheck. rewrite !andb_false_iff, !negb_false_iff in Hcheck.
    destruct Hcheck as [[[?%Z.eqb_eq|?%Z.eqb_eq]|?]|?]; auto.
  - right. apply negb_false_iff in Hcheck. rewrite !andb_true_iff, !negb_true_iff in Hcheck.
    destruct Hcheck as [[[Hp%Z.eqb_neq Hd%Z.eqb_neq] Hdt] Htt].
    split_and!; try done.
    destruct (find _ (patients (tables s))) as [patient|] eqn:Hpatient; [|done].
    cbn in Hbody.
    destruct (find _ (doctors (tables s))) as [doctor|] eqn:Hdoctor; [|done].
    cbn in Hbody.
    apply find_some in Hpatient as [Hpin%list_elem_of_In Hpid'%bool_decide_eq_true].
    apply find_some in Hdoctor as [Hdin%list_elem_of_In Hdid'%bool_decide_eq_true].
    unfold strptime in Hbody.
    destruct dv as [| | | |ds| |]; try done.
    destruct (strptime_date ds) as [date|] eqn:Hdate; [|done]. cbn in Hbody.
    destruct tv as [| | | |ts| |]; try done.
    destruct (strptime_time ts) as [time|] eqn:Htime; [|done]. cbn in Hbody.
    injection Hbody as <- <-.
    exists patient, doctor, ds, ts, date, time. split_and!; try done.
    by eexists _, _, _.
Qed.

(** X15. [patients_ajax_add_appointment] never touches users, doctors or
    patients. Every error answer (405 for a method other than POST, 400, or
    500 for any exception) leaves the appointments as they were too.
    Otherwise one appointment is appended, with an id no appointment has, for
    the patient and the doctor whose ids the payload names, both of which
    exist, on the date and at the time parsed from the payload's texts. *)
Theorem add_appointment_effect (req : Request) (s : Store) :
  let r := (patients_ajax_add_appointment req s).1 in
  let s' := (patients_ajax_add_appointment req s).2 in
  auth_users (tables s') = auth_users (tables s)
  ∧ doctors (tables s') = doctors (tables s)
  ∧ patients (tables s') = patients (tables s)
  ∧ (method req ≠ POST → r = JsonFail 405 (Message (u "POST required")))
  ∧ (∀ e, method req = POST → add_appointment_body req s = Raise e →
          r = JsonFail 500 (StrOf e))
  ∧ ((∃ st e, r = JsonFail st e ∧ s' = s)
     ∨ ∃ a ds ts doctor_names appt_texts links,
         r = JsonOk (u "Appointment added") doctor_names appt_texts links
         ∧ appointments (tables s') = appointments (tables s) ++ [a]
         ∧ (Appointment.id a ∉ (Appointment.id <$> appointments (tables s)))
         ∧ names req (u "patient_id") (Appointment.patient_id a)
         ∧ names req (u "doctor_id") (Appointment.doctor_id a)
         ∧ Appointment.patient_id a ∈ (Patient.id <$> patients (tables s))
         ∧ Appointment.doctor_id a ∈ (Doctor.id <$> doctors (tables s))
         ∧ holds req (u "date") (JStr ds) ∧ strptime_date ds = Some (Appointment.date a)
         ∧ holds req (u "time") (JStr ts) ∧ strptime_time ts = Some (Appointment.time a)).
Proof.
  intros r s'. subst r s'. unfold patients_ajax_add_appointment.
  case_bool_decide as Hpost; cbn [negb fst snd].
  2:{ split_and!; try done. left. by eexists _, _. }
  destruct (add_appointment_body req s) as [[r s']|e] eqn:Hbody; cbn [fst snd].
  2:{ split_and!; try done.
      - by intros e' _ [= <-].
      - left. by eexists _, _. }
  destruct (add_appointment_body_cases _ _ _ _ Hbody)
    as (pid & did & dv & tv & Hpid & Hdid & Hdv & Htv & Hcases).
  destruct Hcases as [(-> & -> & _)|(_ & _ & _ & _ & Hadded)].
  { split_and!; try done. left. by eexists _, _. }
  destruct Hadded as (patient & doctor & ds & ts & date & time & Hpin & Hpid' & Hdin
                      & Hdid' & -> & Hdate & -> & Htime & -> & docs & appts & links & ->).
  cbn [insert_appointment tables auth_users doctors patients appointments].
  split_and!; try done. right.
  eexists _, ds, ts, docs, appts, links. split_and!; try done.
  - cbn [Appointment.id]. apply autoincrement_fresh.
  - cbn [Appointment.patient_id]. by rewrite Hpid'.
  - cbn [Appointment.doctor_id]. by rewrite Hdid'.
  - cbn [Appointment.patient_id]. by apply list_elem_of_fmap_2.
  - cbn [Appointment.doctor_id]. by apply list_elem_of_fmap_2.
Qed.

(** X16. The answer 400 [missing fields] is given when both ids convert with
    [int] and one of them is 0, or the date or the time is missing or
    empty; the store stays as it was. An id that is missing from the payload
    is not among these cases: [int(None)] raises before the check, and the
    answer is a 500. *)
Theorem add_appointment_missing_fields (req : Request) (s : Store) :
  method req = POST →
  (∀ pid did dv tv,
     names req (u "patient_id") pid → names req (u "doctor_id") did →
     holds req (u "date") dv → holds req (u "time") tv →
     pid = 0 ∨ did = 0 ∨ Json.truthy dv = false ∨ Json.truthy tv = false →
     patients_ajax_add_appointment req s
     = (JsonFail 400 (Message (u "missing fields")), s))
  ∧ (holds req (u "patient_id") JNull →
     patients_ajax_add_appointment req s = (JsonFail 500 (StrOf TypeError), s))
  ∧ (∀ pid, names req (u "patient_id") pid → holds req (u "doctor_id") JNull →
     patients_ajax_add_appointment req s = (JsonFail 500 (StrOf TypeError), s)).
Proof.
  intros Hpost. unfold patients_ajax_add_appointment.
  rewrite bool_decide_eq_true_2 by done. cbn [negb]. split_and!.
  - intros pid did dv tv (payload & pv & Hbody & Hpv & Hpid) (payload1 & dv0 & Hbody1 & Hdv0 & Hdid)
      (payload2 & Hbody2 & Hdv) (payload3 & Hbody3 & Htv) Hmissing.
    rewrite Hbody in Hbody1, Hbody2, Hbody3.
    injection Hbody1 as <-. injection Hbody2 as <-. injection Hbody3 as <-.
    unfold add_appointment_body. rewrite Hbody. cbn [mbind result_bind].
    rewrite Hpv. cbn [mbind result_bind]. rewrite Hpid. cbn [mbind result_bind].
    rewrite Hdv0. cbn [mbind result_bind]. rewrite Hdid. cbn [mbind result_bind].
    rewrite Hdv. cbn [mbind result_bind]. rewrite Htv. cbn [mbind result_bind].
    assert (negb (pid =? 0) && negb (did =? 0) && Json.truthy dv && Json.truthy tv = false)
      as ->; [|done].
    destruct Hmissing as [->|[->|[->| ->]]]; cbn; by rewrite ?andb_false_r.
  - intros (payload & Hbody & Hpv). unfold add_appointment_body.
    rewrite Hbody. cbn [mbind result_bind]. by rewrite Hpv.
  - intros pid (payload & pv & Hbody & Hpv & Hpid) (payload1 & Hbody1 & Hdv0).
    rewrite Hbody in Hbody1. injection Hbody1 as <-.
    unfold add_appointment_body. rewrite Hbody. cbn [mbind result_bind].
    rewrite Hpv. cbn [mbind result_bind]. rewrite Hpid. cbn [mbind result_bind].
    by rewrite Hdv0.
Qed.

End Appointment.

Lemma add_appointment_missing_fields_witness :
  patients_ajax_add_appointment (H:=Sample.django) (H0:=Fixtures.forms)
    Fixtures.book_bob_undated Fixtures.hospital
  = (JsonFail 400 (Message (u "missing fields")), Fixtures.hospital)
  ∧ patients_ajax_add_appointment (H:=Sample.django) (H0:=Fixtures.forms)
      (Sample.post_json (JObj [(u "doctor_id", JInt 1)])) Fixtures.hospital
    = (JsonFail 500 (StrOf TypeError), Fixtures.hospital).
Proof.
  split.
  - destruct (add_appointment_missing_fields (D:=Sample.django) (Fo:=Fixtures.forms)
                Fixtures.book_bob_undated Fixtures.hospital eq_refl) as (Hmissing & _).
    apply (Hmissing 2 1 (JStr []) (JStr (u "36000"))).
    + eexists _, _. split_and!; reflexivity.
    + eexists _, _. split_and!; reflexivity.
    + eexists. split; reflexivity.
    + eexists. split; reflexivity.
    + auto.
  - destruct (add_appointment_missing_fields (D:=Sample.django) (Fo:=Fixtures.forms)
                (Sample.post_json (JObj [(u "doctor_id", JInt 1)])) Fixtures.hospital eq_refl)
      as (_ & Habsent & _).
    apply Habsent. eexists. split; reflexivity.
Defined.

Lemma add_appointment_effect_witness :
  patients (tables (patients_ajax_add_appointment (H:=Sample.django) (H0:=Fixtures.forms)
                      Fixtures.book_bob Fixtures.hospital).2)
  = patients Sample.hospital_db
  ∧ (patients_ajax_add_appointment (H:=Sample.django) (H0:=Fixtures.forms)
       (Sample.get_request []) Fixtures.hospital).1
    = JsonFail 405 (Message (u "POST required")).
Proof.
  split.
  - apply (add_appointment_effect (D:=Sample.django) (Fo:=Fixtures.forms)
             Fixtures.book_bob Fixtures.hospital).
  - by apply (add_appointment_effect (D:=Sample.django) (Fo:=Fixtures.forms)
                (Sample.get_request []) Fixtures.hospital).
Defined.

Example bob_booked :
  patients_ajax_add_appointment (H:=Sample.django) (H0:=Fixtures.forms)
    Fixtures.book_bob Fixtures.hospital
  = (JsonOk (u "Appointment added") (u "John Smith") (u "739001 36000")
       (u "<a href=" ++ School.dq ++ u "#" ++ School.dq ++ u " class=" ++ School.dq
        ++ u "appt-link" ++ School.dq ++ u " data-appt-id=" ++ School.dq ++ u "2"
        ++ School.dq ++ u ">739001 36000</a>"),
     MkStore (MkDB (auth_users Sample.hospital_db) (doctors Sample.hospital_db)
                   (patients Sample.hospital_db)
                   (appointments Sample.hospital_db
                    ++ [Appointment.Build 2 1 2 739001 36000]))
             2 1 3 2).
Proof. reflexivity. Qed.

End AppointmentProps.

(** ** What the tables of the hospital portal keep true *)

Module HospitalInvProps.
Import Hospital HospitalEdit HospitalInv.

Section Sound.
Context `{D : Django} `{Fo : Forms}.

Lemma insert_patient_sound first last age cond s :
  sound (tables s) → sound (tables (insert_patient first last age cond s)).
Proof.
  intros [Hp Ha Hl]. unfold insert_patient, set_patients.
  split; cbn [tables patients appointments doctors].
  - rewrite fmap_app. apply ConsistencyProps.NoDup_snoc; [done|].
    apply AppointmentProps.autoincrement_fresh.
  - done.
  - intros a [Hpa Hda]%Hl. split; [|done]. rewrite fmap_app. apply elem_of_app. by left.
Qed.

Lemma delete_patient_sound pk d : sound d → sound (delete_patient pk d).
Proof.
  intros [Hp Ha Hl]. unfold delete_patient. split; cbn [patients appointments doctors].
  - eapply sublist_NoDup; [exact Hp|]. apply fmap_sublist, sublist_filter.
  - eapply sublist_NoDup; [exact Ha|]. apply fmap_sublist, sublist_filter.
  - intros a [Hne Hin]%list_elem_of_filter. destruct (Hl a Hin) as [Hpa Hda].
    split; [|done].
    apply list_elem_of_fmap in Hpa as (p & Hid & Hpin). apply list_elem_of_fmap.
    exists p. split; [done|]. apply list_elem_of_filter. split; [congruence|done].
Qed.

Lemma update_sound req d : sound d → sound (patients_ajax_update req d).2.
Proof.
  intros Hsound. unfold patients_ajax_update.
  destruct (negb (bool_decide (method req = POST))); [done|].
  destruct (update_body req d) as [[r d']|e] eqn:Hbody; [|done]. cbn [snd].
  destruct (AjaxUpdateProps.update_body_cases _ _ _ _ Hbody)
    as [[_ ->]|[_ [->|(p & _ & Hsave)]]]; try done.
  destruct (AjaxUpdateProps.save_frame _ _ _ Hsave) as (_ & Hd & Ha & Hids & _).
  destruct Hsound as [Hp Hap Hl]. split; rewrite ?Hids, ?Ha, ?Hd; done.
Qed.

Lemma add_appointment_sound req s :
  sound (tables s) → sound (tables (patients_ajax_add_appointment req s).2).
Proof.
  intros Hsound. unfold patients_ajax_add_appointment.
  destruct (negb (bool_decide (method req = POST))); [done|].
  destruct (add_appointment_body req s) as [[r s']|e] eqn:Hbody; [|done]. cbn [snd].
  destruct (AppointmentProps.add_appointment_body_cases _ _ _ _ Hbody)
    as (pid & did & dv & tv & _ & _ & _ & _ & [(_ & -> & _)|(_ & _ & _ & _ & Hadded)]);
    [done|].
  destruct Hadded as (patient & doctor & ds & ts & date & time & Hpin & _ & Hdin & _
                      & _ & _ & _ & _ & -> & _).
  destruct Hsound as [Hp Ha Hl]. unfold insert_appointment.
  split; cbn [tables patients appointments doctors]; [done|..].
  - rewrite fmap_app. apply ConsistencyProps.NoDup_snoc; [done|].
    apply AppointmentProps.autoincrement_fresh.
  - intros a [Hin|Hin%list_elem_of_singleton]%elem_of_app; [by apply Hl|]. subst a.
    cbn [Appointment.patient_id Appointment.doctor_id].
    split; by apply list_elem_of_fmap_2.
Qed.

Lemma serves_sound s s' : serves s s' → sound (tables s) → sound (tables s').
Proof.
  intros [req post|req pk r s1 Hdelete|req|req] Hsound.
  - unfold patient_add. destruct (bool_decide (method req = POST)); [|done].
    destruct (patient_form_clean post) as [[[[first last] age] cond]|]; [|done].
    by apply insert_patient_sound.
  - unfold patient_delete in Hdelete.
    destruct (find _ (patients (tables s))) as [p|]; [|done].
    destruct (bool_decide (method req = POST)); injection Hdelete as _ <-; [|done].
    by apply delete_patient_sound.
  - by apply update_sound.
  - by apply add_appointment_sound.
Qed.

Lemma serves_staff s s' :
  serves s s' →
  doctors (tables s') = doctors (tables s) ∧ auth_users (tables s') = auth_users (tables s).
Proof.
  intros [req post|req pk r s1 Hdelete|req|req].
  - unfold patient_add. destruct (bool_decide (method req = POST)); [|done].
    by destruct (patient_form_clean post) as [[[[first last] age] cond]|].
  - unfold patient_delete in Hdelete.
    destruct (find _ (patients (tables s))) as [p|]; [|done].
    by destruct (bool_decide (method req = POST)); injection Hdelete as _ <-.
  - cbn [tables set_tables]. unfold patients_ajax_update.
    destruct (negb (bool_decide (method req = POST))); [done|].
    destruct (update_body req (tables s)) as [[r d']|e] eqn:Hbody; [|done]. cbn [snd].
    destruct (AjaxUpdateProps.update_body_cases _ _ _ _ Hbody)
      as [[_ ->]|[_ [->|(p & _ & Hsave)]]]; try done.
    by destruct (AjaxUpdateProps.save_frame _ _ _ Hsave) as (-> & -> & _).
  - unfold patients_ajax_add_appointment.
    destruct (negb (bool_decide (method req = POST))); [done|].
    destruct (add_appointment_body req s) as [[r s2]|e] eqn:Hbody; [|done]. cbn [snd].
    destruct (AppointmentProps.add_appointment_body_cases _ _ _ _ Hbody)
      as (pid & did & dv & tv & _ & _ & _ & _ & [(_ & -> & _)|(_ & _ & _ & _ & Hadded)]);
      [done|].
    by destruct Hadded as (patient & doctor & ds & ts & date & time & _ & _ & _ & _
                           & _ & _ & _ & _ & -> & _).
Qed.

(** X17. Whatever the views that write are asked one after the other
    (adding a patient, deleting one, the AJAX update, adding an appointment),
    sound tables stay sound: patients keep distinct ids, appointments keep
    distinct ids, and every appointment names a patient and a doctor that
    exist; and no such request changes a doctor or a user. *)
Theorem views_keep_tables_sound (s s' : Store) :
  rtc serves s s' → sound (tables s) →
  sound (tables s')
  ∧ doctors (tables s') = doctors (tables s)
  ∧ auth_users (tables s') = auth_users (tables s).
Proof.
  induction 1 as [|s1 s2 s3 Hstep _ IH]; [done|].
  intros Hs1. destruct (serves_staff _ _ Hstep) as [Hd Hu].
  destruct IH as (? & ? & ?); [by apply (serves_sound s1)|].
  split_and!; congruence.
Qed.

End Sound.

Lemma hospital_sound : sound Sample.hospital_db.
Proof.
  split; cbn.
  - by apply (bool_decide_unpack _).
  - apply NoDup_singleton.
  - intros a Ha%list_elem_of_singleton. subst a. split; by apply (bool_decide_unpack _).
Qed.

Lemma views_keep_tables_sound_witness :
  ∃ s1 s2,
    patient_delete (Sample.post_json JNull) 1 Fixtures.hospital
    = Ok (RedirectTo (u "/patients/"), s1)
    ∧ s2 = (patients_ajax_add_appointment (H:=Sample.django) (H0:=Fixtures.forms)
              Fixtures.book_bob s1).2
    ∧ sound (tables s2).
Proof.
  destruct (patient_delete (Sample.post_json JNull) 1 Fixtures.hospital)
    as [[r s1]|] eqn:Hdelete; [|by vm_compute in Hdelete].
  exists s1, (patients_ajax_add_appointment (H:=Sample.django) (H0:=Fixtures.forms)
                Fixtures.book_bob s1).2.
  split; [by vm_compute in Hdelete; injection Hdelete as <- <-|]. split; [done|].
  apply (views_keep_tables_sound (D:=Sample.django) (Fo:=Fixtures.forms) Fixtures.hospital).
  - eapply rtc_l; [by eapply serves_delete|]. apply rtc_once, serves_appointment.
  - exact hospital_sound.
Defined.

End HospitalInvProps.

(** ** Seeding the demo data *)

Module SeedProps.
Import Hospital HospitalEdit HospitalInv.

Lemma get_existing_none {A} (P : A → Prop) `{!∀ x, Decision (P x)} (rows : list A) :
  get_existing P rows = inr None → filter P rows = [].
Proof. unfold get_existing. by destruct (filter P rows) as [|x [|y l]]. Qed.

Lemma get_existing_some {A} (P : A → Prop) `{!∀ x, Decision (P x)} (rows : list A) x :
  get_existing P rows = inr (Some x) ↔ filter P rows = [x].
Proof.
  unfold get_existing. destruct (filter P rows) as [|y [|z l]]; split; try done.
  - by intros [= ->].
  - by intros [= ->].
Qed.

Lemma get_existing_many {A} (P : A → Prop) `{!∀ x, Decision (P x)} (rows : list A) :
  (2 ≤ length (filter P rows))%nat → get_existing P rows = inl MultipleObjectsReturned.
Proof.
  unfold get_existing. destruct (filter P rows) as [|y [|z l]]; cbn; [lia..|done].
Qed.

Lemma filter_created {A} (P : A → Prop) `{!∀ x, Decision (P x)} (rows : list A) x :
  filter P rows = [] → P x → filter P (rows ++ [x]) = [x].
Proof. intros Hnone Hx. by rewrite filter_app, Hnone, filter_cons_True. Qed.

Lemma filter_other {A} (P : A → Prop) `{!∀ x, Decision (P x)} (rows : list A) x :
  ¬ P x → filter P (rows ++ [x]) = filter P rows.
Proof. intros Hx. by rewrite filter_app, filter_cons_False, app_nil_r. Qed.

Lemma filter_singleton_elem {A} (P : A → Prop) `{!∀ x, Decision (P x)} (rows : list A) x :
  filter P rows = [x] → x ∈ rows ∧ P x.
Proof.
  intros Hx. assert (x ∈ filter P rows) as Hin by (rewrite Hx; left).
  apply list_elem_of_filter in Hin. tauto.
Qed.

(** [seed_admin] *)
Lemma seed_admin_spec s :
  let s' := seed_admin s in
  auth_users (tables s) `prefix_of` auth_users (tables s')
  ∧ doctors (tables s') = doctors (tables s)
  ∧ patients (tables s') = patients (tables s)
  ∧ appointments (tables s') = appointments (tables s)
  ∧ Exists (λ usr, AuthUser.username usr = u "admin") (auth_users (tables s')).
Proof.
  unfold seed_admin. case_bool_decide as Hadmin; cbn.
  - split_and!; done.
  - split_and!; try done; [by apply prefix_app_r|].
    apply Exists_app. right. by constructor.
Qed.

Lemma seed_admin_done s :
  Exists (λ usr, AuthUser.username usr = u "admin") (auth_users (tables s)) →
  seed_admin s = s.
Proof. intros Hadmin. unfold seed_admin. by rewrite bool_decide_eq_true_2. Qed.

(** [User.objects.get_or_create(username="dr_smith", ...)] *)
Lemma seed_doctor_user_spec s usr s' :
  seed_doctor_user s = inr (usr, s') →
  auth_users (tables s) `prefix_of` auth_users (tables s')
  ∧ doctors (tables s') = doctors (tables s)
  ∧ patients (tables s') = patients (tables s)
  ∧ appointments (tables s') = appointments (tables s)
  ∧ filter (λ usr, AuthUser.username usr = u "dr_smith") (auth_users (tables s')) = [usr].
Proof.
  unfold seed_doctor_user.
  destruct (get_existing _ (auth_users (tables s))) as [e|[found|]] eqn:Hget; [done|..].
  - intros [= <- <-]. by apply get_existing_some in Hget.
  - intros [= <- <-]. apply get_existing_none in Hget. cbn.
    split_and!; try done; [by apply prefix_app_r|]. by apply filter_created.
Qed.

Lemma seed_doctor_user_done s usr :
  filter (λ usr, AuthUser.username usr = u "dr_smith") (auth_users (tables s)) = [usr] →
  seed_doctor_user s = inr (usr, s).
Proof.
  intros Hone%get_existing_some. unfold seed_doctor_user. by rewrite Hone.
Qed.

(** [Doctor.objects.get_or_create(user=doc_user, ...)] *)
Lemma seed_doctor_spec usr s s' :
  seed_doctor usr s = inr s' →
  auth_users (tables s') = auth_users (tables s)
  ∧ doctors (tables s) `prefix_of` doctors (tables s')
  ∧ patients (tables s') = patients (tables s)
  ∧ appointments (tables s') = appointments (tables s)
  ∧ ∃ doc, filter (λ doc, Doctor.user_id doc = AuthUser.id usr) (doctors (tables s')) = [doc].
Proof.
  unfold seed_doctor.
  destruct (get_existing _ (doctors (tables s))) as [e|[found|]] eqn:Hget; [done|..].
  - intros [= <-]. apply get_existing_some in Hget. split_and!; try done. by exists found.
  - intros [= <-]. apply get_existing_none in Hget. cbn.
    split_and!; try done; [by apply prefix_app_r|]. eexists. by apply filter_created.
Qed.

Lemma seed_doctor_done usr s doc :
  filter (λ doc, Doctor.user_id doc = AuthUser.id usr) (doctors (tables s)) = [doc] →
  seed_doctor usr s = inr s.
Proof. intros Hone%get_existing_some. unfold seed_doctor. by rewrite Hone. Qed.

(** [Patient.objects.get_or_create(first_name=..., last_name=..., ...)] *)
Lemma seed_patient_spec first last age cond s s' :
  seed_patient first last age cond s = inr s' →
  auth_users (tables s') = auth_users (tables s)
  ∧ doctors (tables s') = doctors (tables s)
  ∧ appointments (tables s') = appointments (tables s)
  ∧ (patients (tables s') = patients (tables s)
     ∨ ∃ id, patients (tables s')
             = patients (tables s) ++ [Patient.Build id first last age cond])
  ∧ ∃ p, filter (λ p, Patient.first_name p = first ∧ Patient.last_name p = last)
                (patients (tables s')) = [p].
Proof.
  unfold seed_patient.
  destruct (get_existing _ (patients (tables s))) as [e|[found|]] eqn:Hget; [done|..].
  - intros [= <-]. apply get_existing_some in Hget. split_and!; try done; [by left|].
    by exists found.
  - intros [= <-]. apply get_existing_none in Hget. cbn.
    split_and!; try done; [right; by eexists|]. eexists. by apply filter_created.
Qed.

Lemma seed_patient_done first last age cond s p :
  filter (λ p, Patient.first_name p = first ∧ Patient.last_name p = last)
         (patients (tables s)) = [p] →
  seed_patient first last age cond s = inr s.
Proof. intros Hone%get_existing_some. unfold seed_patient. by rewrite Hone. Qed.

(** X18. When [seed_demo] succeeds it only appends rows: users, doctors and
    patients that were there stay as they were, in their places, and the
    appointments are untouched; afterwards there are a user [admin], a user
    [dr_smith] with a doctor, and patients named Alice Brown and Bob Green;
    and running it again, as every start of the application does, changes
    nothing. *)
Theorem seed_demo_settles (s s1 : Store) :
  seed_demo s = (s1, None) →
  seed_demo s1 = (s1, None)
  ∧ auth_users (tables s) `prefix_of` auth_users (tables s1)
  ∧ doctors (tables s) `prefix_of` doctors (tables s1)
  ∧ patients (tables s) `prefix_of` patients (tables s1)
  ∧ appointments (tables s1) = appointments (tables s)
  ∧ Exists (λ usr, AuthUser.username usr = u "admin") (auth_users (tables s1))
  ∧ (∃ usr doc, usr ∈ auth_users (tables s1) ∧ AuthUser.username usr = u "dr_smith"
                ∧ doc ∈ doctors (tables s1) ∧ Doctor.user_id doc = AuthUser.id usr)
  ∧ (∃ p, p ∈ patients (tables s1)
          ∧ Patient.first_name p = u "Alice" ∧ Patient.last_name p = u "Brown")
  ∧ (∃ p, p ∈ patients (tables s1)
          ∧ Patient.first_name p = u "Bob" ∧ Patient.last_name p = u "Green").
Proof.
  unfold seed_demo at 1.
  destruct (seed_admin_spec s) as (Hu0 & Hd0 & Hp0 & Ha0 & Hadmin).
  destruct (seed_doctor_user (seed_admin s)) as [e|[usr sa]] eqn:H1; [done|].
  destruct (seed_doctor_user_spec _ _ _ H1) as (Hu1 & Hd1 & Hp1 & Ha1 & Husr).
  destruct (seed_doctor usr sa) as [e|sb] eqn:H2; [done|].
  destruct (seed_doctor_spec _ _ _ H2) as (Hu2 & Hd2 & Hp2 & Ha2 & doc & Hdoc).
  destruct (seed_patient (u "Alice") (u "Brown") 30 (u "Checkup") sb) as [e|sc] eqn:H3; [done|].
  destruct (seed_patient_spec _ _ _ _ _ _ H3) as (Hu3 & Hd3 & Ha3 & Hp3 & alice & Halice).
  destruct (seed_patient (u "Bob") (u "Green") 45 (u "Diabetes") sc) as [e|sd] eqn:H4; [done|].
  destruct (seed_patient_spec _ _ _ _ _ _ H4) as (Hu4 & Hd4 & Ha4 & Hp4 & bob & Hbob).
  intros [= <-].
  assert (patients (tables sb) `prefix_of` patients (tables sc)) as Hpre3
    by (destruct Hp3 as [->|[id ->]]; [done|by apply prefix_app_r]).
  assert (patients (tables sc) `prefix_of` patients (tables sd)) as Hpre4
    by (destruct Hp4 as [->|[id ->]]; [done|by apply prefix_app_r]).
  assert (filter (λ p, Patient.first_name p = u "Alice" ∧ Patient.last_name p = u "Brown")
                 (patients (tables sd)) = [alice]) as Halice'.
  { destruct Hp4 as [->|[id ->]]; [done|]. rewrite filter_other; [done|].
    cbn. by intros [[=] _]. }
  assert (Exists (λ usr, AuthUser.username usr = u "admin") (auth_users (tables sd))) as Hadmin'.
  { rewrite Hu4, Hu3, Hu2. destruct Hu1 as [k ->]. apply Exists_app. by left. }
  split_and!.
  - unfold seed_demo. rewrite (seed_admin_done sd Hadmin').
    rewrite (seed_doctor_user_done sd usr) by (by rewrite Hu4, Hu3, Hu2).
    rewrite (seed_doctor_done usr sd doc) by (by rewrite Hd4, Hd3).
    rewrite (seed_patient_done _ _ _ _ sd alice Halice').
    by rewrite (seed_patient_done _ _ _ _ sd bob Hbob).
  - rewrite Hu4, Hu3, Hu2. by etransitivity.
  - rewrite Hd4, Hd3, <- Hd0, <- Hd1. exact Hd2.
  - rewrite <- Hp0, <- Hp1, <- Hp2. by etransitivity.
  - by rewrite Ha4, Ha3, Ha2, Ha1.
  - done.
  - apply filter_singleton_elem in Husr as [Husr Hname].
    apply filter_singleton_elem in Hdoc as [Hdoc Huid].
    exists usr, doc. rewrite Hu4, Hu3, Hu2, Hd4, Hd3. by split_and!.
  - apply filter_singleton_elem in Halice' as [? [? ?]]. by exists alice.
  - apply filter_singleton_elem in Hbob as [? [? ?]]. by exists bob.
Qed.

(** X19. With two patients named Alice Brown in the table, which the form
    for adding patients allows, [seed_demo] raises [MultipleObjectsReturned]
    and creates no patient: the module that calls it at its start cannot be
    loaded any more. *)
Theorem seed_demo_fails_on_namesakes (s : Store) :
  (2 ≤ length (alice_browns (tables s)))%nat →
  (seed_demo s).2 = Some MultipleObjectsReturned
  ∧ patients (tables (seed_demo s).1) = patients (tables s)
  ∧ appointments (tables (seed_demo s).1) = appointments (tables s).
Proof.
  intros Htwo. unfold seed_demo.
  destruct (seed_admin_spec s) as (Hu0 & Hd0 & Hp0 & Ha0 & Hadmin).
  destruct (seed_doctor_user (seed_admin s)) as [[]|[usr sa]] eqn:H1; [done|].
  destruct (seed_doctor_user_spec _ _ _ H1) as (Hu1 & Hd1 & Hp1 & Ha1 & Husr).
  destruct (seed_doctor usr sa) as [[]|sb] eqn:H2; cbn [fst snd].
  { split_and!; congruence. }
  destruct (seed_doctor_spec _ _ _ H2) as (Hu2 & Hd2 & Hp2 & Ha2 & doc & Hdoc).
  assert (seed_patient (u "Alice") (u "Brown") 30 (u "Checkup") sb
          = inl MultipleObjectsReturned) as ->.
  { unfold seed_patient. rewrite get_existing_many; [done|].
    unfold alice_browns in Htwo. by rewrite Hp2, Hp1, Hp0. }
  cbn [fst snd]. split_and!; congruence.
Qed.

Lemma seed_demo_settles_witness :
  ∃ s1, seed_demo Fixtures.hospital = (s1, None)
        ∧ seed_demo s1 = (s1, None)
        ∧ patients (tables s1) = patients Sample.hospital_db
        ∧ auth_users (tables s1)
          = auth_users Sample.hospital_db ++ [AuthUser.Build 3 (u "admin") [] []].
Proof.
  destruct (seed_demo Fixtures.hospital) as [s1 e] eqn:Hseed.
  assert (e = None) as -> by (vm_compute in Hseed; by injection Hseed as _ <-).
  exists s1. split; [done|]. split.
  - by apply (seed_demo_settles Fixtures.hospital s1).
  - vm_compute in Hseed. by injection Hseed as <-.
Defined.

Lemma seed_demo_fails_on_namesakes_witness :
  (seed_demo (patient_add (H0:=Fixtures.forms) Fixtures.bare_post Fixtures.namesake
                Fixtures.hospital).2).2
  = Some MultipleObjectsReturned.
Proof.
  apply (seed_demo_fails_on_namesakes
           (patient_add (H0:=Fixtures.forms) Fixtures.bare_post Fixtures.namesake
              Fixtures.hospital).2).
  vm_compute. lia.
Defined.

End SeedProps.

(** ** The tables made at start-up *)

Module SetupProps.
Import HospitalSetup.

Lemma create_each_spec (existing : gset pystr) (ml : list Model) (created : list pystr)
    (now : gset pystr) :
  NoDup (db_table <$> ml) →
  existing ⊆ now →
  (∀ m, m ∈ ml → db_table m ∉ existing → db_table m ∉ now) →
  create_each existing ml created now
  = inr (created ++ filter (λ t, t ∉ existing) (db_table <$> ml),
         now ∪ list_to_set (db_table <$> ml)).
Proof.
  revert created now. induction ml as [|m ml IH]; intros created now Hnd Hsub Hfresh.
  - cbn. rewrite app_nil_r. f_equal. f_equal. apply set_eq. intros t.
    rewrite elem_of_union, elem_of_empty. tauto.
  - cbn [fmap list_fmap] in Hnd. apply NoDup_cons in Hnd as [Hm Hnd].
    cbn [create_each fmap list_fmap list_to_set]. rewrite filter_cons.
    case_bool_decide as Hex.
    + rewrite decide_False by tauto.
      assert (∀ m', m' ∈ ml → db_table m' ∉ existing → db_table m' ∉ now) as Hfresh'
        by (intros m' Hm'; apply Hfresh; by right).
      rewrite (IH created now Hnd Hsub Hfresh').
      f_equal. f_equal. apply set_eq. intros t.
      rewrite !elem_of_union, elem_of_singleton. split; [tauto|].
      intros [?|[->|?]]; auto.
    + rewrite decide_True by done. unfold create_model.
      rewrite bool_decide_eq_false_2 by (apply Hfresh; [left|done]).
      assert (existing ⊆ {[db_table m]} ∪ now) as Hsub'.
      { intros t Ht. apply elem_of_union. right. by apply Hsub. }
      assert (∀ m', m' ∈ ml → db_table m' ∉ existing →
                    db_table m' ∉ {[db_table m]} ∪ now) as Hfresh'.
      { intros m' Hm' Hne. rewrite elem_of_union, elem_of_singleton.
        intros [Heq|Hin]; [|apply (Hfresh m'); [by right|done..]].
        apply Hm. rewrite <- Heq. by apply list_elem_of_fmap_2. }
      rewrite (IH (created ++ [db_table m]) _ Hnd Hsub' Hfresh').
      rewrite <- app_assoc. f_equal. f_equal. apply set_eq. intros t.
      rewrite !elem_of_union, elem_of_singleton. tauto.
Qed.

(** What [create_missing_tables] does, shared by the statements below. *)
Lemma create_missing_tables_spec (models_list : list Model) (tables : gset pystr) :
  NoDup (db_table <$> models_list) →
  let created := filter (λ t, t ∉ tables) (db_table <$> models_list) in
  let tables' := tables ∪ list_to_set (db_table <$> models_list) in
  create_missing_tables models_list tables = inr (created, tables')
  ∧ (∀ m, m ∈ models_list → db_table m ∈ tables')
  ∧ (∀ t, t ∈ tables' ↔ t ∈ tables ∨ t ∈ created)
  ∧ create_missing_tables models_list tables' = inr ([], tables').
Proof.
  intros Hnd created tables'. subst created tables'.
  assert (∀ t, t ∈ tables ∪ list_to_set (db_table <$> models_list)
               ↔ t ∈ tables ∨ t ∈ db_table <$> models_list) as Hin.
  { intros t. by rewrite elem_of_union, elem_of_list_to_set. }
  split_and!.
  - unfold create_missing_tables. by rewrite create_each_spec.
  - intros m Hm. apply Hin. right. by apply list_elem_of_fmap_2.
  - intros t. rewrite Hin, list_elem_of_filter.
    destruct (decide (t ∈ tables)); tauto.
  - unfold create_missing_tables. rewrite create_each_spec; [|done..|].
    + f_equal. f_equal.
      * apply AttendanceProps.filter_none, Forall_forall. intros t Ht Hnot.
        apply Hnot, Hin. by right.
      * apply set_eq. intros t. rewrite elem_of_union, Hin, elem_of_list_to_set. tauto.
    + intros m Hm Hnot. destruct Hnot. apply Hin. right. by apply list_elem_of_fmap_2.
Qed.

(** X20. For models with pairwise distinct tables, [create_missing_tables]
    creates the tables that are not there and no other, returns their names
    in the order of the models, and leaves every model's table in place; a
    second call finds nothing to create. *)
Theorem create_missing_tables_complete (models_list : list Model) (tables : gset pystr) :
  NoDup (db_table <$> models_list) →
  let created := filter (λ t, t ∉ tables) (db_table <$> models_list) in
  let tables' := tables ∪ list_to_set (db_table <$> models_list) in
  create_missing_tables models_list tables = inr (created, tables')
  ∧ (∀ m, m ∈ models_list → db_table m ∈ tables')
  ∧ (∀ t, t ∈ tables' ↔ t ∈ tables ∨ t ∈ created)
  ∧ create_missing_tables models_list tables' = inr ([], tables').
Proof. apply create_missing_tables_spec. Qed.

Section Setup.
Context (migrate : gset pystr → gset pystr).

(** X21. Whatever [migrate] did or failed to do, [ensure_db_setup] succeeds:
    the [RuntimeError] it can raise is never raised. Afterwards the tables of
    [Doctor], [Patient] and [Appointment] are there, next to the tables that
    [migrate] left, and nothing else. *)
Theorem ensure_db_setup_succeeds (tables : gset pystr) :
  ∃ tables',
    ensure_db_setup migrate tables = inr tables'
    ∧ (∀ m, m ∈ needed → db_table m ∈ tables')
    ∧ (∀ t, t ∈ tables' ↔ t ∈ migrate tables ∨ t ∈ db_table <$> needed).
Proof.
  unfold ensure_db_setup.
  set (now := migrate tables).
  set (missing := filter (λ m, db_table m ∉ now) needed).
  assert (NoDup (db_table <$> missing)) as Hnd.
  { eapply sublist_NoDup; [|apply fmap_sublist, sublist_filter].
    by apply (bool_decide_unpack _). }
  assert (∀ m, m ∈ missing ↔ (db_table m ∉ now) ∧ m ∈ needed) as Hmiss
    by (intros m; unfold missing; by rewrite list_elem_of_filter).
  destruct (create_missing_tables_spec missing now Hnd) as (Hcreate & Hall & Hin & _).
  assert (filter (λ t, t ∉ now) (db_table <$> missing) = db_table <$> missing) as Hfilter.
  { apply AttendanceProps.filter_all, Forall_fmap, Forall_forall. intros m Hm. cbn.
    by apply Hmiss in Hm as [? _]. }
  rewrite Hfilter in Hcreate, Hin.
  assert (∀ t, t ∈ now ∨ t ∈ db_table <$> missing
               ↔ t ∈ now ∨ t ∈ db_table <$> needed) as Hsame.
  { intros t. split; (intros [?|(m & -> & Hm)%list_elem_of_fmap]; [by left|]).
    - right. apply list_elem_of_fmap_2. by apply Hmiss in Hm as [_ ?].
    - destruct (decide (db_table m ∈ now)); [by left|right].
      apply list_elem_of_fmap_2. by apply Hmiss. }
  destruct missing as [|m0 missing'] eqn:Hmissing.
  - exists now. split_and!; [done|..].
    + intros m Hm. destruct (proj2 (Hsame (db_table m))) as [?|?%elem_of_nil]; [|done..].
      right. by apply list_elem_of_fmap_2.
    + intros t. rewrite <- Hsame. split; [by left|]. by intros [?|?%elem_of_nil].
  - rewrite Hcreate. cbn [fmap list_fmap].
    eexists. split; [reflexivity|]. split.
    + intros m Hm. apply Hin, Hsame. right. by apply list_elem_of_fmap_2.
    + intros t. by rewrite Hin, Hsame.
Qed.

End Setup.

Lemma create_missing_tables_complete_witness :
  create_missing_tables needed {[ u "hospital_app_patient"; u "auth_user" ]}
  = inr ([u "hospital_app_doctor"; u "hospital_app_appointment"],
         {[ u "hospital_app_patient"; u "auth_user" ]}
         ∪ list_to_set (db_table <$> needed)).
Proof.
  destruct (create_missing_tables_complete needed
              {[ u "hospital_app_patient"; u "auth_user" ]}) as [Hcreate _];
    [by apply (bool_decide_unpack _)|].
  rewrite Hcreate. do 2 f_equal.
Defined.

Lemma ensure_db_setup_succeeds_witness :
  ∃ tables', ensure_db_setup (λ tables, {[ u "auth_user" ]} ∪ tables) ∅ = inr tables'
             ∧ u "hospital_app_appointment" ∈ tables'.
Proof.
  destruct (ensure_db_setup_succeeds (λ tables, {[ u "auth_user" ]} ∪ tables) ∅)
    as (tables' & Hsetup & Hall & _).
  exists tables'. split; [done|]. apply (Hall Appointment). do 2 right. left.
Defined.

End SetupProps.

(** ** The attendance form as it is shown *)

Module AttendanceFormProps.
Import School SchoolAux SchoolInv.

(** A dictionary built by assigning each item under its key holds, for every
    key, the last item that has it. *)
Lemma foldl_insert_last {A} (key : A → Z) (l : list A) (m : gmap Z A) (k : Z) :
  foldl (λ m a, <[key a := a]> m) m l !! k
  = match last (filter (λ a, key a = k) l) with
    | Some a => Some a
    | None => m !! k
    end.
Proof.
  revert m. induction l as [|x l IH]; intros m; [done|].
  cbn [foldl]. rewrite IH, filter_cons. destruct (decide (key x = k)) as [<-|Hne].
  - rewrite lookup_insert_eq, last_cons. by destruct (last _).
  - by rewrite lookup_insert_ne.
Qed.

Lemma last_of_unique {A} (f : A → Z) (l : list A) (x : A) :
  NoDup (f <$> l) → x ∈ l → last (filter (λ a, f a = f x) l) = Some x.
Proof.
  induction l as [|y l IH]; [by intros _ ?%elem_of_nil|].
  cbn [fmap list_fmap]. intros [Hy Hnd]%NoDup_cons Hx. rewrite filter_cons.
  destruct (decide (f y = f x)) as [Heq|Hne].
  - assert (x ∉ l) as Hnot.
    { intros Hin. apply Hy. rewrite Heq. by apply list_elem_of_fmap_2. }
    apply elem_of_cons in Hx as [->|?]; [|done].
    rewrite AttendanceProps.filter_none; [done|].
    apply Forall_forall. intros a Ha Hfa. apply Hy. rewrite <- Hfa.
    by apply list_elem_of_fmap_2.
  - apply elem_of_cons in Hx as [->|Hx]; [done|]. by apply IH.
Qed.

Section Form.
Context `{F : Flask} (T : Templates).

(** X22. For a request other than a POST, [attendance] shows the students in
    the order of their roll numbers for the day of the URL (today when the
    URL names none), with a dictionary that holds, for each student id, the
    last record of that day with that id, and none when there is no such
    record; in a consistent database that is the one record the student has
    for the day. *)
Theorem attendance_form_shows_day (req : Request) (w : World) (sel : date) :
  method req ≠ POST → selects req sel →
  ∃ existing,
    attendance T req w
    = page T req (u "attendance.html")
        [(u "students", VStudents (order_by_roll_no (students_tbl (db w))));
         (u "existing", VExisting existing); (u "selected_date", VDate sel)] w
    ∧ (∀ sid, existing !! sid
              = last (filter (λ a, Attendance.date a = sel ∧ Attendance.student_id a = sid)
                             (attendance_tbl (db w))))
    ∧ (consistent (db w) → ∀ sid a,
         existing !! sid = Some a
         ↔ a ∈ attendance_tbl (db w) ∧ Attendance.date a = sel
           ∧ Attendance.student_id a = sid).
Proof.
  intros Hpost Hsel.
  set (shown := filter (λ a, Attendance.date a = sel) (attendance_tbl (db w))).
  exists (foldl (λ (m : gmap Z Attendance.t) a, <[Attendance.student_id a := a]> m) ∅ shown).
  assert (∀ sid, foldl (λ (m : gmap Z Attendance.t) a, <[Attendance.student_id a := a]> m)
                       ∅ shown !! sid
                 = last (filter (λ a, Attendance.student_id a = sid) shown)) as Hlast.
  { intros sid. rewrite (foldl_insert_last Attendance.student_id).
    by destruct (last _). }
  split_and!.
  - unfold attendance.
    assert ((match args req !! u "date" with
             | Some s => if Py.truthy s then parse_date (Some s) else Ok (today req)
             | None => Ok (today req)
             end) = Ok sel) as ->.
    { unfold selects in Hsel. destruct (args req !! u "date") as [s|]; [|by rewrite Hsel].
      destruct (Py.truthy s); [|by rewrite Hsel]. unfold parse_date. by rewrite Hsel. }
    unfold mbind at 1, M_bind, lift. unfold mbind at 1, M_bind, get_db.
    by rewrite bool_decide_eq_false_2.
  - intros sid. rewrite Hlast. unfold shown. rewrite list_filter_filter. f_equal.
    apply list_filter_iff. intros a. tauto.
  - intros Hcons sid a. rewrite Hlast. split.
    + intros Ha%last_Some_elem_of. apply list_elem_of_filter in Ha as [Hsid Ha].
      apply list_elem_of_filter in Ha as [Hdate Ha]. done.
    + intros (Ha & Hdate & <-). apply last_of_unique.
      * apply (marked_once_a_day _ Hcons).
      * by apply list_elem_of_filter.
Qed.

End Form.

Lemma attendance_form_shows_day_witness :
  ∃ existing,
    attendance (H:=Sample.flask) Sample.templates
      (Sample.with_args [(u "date", u "101")] (Sample.anonymous GET (u "attendance")))
      Sample.world
    = page (H:=Sample.flask) Sample.templates
        (Sample.with_args [(u "date", u "101")] (Sample.anonymous GET (u "attendance")))
        (u "attendance.html")
        [(u "students", VStudents [Sample.ann; Sample.al]);
         (u "existing", VExisting existing); (u "selected_date", VDate 101)] Sample.world
    ∧ existing !! 2 = Some (Attendance.Build 3 101 (u "Leave") 2).
Proof.
  destruct (attendance_form_shows_day (F:=Sample.flask) Sample.templates
              (Sample.with_args [(u "date", u "101")] (Sample.anonymous GET (u "attendance")))
              Sample.world 101) as (existing & Hpage & Hlast & _); [done|reflexivity|].
  exists existing. split; [exact Hpage|]. by rewrite Hlast.
Defined.

End AttendanceFormProps.

(** ** An edge of the patient list *)

Module ListEdgeProps.
Import Hospital HospitalAux.

Section Edges.
Context `{D : Django}.

(** X23. A [page_size] that [int] reads as 0 makes the patient list fail
    with [ZeroDivisionError], whatever page and search are asked for: the
    number of pages cannot be computed, neither for the page asked nor for
    the pages the view falls back to. *)
Theorem zero_page_size_fails (req : Request) (d : DB) (s : pystr) :
  query req !! u "page_size" = Some s → s ≠ [] → py_int s = Some 0 →
  patients_list req d = Raise ZeroDivisionError.
Proof.
  intros Hs Hne Hzero. unfold patients_list, patients_list_context.
  rewrite Hs. assert (Py.truthy s = true) as ->.
  { unfold Py.truthy. by rewrite bool_decide_eq_false_2. }
  rewrite Hzero. cbn [mbind result_bind].
  unfold Paginator.page, Paginator.validate_number, Paginator.num_pages.
  cbn [Paginator.per_page Z.eqb mbind result_bind].
  destruct (match query req !! u "page" with
            | Some s0 => if Py.truthy s0 then inl s0 else inr 1
            | None => inr 1
            end) as [t|n].
  - destruct (py_int t) as [n|]; [|done].
    destruct (n <? 1); done.
  - destruct (n <? 1); done.
Qed.

End Edges.

Lemma zero_page_size_fails_witness :
  patients_list (H:=Sample.django) (Sample.get_request [(u "page_size", u "0")])
    Sample.hospital_db
  = Raise ZeroDivisionError.
Proof.
  by apply (zero_page_size_fails (D:=Sample.django)
              (Sample.get_request [(u "page_size", u "0")]) Sample.hospital_db (u "0")).
Defined.

End ListEdgeProps.

(** ** Ids that were given once *)

Module IdReuseProps.
Import Hospital HospitalEdit HospitalInv.

Section Reuse.
Context `{D : Django} `{Fo : Forms}.

Lemma autoincrement_above seq ids : seq < autoincrement seq ids.
Proof. unfold autoincrement. lia. Qed.

Lemma not_elem_of_snoc (x y : Z) (l : list Z) : x ∉ l → x ≠ y → x ∉ l ++ [y].
Proof.
  intros Hl Hne [Hin|Hin%list_elem_of_singleton]%elem_of_app; [by apply Hl|by apply Hne].
Qed.

(** What one request does to the counters and to the ids in use. *)
Lemma serves_ids s s' :
  serves s s' →
  patient_seq s ≤ patient_seq s' ∧ appointment_seq s ≤ appointment_seq s'
  ∧ (∀ pk, pk ≤ patient_seq s → pk ∉ (Patient.id <$> patients (tables s)) →
           pk ∉ (Patient.id <$> patients (tables s')))
  ∧ (∀ k, k ≤ appointment_seq s → k ∉ (Appointment.id <$> appointments (tables s)) →
          k ∉ (Appointment.id <$> appointments (tables s'))).
Proof.
  intros [req post|req pk r s1 Hdelete|req|req].
  - unfold patient_add. destruct (bool_decide (method req = POST)); [|done].
    destruct (patient_form_clean post) as [[[[first last] age] cond]|]; [|done].
    cbn [snd]. unfold insert_patient, set_patients.
    cbn [tables patients appointments patient_seq appointment_seq].
    pose proof (autoincrement_above (patient_seq s) (Patient.id <$> patients (tables s))).
    split_and!; [lia|done| |done].
    intros pk Hle Hout. rewrite fmap_app. apply not_elem_of_snoc; [done|].
    cbn [Patient.id]. lia.
  - unfold patient_delete in Hdelete.
    destruct (find _ (patients (tables s))) as [p|]; [|done].
    destruct (bool_decide (method req = POST)); injection Hdelete as _ <-; [|done].
    unfold delete_patient. cbn [tables set_tables patients appointments patient_seq
                                 appointment_seq].
    split_and!; [done..| |].
    + intros k _ Hout Hin. apply Hout.
      eapply elem_of_sublist; [exact Hin|]. apply fmap_sublist, sublist_filter.
    + intros k _ Hout Hin. apply Hout.
      eapply elem_of_sublist; [exact Hin|]. apply fmap_sublist, sublist_filter.
  - cbn [tables set_tables patient_seq appointment_seq]. unfold patients_ajax_update.
    destruct (negb (bool_decide (method req = POST))); [done|].
    destruct (update_body req (tables s)) as [[r d']|e] eqn:Hbody; [|done]. cbn [snd].
    destruct (AjaxUpdateProps.update_body_cases _ _ _ _ Hbody)
      as [[_ ->]|[_ [->|(p & _ & Hsave)]]]; try done.
    destruct (AjaxUpdateProps.save_frame _ _ _ Hsave) as (_ & _ & -> & -> & _). done.
  - unfold patients_ajax_add_appointment.
    destruct (negb (bool_decide (method req = POST))); [done|].
    destruct (add_appointment_body req s) as [[r s2]|e] eqn:Hbody; [|done]. cbn [snd].
    destruct (AppointmentProps.add_appointment_body_cases _ _ _ _ Hbody)
      as (pid & did & dv & tv & _ & _ & _ & _ & [(_ & -> & _)|(_ & _ & _ & _ & Hadded)]);
      [done|].
    destruct Hadded as (patient & doctor & ds & ts & date & time & _ & _ & _ & _
                        & _ & _ & _ & _ & -> & _).
    unfold insert_appointment.
    cbn [tables patients appointments patient_seq appointment_seq].
    pose proof (autoincrement_above (appointment_seq s)
                  (Appointment.id <$> appointments (tables s))).
    split_and!; [done|lia|done|].
    intros k Hle Hout. rewrite fmap_app. apply not_elem_of_snoc; [done|].
    cbn [Appointment.id]. lia.
Qed.

(** X24. An id is not given twice. Once the counter of a table has reached
    an id and no row has it (the row was deleted, by [patient_delete] or by
    its cascade), no request that follows brings a row with that id back:
    not a patient, and not an appointment. The counters never go down. *)
Theorem deleted_ids_stay_unused (s s' : Store) :
  rtc serves s s' →
  patient_seq s ≤ patient_seq s' ∧ appointment_seq s ≤ appointment_seq s'
  ∧ (∀ pk, pk ≤ patient_seq s → pk ∉ (Patient.id <$> patients (tables s)) →
           pk ∉ (Patient.id <$> patients (tables s')))
  ∧ (∀ k, k ≤ appointment_seq s → k ∉ (Appointment.id <$> appointments (tables s)) →
          k ∉ (Appointment.id <$> appointments (tables s'))).
Proof.
  induction 1 as [|s1 s2 s3 Hstep _ (IHp & IHa & IHpk & IHk)]; [done|].
  destruct (serves_ids _ _ Hstep) as (Hp & Ha & Hpk & Hk).
  split_and!; [lia..| |].
  - intros pk Hle Hout. apply IHpk; [lia|by apply Hpk].
  - intros k Hle Hout. apply IHk; [lia|by apply Hk].
Qed.

End Reuse.

(** Alice, the patient 1, is deleted with her appointment 1, and then a
    second Alice Brown is added and Bob gets an appointment: they get the ids
    4 and 2. *)
Lemma deleted_ids_stay_unused_witness :
  ∃ s1 s3,
    patient_delete (Sample.post_json JNull) 1 Fixtures.hospital
    = Ok (RedirectTo (u "/patients/"), s1)
    ∧ s3 = (patients_ajax_add_appointment (H:=Sample.django) (H0:=Fixtures.forms)
              Fixtures.book_bob
              (patient_add (H0:=Fixtures.forms) Fixtures.bare_post Fixtures.namesake s1).2).2
    ∧ Patient.id <$> patients (tables s3) = [2; 3; 4]
    ∧ Appointment.id <$> appointments (tables s3) = [2]
    ∧ (1 ∉ (Patient.id <$> patients (tables s3)))
    ∧ (1 ∉ (Appointment.id <$> appointments (tables s3))).
Proof.
  destruct (patient_delete (Sample.post_json JNull) 1 Fixtures.hospital)
    as [[r s1]|] eqn:Hdelete; [|by vm_compute in Hdelete].
  exists s1, (patients_ajax_add_appointment (H:=Sample.django) (H0:=Fixtures.forms)
                Fixtures.book_bob
                (patient_add (H0:=Fixtures.forms) Fixtures.bare_post Fixtures.namesake s1).2).2.
  assert (s1 = MkStore (delete_patient 1 Sample.hospital_db) 2 1 3 1) as Hs1.
  { vm_compute in Hdelete. injection Hdelete as _ <-. reflexivity. }
  split; [by vm_compute in Hdelete; injection Hdelete as <- <-|]. split; [done|].
  destruct (deleted_ids_stay_unused (D:=Sample.django) (Fo:=Fixtures.forms) s1
              (patients_ajax_add_appointment (H:=Sample.django) (H0:=Fixtures.forms)
                 Fixtures.book_bob
                 (patient_add (H0:=Fixtures.forms) Fixtures.bare_post Fixtures.namesake
                    s1).2).2)
    as (_ & _ & Hpk & Hk).
  { eapply rtc_l; [apply (serves_add _ Fixtures.bare_post Fixtures.namesake)|].
    apply rtc_once, serves_appointment. }
  split_and!.
  - subst s1. by vm_compute.
  - subst s1. by vm_compute.
  - apply Hpk; subst s1; [by vm_compute|].
    assert (Patient.id <$> patients (tables (MkStore (delete_patient 1 Sample.hospital_db)
                                                2 1 3 1)) = [2; 3]) as -> by by vm_compute.
    rewrite !elem_of_cons, elem_of_nil. intros [?|[?|[]]]; done.
  - apply Hk; subst s1; [by vm_compute|].
    assert (Appointment.id <$> appointments (tables (MkStore (delete_patient 1 Sample.hospital_db)
                                                       2 1 3 1)) = []) as -> by by vm_compute.
    intros Hin. by apply elem_of_nil in Hin.
Defined.

End IdReuseProps.
